(** * The server core of open62541: [src/server/ua_server.c]

    A shallow embedding of the namespace registry, the shutdown request, the
    main-loop iteration, the certificate rotation, the reverse-connect
    manager and the startup sequence, followed by the properties of the
    specification that concern them.

    Conventions.
    - C integers are [Z] (or [nat] for [size_t] array positions); casts are
      written out ([to_UInt16], [to_Int64]).
    - A [UA_String] / [UA_ByteString] is [option string]: [None] is the null
      string (data pointer [NULL], length 0), [Some b] has a non-null data
      pointer and the bytes [b].
    - Pointers that may be [NULL] are [option]s; dereferencing [None] and
      reading an array past its end are undefined behaviour, which the
      embedding reports as [Undefined].
    - Heap allocation is driven by a script of outcomes ([Heap]); every call of
      the allocator consumes one entry.
    - The event loop, the connection managers and the services outside this
      file are an interface ([Collaborators]). *)

From Stdlib Require Import ZArith String Ascii Lia.
From stdpp Require Import base option list strings.

(** ** Status codes *)

Definition UA_StatusCode := Z.

(** Modelled from the spec: the status-code constants are declared in the
    generated status-code header, which is not part of this file; "a single
    status-code namespace modeled on OPC UA codes" (section 7).  The values
    are those of the OPC UA standard. *)
Definition UA_STATUSCODE_GOOD : UA_StatusCode := 0x00000000%Z.
Definition UA_STATUSCODE_GOODCOMPLETESASYNCHRONOUSLY : UA_StatusCode := 0x002E0000%Z.
Definition UA_STATUSCODE_BADINTERNALERROR : UA_StatusCode := 0x80020000%Z.
Definition UA_STATUSCODE_BADOUTOFMEMORY : UA_StatusCode := 0x80030000%Z.
Definition UA_STATUSCODE_BADNOTFOUND : UA_StatusCode := 0x803E0000%Z.
Definition UA_STATUSCODE_BADINVALIDARGUMENT : UA_StatusCode := 0x80AB0000%Z.

(** [UA_CHECK_STATUS(res, ...)] fires when [res != UA_STATUSCODE_GOOD]. *)
Definition isGood (res : UA_StatusCode) : bool := (res =? UA_STATUSCODE_GOOD)%Z.

(** ** Integer casts *)

Definition to_UInt16 (z : Z) : Z := (z mod 65536)%Z.
Definition to_Int64 (z : Z) : Z := ((z + 2 ^ 63) mod 2 ^ 64 - 2 ^ 63)%Z.

(** Modelled from the spec: [UA_DATETIME_MSEC] is a macro of the types
    header; a [UA_DateTime] counts 100 ns ticks, so one millisecond is
    10000 ticks. *)
Definition UA_DATETIME_MSEC : Z := 10000%Z.

(** [#define UA_MAXTIMEOUT 50] *)
Definition UA_MAXTIMEOUT : Z := 50%Z.

(** ** Undefined behaviour, the allocator and the monad of the embedding *)

Inductive UB := OutOfBoundsRead | NullDereference.

Inductive result (A : Type) :=
| Returns (a : A)
| Undefined (why : UB).
Arguments Returns {A} a.
Arguments Undefined {A} why.

(** The outcomes of the coming allocation requests, in order; a request made
    after the script is exhausted succeeds. *)
Definition Heap := list bool.

Definition M (A : Type) : Type := Heap → result (A * Heap).

#[global] Instance M_ret : MRet M := λ A a h, Returns (a, h).
#[global] Instance M_bind : MBind M := λ A B f m h,
  match m h with
  | Returns (a, h') => f a h'
  | Undefined why => Undefined why
  end.

Definition undefined {A} (why : UB) : M A := λ _, Undefined why.

(** One request to [UA_malloc] / [UA_calloc] / [UA_realloc]: [true] when a
    block is returned, [false] when the allocator returns [NULL]. *)
Definition UA_malloc : M bool := λ h,
  match h with
  | [] => Returns (true, [])
  | ok :: h' => Returns (ok, h')
  end.

(** No request of the script fails. *)
Definition no_failure (h : Heap) : Prop := Forall (λ ok, ok = true) h.

(** ** Strings *)

Definition UA_String := option string.
Definition UA_ByteString := UA_String.

Definition UA_STRING_NULL : UA_String := None.

Definition UA_String_length (s : UA_String) : nat :=
  match s with
  | None => 0
  | Some b => String.length b
  end.

Definition UA_String_bytes (s : UA_String) : string := default EmptyString s.

(** [!s.data] *)
Definition UA_String_isNull (s : UA_String) : bool :=
  match s with
  | None => true
  | Some _ => false
  end.

(** Modelled from the spec: [UA_String_equal] belongs to the types library,
    which is not part of this file; URIs are compared by content ("Lookups
    are linear by URI"): equal lengths and, unless the length is 0, equal
    bytes.  The null string and the empty string are equal. *)
Definition UA_String_equal (s1 s2 : UA_String) : bool :=
  if negb (UA_String_length s1 =? UA_String_length s2) then false
  else if UA_String_length s1 =? 0 then true
  else String.eqb (UA_String_bytes s1) (UA_String_bytes s2).

Definition UA_ByteString_equal : UA_ByteString → UA_ByteString → bool := UA_String_equal.

(** Modelled from the spec: [UA_String_copy] belongs to the types library,
    which is not part of this file; a deep copy that fails with
    out-of-memory when its allocation fails (section 7).  A string of
    length 0 is copied without an allocation (null stays null, empty stays
    non-null).  The result is the status and the destination, which is left
    null on failure. *)
Definition UA_String_copy (src : UA_String) : M (UA_StatusCode * UA_String) :=
  match src with
  | None => mret (UA_STATUSCODE_GOOD, None)
  | Some b =>
      if String.length b =? 0 then mret (UA_STATUSCODE_GOOD, Some b)
      else
        ok ← UA_malloc;
        if ok : bool then mret (UA_STATUSCODE_GOOD, Some b)
        else mret (UA_STATUSCODE_BADOUTOFMEMORY, None)
  end.

(** Modelled from the spec: [UA_Array_copy] / [UA_Array_appendCopy] for
    arrays of strings belong to the types library, which is not part of this
    file; deep copies that fail with out-of-memory when an allocation fails
    (section 7).  The array is allocated first, then every member is copied;
    on failure nothing is kept. *)
Fixpoint UA_Array_copyMembers (src : list UA_String) : M (UA_StatusCode * list UA_String) :=
  match src with
  | [] => mret (UA_STATUSCODE_GOOD, [])
  | s :: rest =>
      '(res, s') ← UA_String_copy s;
      if isGood res then
        '(res, rest') ← UA_Array_copyMembers rest;
        if isGood res then mret (UA_STATUSCODE_GOOD, s' :: rest')
        else mret (res, [])
      else mret (res, [])
  end.

Definition UA_Array_copy (src : list UA_String) : M (UA_StatusCode * list UA_String) :=
  match src with
  | [] => mret (UA_STATUSCODE_GOOD, [])
  | _ =>
      ok ← UA_malloc;
      if ok : bool then UA_Array_copyMembers src
      else mret (UA_STATUSCODE_BADOUTOFMEMORY, [])
  end.

Definition UA_Array_appendCopy (arr : list UA_String) (new : UA_String)
  : M (UA_StatusCode * list UA_String) :=
  ok ← UA_malloc;
  if ok : bool then
    '(res, new') ← UA_String_copy new;
    if isGood res then mret (UA_STATUSCODE_GOOD, arr ++ [new'])
    else mret (res, arr)
  else mret (UA_STATUSCODE_BADOUTOFMEMORY, arr).

(** ** Data model *)

(** Modelled from the spec: the lifecycle enumeration is declared in the
    internal server header, which is not part of this file; only
    [UA_SERVERLIFECYCLE_FRESH] is named here.  "lifecycle state ∈ { fresh,
    started, shutting-down, stopped }" (section 3), [FRESH] being the first
    enumerator. *)
Inductive UA_ServerLifecycle :=
| UA_SERVERLIFECYCLE_FRESH
| UA_SERVERLIFECYCLE_STARTED
| UA_SERVERLIFECYCLE_SHUTTINGDOWN
| UA_SERVERLIFECYCLE_STOPPED.

(** The integer value of an enumerator, as compared by [>] in
    [UA_Server_run_startup]. *)
Definition lifecycle_value (st : UA_ServerLifecycle) : Z :=
  match st with
  | UA_SERVERLIFECYCLE_FRESH => 0
  | UA_SERVERLIFECYCLE_STARTED => 1
  | UA_SERVERLIFECYCLE_SHUTTINGDOWN => 2
  | UA_SERVERLIFECYCLE_STOPPED => 3
  end%Z.

(** Modelled from the spec: the event-loop declarations are in the plugin
    headers, which are not part of this file; "each element has
    eventSourceType, state ∈ {fresh, started, stopped}, and, for connection
    managers, protocol" (section 6). *)
Inductive UA_EventLoopState :=
| UA_EVENTLOOPSTATE_FRESH
| UA_EVENTLOOPSTATE_STARTED
| UA_EVENTLOOPSTATE_STOPPED.

Inductive UA_EventSourceState :=
| UA_EVENTSOURCESTATE_FRESH
| UA_EVENTSOURCESTATE_STARTED
| UA_EVENTSOURCESTATE_STOPPED.

Inductive UA_EventSourceType :=
| UA_EVENTSOURCETYPE_CONNECTIONMANAGER
| UA_EVENTSOURCETYPE_INTERRUPTMANAGER.

#[global] Instance UA_ServerLifecycle_eq_dec : EqDecision UA_ServerLifecycle.
Proof. solve_decision. Defined.
#[global] Instance UA_EventLoopState_eq_dec : EqDecision UA_EventLoopState.
Proof. solve_decision. Defined.
#[global] Instance UA_EventSourceState_eq_dec : EqDecision UA_EventSourceState.
Proof. solve_decision. Defined.
#[global] Instance UA_EventSourceType_eq_dec : EqDecision UA_EventSourceType.
Proof. solve_decision. Defined.

(** An event source; [protocol] is read only for connection managers. *)
Record UA_EventSource := {
  eventSourceType : UA_EventSourceType;
  es_state : UA_EventSourceState;
  protocol : UA_String
}.

(** The callbacks this file hands to the event loop. *)
Inductive UA_ServerCallback :=
| serverHouseKeeping
| retryReverseConnectCallback
| userCallback (id : nat).

(** The event loop as far as this file observes it: its state, the list of
    event sources, and the cyclic callbacks that were registered with it
    (identifier, callback, interval in ms). *)
Record UA_EventLoop := {
  el_state : UA_EventLoopState;
  eventSources : list UA_EventSource;
  cyclicCallbacks : list (Z * UA_ServerCallback * Z)
}.

(** The secure-channel states: "closed, connecting, connected" (section 3),
    and the closing state a channel is in between the shutdown request and
    the confirmation of the transport. *)
Inductive UA_SecureChannelState :=
| UA_SECURECHANNELSTATE_CLOSED
| UA_SECURECHANNELSTATE_CONNECTING
| UA_SECURECHANNELSTATE_OPEN
| UA_SECURECHANNELSTATE_CLOSING.

#[global] Instance UA_SecureChannelState_eq_dec : EqDecision UA_SecureChannelState.
Proof. solve_decision. Defined.

(** [privateKey] stands for the key material a policy keeps next to its
    certificate. *)
Record UA_SecurityPolicy := {
  policyUri : UA_ByteString;
  localCertificate : UA_ByteString;
  privateKey : UA_ByteString
}.

(** [securityPolicy] points into [config.securityPolicies] (a position), or
    is [NULL]. *)
Record UA_SecureChannel := {
  securityPolicy : option nat;
  channelState : UA_SecureChannelState
}.

(** [header.channel] points to an entry of the channel list (a position), or
    is [NULL]. *)
Record UA_Session := {
  authenticationToken : Z;
  channel : option nat
}.

Record UA_ApplicationDescription := {
  applicationUri : UA_String;
  discoveryUrls : list UA_String
}.

Record UA_EndpointDescription := {
  serverCertificate : UA_ByteString;
  securityPolicyUri : UA_ByteString;
  ed_server : UA_ApplicationDescription
}.

Record reverse_connect_context := {
  hostname : UA_String;
  port : Z;
  handle : Z;
  rc_state : UA_SecureChannelState;
  connectionId : Z;                (* currentConnection.connectionId *)
  stateCallback : option nat;      (* function pointer, may be NULL *)
  callbackContext : nat;
  destruction : bool
}.

Record UA_ServerConfig := {
  applicationDescription : UA_ApplicationDescription;
  shutdownDelay : Z;               (* in ms *)
  endpoints : list UA_EndpointDescription;
  securityPolicies : list UA_SecurityPolicy;
  serverUrls : list UA_String;
  eventLoop : option UA_EventLoop
}.

(** [namespacesSize] is the length of [namespaces].
    [reverseConnectsCheckHandle] is the identifier of the retry callback
    (0 when none is registered). *)
Record UA_Server := {
  config : UA_ServerConfig;
  namespaces : list UA_String;
  sessions : list UA_Session;
  channels : list UA_SecureChannel;
  reverseConnects : list reverse_connect_context;
  lastReverseConnectHandle : Z;
  reverseConnectsCheckHandle : Z;
  houseKeepingCallbackId : Z;
  state : UA_ServerLifecycle;
  startTime : Z;
  endTime : Z
}.

Definition namespacesSize (server : UA_Server) : nat := length (namespaces server).

(** *** Field updates *)

Definition set_config (c : UA_ServerConfig) (s : UA_Server) : UA_Server :=
  {| config := c; namespaces := namespaces s; sessions := sessions s;
     channels := channels s; reverseConnects := reverseConnects s;
     lastReverseConnectHandle := lastReverseConnectHandle s;
     reverseConnectsCheckHandle := reverseConnectsCheckHandle s;
     houseKeepingCallbackId := houseKeepingCallbackId s; state := state s;
     startTime := startTime s; endTime := endTime s |}.

Definition set_namespaces (ns : list UA_String) (s : UA_Server) : UA_Server :=
  {| config := config s; namespaces := ns; sessions := sessions s;
     channels := channels s; reverseConnects := reverseConnects s;
     lastReverseConnectHandle := lastReverseConnectHandle s;
     reverseConnectsCheckHandle := reverseConnectsCheckHandle s;
     houseKeepingCallbackId := houseKeepingCallbackId s; state := state s;
     startTime := startTime s; endTime := endTime s |}.

Definition set_sessions (l : list UA_Session) (s : UA_Server) : UA_Server :=
  {| config := config s; namespaces := namespaces s; sessions := l;
     channels := channels s; reverseConnects := reverseConnects s;
     lastReverseConnectHandle := lastReverseConnectHandle s;
     reverseConnectsCheckHandle := reverseConnectsCheckHandle s;
     houseKeepingCallbackId := houseKeepingCallbackId s; state := state s;
     startTime := startTime s; endTime := endTime s |}.

Definition set_channels (l : list UA_SecureChannel) (s : UA_Server) : UA_Server :=
  {| config := config s; namespaces := namespaces s; sessions := sessions s;
     channels := l; reverseConnects := reverseConnects s;
     lastReverseConnectHandle := lastReverseConnectHandle s;
     reverseConnectsCheckHandle := reverseConnectsCheckHandle s;
     houseKeepingCallbackId := houseKeepingCallbackId s; state := state s;
     startTime := startTime s; endTime := endTime s |}.

Definition set_reverseConnects (l : list reverse_connect_context) (s : UA_Server) : UA_Server :=
  {| config := config s; namespaces := namespaces s; sessions := sessions s;
     channels := channels s; reverseConnects := l;
     lastReverseConnectHandle := lastReverseConnectHandle s;
     reverseConnectsCheckHandle := reverseConnectsCheckHandle s;
     houseKeepingCallbackId := houseKeepingCallbackId s; state := state s;
     startTime := startTime s; endTime := endTime s |}.

Definition set_lastReverseConnectHandle (h : Z) (s : UA_Server) : UA_Server :=
  {| config := config s; namespaces := namespaces s; sessions := sessions s;
     channels := channels s; reverseConnects := reverseConnects s;
     lastReverseConnectHandle := h;
     reverseConnectsCheckHandle := reverseConnectsCheckHandle s;
     houseKeepingCallbackId := houseKeepingCallbackId s; state := state s;
     startTime := startTime s; endTime := endTime s |}.

Definition set_reverseConnectsCheckHandle (h : Z) (s : UA_Server) : UA_Server :=
  {| config := config s; namespaces := namespaces s; sessions := sessions s;
     channels := channels s; reverseConnects := reverseConnects s;
     lastReverseConnectHandle := lastReverseConnectHandle s;
     reverseConnectsCheckHandle := h;
     houseKeepingCallbackId := houseKeepingCallbackId s; state := state s;
     startTime := startTime s; endTime := endTime s |}.

Definition set_houseKeepingCallbackId (id : Z) (s : UA_Server) : UA_Server :=
  {| config := config s; namespaces := namespaces s; sessions := sessions s;
     channels := channels s; reverseConnects := reverseConnects s;
     lastReverseConnectHandle := lastReverseConnectHandle s;
     reverseConnectsCheckHandle := reverseConnectsCheckHandle s;
     houseKeepingCallbackId := id; state := state s;
     startTime := startTime s; endTime := endTime s |}.

Definition set_state (st : UA_ServerLifecycle) (s : UA_Server) : UA_Server :=
  {| config := config s; namespaces := namespaces s; sessions := sessions s;
     channels := channels s; reverseConnects := reverseConnects s;
     lastReverseConnectHandle := lastReverseConnectHandle s;
     reverseConnectsCheckHandle := reverseConnectsCheckHandle s;
     houseKeepingCallbackId := houseKeepingCallbackId s; state := st;
     startTime := startTime s; endTime := endTime s |}.

Definition set_startTime (t : Z) (s : UA_Server) : UA_Server :=
  {| config := config s; namespaces := namespaces s; sessions := sessions s;
     channels := channels s; reverseConnects := reverseConnects s;
     lastReverseConnectHandle := lastReverseConnectHandle s;
     reverseConnectsCheckHandle := reverseConnectsCheckHandle s;
     houseKeepingCallbackId := houseKeepingCallbackId s; state := state s;
     startTime := t; endTime := endTime s |}.

Definition set_endTime (t : Z) (s : UA_Server) : UA_Server :=
  {| config := config s; namespaces := namespaces s; sessions := sessions s;
     channels := channels s; reverseConnects := reverseConnects s;
     lastReverseConnectHandle := lastReverseConnectHandle s;
     reverseConnectsCheckHandle := reverseConnectsCheckHandle s;
     houseKeepingCallbackId := houseKeepingCallbackId s; state := state s;
     startTime := startTime s; endTime := t |}.

Definition set_eventLoop (el : option UA_EventLoop) (c : UA_ServerConfig) : UA_ServerConfig :=
  {| applicationDescription := applicationDescription c;
     shutdownDelay := shutdownDelay c; endpoints := endpoints c;
     securityPolicies := securityPolicies c; serverUrls := serverUrls c;
     eventLoop := el |}.

Definition set_endpoints (eds : list UA_EndpointDescription) (c : UA_ServerConfig) : UA_ServerConfig :=
  {| applicationDescription := applicationDescription c;
     shutdownDelay := shutdownDelay c; endpoints := eds;
     securityPolicies := securityPolicies c; serverUrls := serverUrls c;
     eventLoop := eventLoop c |}.

Definition set_securityPolicies (sps : list UA_SecurityPolicy) (c : UA_ServerConfig) : UA_ServerConfig :=
  {| applicationDescription := applicationDescription c;
     shutdownDelay := shutdownDelay c; endpoints := endpoints c;
     securityPolicies := sps; serverUrls := serverUrls c;
     eventLoop := eventLoop c |}.

Definition set_discoveryUrls (urls : list UA_String) (c : UA_ServerConfig) : UA_ServerConfig :=
  {| applicationDescription :=
       {| applicationUri := applicationUri (applicationDescription c);
          discoveryUrls := urls |};
     shutdownDelay := shutdownDelay c; endpoints := endpoints c;
     securityPolicies := securityPolicies c; serverUrls := serverUrls c;
     eventLoop := eventLoop c |}.

(** ** The collaborators outside this file

    The event loop and its connection managers are structs of function
    pointers supplied by the configuration; URL parsing, the node store
    writes and the certificate verification live in other files.  Their
    behaviour is an interface: every property below holds for every
    implementation of it. *)

Inductive UA_Variant :=
| VString (s : UA_String)
| VUInt16 (n : Z)
| VBoolean (b : bool)
| VStringArray (l : list UA_String).

Definition UA_KeyValueMap := list (string * UA_Variant).

(** The network callback handed to [openConnection], with its context. *)
Inductive NetworkCallback :=
| UA_Server_networkCallback
| UA_Server_reverseConnectCallback (context_handle : Z).

Class Collaborators := {
  (** [el->start(el)] *)
  el_start : UA_EventLoop → UA_StatusCode * UA_EventLoop;
  (** [el->run(el, timeout)]: the callbacks it dispatches work on the whole
      server. *)
  el_run : UA_Server → Z → UA_StatusCode * UA_Server;
  (** [el->nextCyclicTime(el)] *)
  el_nextCyclicTime : UA_EventLoop → Z;
  (** [el->addCyclicCallback(el, cb, server, data, interval, NULL, policy,
      &id)]: the status, the identifier written through the out-pointer (if
      any), the event loop afterwards. *)
  el_addCyclicCallback :
    UA_EventLoop → UA_ServerCallback → Z → UA_StatusCode * option Z * UA_EventLoop;
  (** [el->removeCyclicCallback(el, id)] *)
  el_removeCyclicCallback : UA_EventLoop → Z → UA_EventLoop;
  (** [cm->openConnection(cm, &params, server, context, callback)] on the
      connection manager at a position of the event-source list. *)
  cm_openConnection :
    UA_EventLoop → nat → UA_KeyValueMap → NetworkCallback → UA_StatusCode * UA_EventLoop;
  (** [UA_parseEndpointUrl(url, &hostname, &port, &path)]: the status, the
      hostname, and the port when the URL names one (the out-parameter is
      left alone otherwise). *)
  UA_parseEndpointUrl : UA_String → UA_StatusCode * UA_String * option Z;
  (** [writeNs0VariableArray(server, UA_NS0ID_SERVER_SERVERARRAY, ...)]: a
      write to the node store. *)
  writeNs0VariableArray : UA_Server → list UA_String → UA_StatusCode;
  (** [UA_ENABLE_ENCRYPTION] and [certificateVerification.verifyApplicationURI]. *)
  UA_ENABLE_ENCRYPTION : bool;
  verifyApplicationURI : UA_ByteString → UA_String → UA_StatusCode
}.

(** ** Namespace handling *)

(** [setupNs1Uri]: initialise the NS1 URI from the application URI if it is
    not set.  The status of the copy is ignored by the source. *)
Definition setupNs1Uri (server : UA_Server) : M UA_Server :=
  match namespaces server !! 1 with
  | None => undefined OutOfBoundsRead
  | Some ns1 =>
      if UA_String_isNull ns1 then
        '(_, copy) ← UA_String_copy (applicationUri (applicationDescription (config server)));
        mret (set_namespaces (<[1:=copy]> (namespaces server)) server)
      else mret server
  end.

(** [addNamespace]: the returned index and the server afterwards. *)
Definition addNamespace (server : UA_Server) (name : UA_String) : M (Z * UA_Server) :=
  (* ensure that the uri for ns1 is set up from the app description *)
  server ← setupNs1Uri server;
  (* Check if the namespace already exists in the server's namespace array *)
  match list_find (λ ns, UA_String_equal name ns) (namespaces server) with
  | Some (i, _) => mret (to_UInt16 (Z.of_nat i), server)
  | None =>
      (* Make the array bigger *)
      newNS ← UA_malloc;
      if negb newNS then mret (0%Z, server)
      else
        (* Copy the namespace string *)
        '(retval, copy) ← UA_String_copy name;
        if negb (isGood retval) then mret (0%Z, server)
        else
          (* Announce the change *)
          let server := set_namespaces (namespaces server ++ [copy]) server in
          mret (to_UInt16 (Z.of_nat (namespacesSize server - 1)), server)
  end.

(** [getNamespaceByName]: the status, the index written to [*foundIndex] (if
    any) and the server afterwards. *)
Definition getNamespaceByName (server : UA_Server) (namespaceUri : UA_String)
  : M (UA_StatusCode * option nat * UA_Server) :=
  server ← setupNs1Uri server;
  match list_find (λ ns, UA_String_equal ns namespaceUri) (namespaces server) with
  | Some (idx, _) => mret (UA_STATUSCODE_GOOD, Some idx, server)
  | None => mret (UA_STATUSCODE_BADNOTFOUND, None, server)
  end.

(** [getNamespaceByIndex]: the status, the string written to [*foundUri] (if
    any) and the server afterwards. *)
Definition getNamespaceByIndex (server : UA_Server) (namespaceIndex : nat)
  : M (UA_StatusCode * option UA_String * UA_Server) :=
  server ← setupNs1Uri server;
  if namespacesSize server <? namespaceIndex then
    mret (UA_STATUSCODE_BADNOTFOUND, None, server)
  else
    match namespaces server !! namespaceIndex with
    | None => undefined OutOfBoundsRead
    | Some uri =>
        '(res, foundUri) ← UA_String_copy uri;
        mret (res, Some foundUri, server)
    end.

(** The namespace part of [UA_Server_init]: namespaces 0 and 1, "Ns1 will be
    filled later with the uri from the app description". *)
Definition init_namespaces : list UA_String :=
  [Some "http://opcfoundation.org/UA/"; UA_STRING_NULL].

(** ** Shutdown request *)

(** [setServerShutdown]: "Returns if the server should be shut down
    immediately".  [now] is the value of [UA_DateTime_now()]. *)
Definition setServerShutdown (now : Z) (server : UA_Server) : bool * UA_Server :=
  if negb (endTime server =? 0)%Z then (false, server)
  else if (shutdownDelay (config server) =? 0)%Z then (true, server)
  else
    (false,
     set_endTime (to_Int64 (now + to_Int64 (shutdownDelay (config server) * UA_DATETIME_MSEC)))
       server).

(** [testShutdownCondition] *)
Definition testShutdownCondition (now : Z) (server : UA_Server) : bool :=
  if (endTime server =? 0)%Z then false
  else (now >? endTime server)%Z.

(** ** Certificate rotation *)

Definition lift {A} (r : result A) : M A := λ h,
  match r with
  | Returns a => Returns (a, h)
  | Undefined why => Undefined why
  end.

(** [getSecurityPolicyByUri]: the first policy with the URI (its position
    stands for the returned pointer), or [NULL]. *)
Definition getSecurityPolicyByUri (server : UA_Server) (securityPolicyUri : UA_ByteString)
  : option (nat * UA_SecurityPolicy) :=
  list_find (λ candidate, UA_ByteString_equal securityPolicyUri (policyUri candidate))
    (securityPolicies (config server)).

(** [channel->securityPolicy->localCertificate] *)
Definition channel_localCertificate (server : UA_Server) (ch : UA_SecureChannel)
  : result UA_ByteString :=
  match securityPolicy ch with
  | None => Undefined NullDereference
  | Some p =>
      match securityPolicies (config server) !! p with
      | None => Undefined OutOfBoundsRead
      | Some sp => Returns (localCertificate sp)
      end
  end.

(** [session.header.channel->securityPolicy->localCertificate] *)
Definition session_localCertificate (server : UA_Server) (session : UA_Session)
  : result UA_ByteString :=
  match channel session with
  | None => Undefined NullDereference
  | Some c =>
      match channels server !! c with
      | None => Undefined OutOfBoundsRead
      | Some ch => channel_localCertificate server ch
      end
  end.

(** Modelled from the spec: [UA_Server_removeSessionByToken] is defined in
    the session manager, which is not part of this file; "remove the session
    by its authentication token" (section 4.G): the first session of the
    list that carries the token leaves the list. *)
Fixpoint removeSessionByToken_list (token : Z) (l : list UA_Session) : list UA_Session :=
  match l with
  | [] => []
  | entry :: rest =>
      if (authenticationToken entry =? token)%Z then rest
      else entry :: removeSessionByToken_list token rest
  end.

Definition UA_Server_removeSessionByToken (server : UA_Server) (token : Z) : UA_Server :=
  set_sessions (removeSessionByToken_list token (sessions server)) server.

(** Modelled from the spec: [shutdownServerSecureChannel] is defined in the
    channel manager, which is not part of this file; "iterate channels; shut
    down those matching" (section 4.G): the channel is asked to close and
    stays in the list, in the closing state, until the transport confirms;
    a closed channel is left alone. *)
Definition shutdown_channel (ch : UA_SecureChannel) : UA_SecureChannel :=
  match channelState ch with
  | UA_SECURECHANNELSTATE_CLOSED => ch
  | _ => {| securityPolicy := securityPolicy ch;
            channelState := UA_SECURECHANNELSTATE_CLOSING |}
  end.

Definition shutdownServerSecureChannel (server : UA_Server) (pos : nat) : UA_Server :=
  set_channels (alter shutdown_channel pos (channels server)) server.

(** Modelled from the spec: [updateCertificateAndPrivateKey] is a function
    pointer of the security-policy plugin, which is not part of this file;
    "ask the matching security policy (by URI) to swap its certificate +
    private key" (section 4.G). *)
Definition updateCertificateAndPrivateKey (sp : UA_SecurityPolicy)
    (newCertificate newPrivateKey : UA_ByteString) : UA_SecurityPolicy :=
  {| policyUri := policyUri sp;
     localCertificate := newCertificate;
     privateKey := newPrivateKey |}.

(** The [LIST_FOREACH] over the sessions: [todo] are the entries not visited
    yet (following the [next] pointers, which a removal leaves intact). *)
Fixpoint updateCertificate_sessions (oldCertificate : UA_ByteString)
    (todo : list UA_Session) (server : UA_Server) : result UA_Server :=
  match todo with
  | [] => Returns server
  | current :: rest =>
      match session_localCertificate server current with
      | Undefined why => Undefined why
      | Returns cert =>
          if UA_ByteString_equal oldCertificate cert then
            updateCertificate_sessions oldCertificate rest
              (UA_Server_removeSessionByToken server (authenticationToken current))
          else updateCertificate_sessions oldCertificate rest server
      end
  end.

(** The [TAILQ_FOREACH] over the channels: [pos] is the position of the head
    of [todo] in the channel list. *)
Fixpoint updateCertificate_channels (oldCertificate : UA_ByteString) (pos : nat)
    (todo : list UA_SecureChannel) (server : UA_Server) : result UA_Server :=
  match todo with
  | [] => Returns server
  | entry :: rest =>
      match channel_localCertificate server entry with
      | Undefined why => Undefined why
      | Returns cert =>
          if UA_ByteString_equal cert oldCertificate then
            updateCertificate_channels oldCertificate (S pos) rest
              (shutdownServerSecureChannel server pos)
          else updateCertificate_channels oldCertificate (S pos) rest server
      end
  end.

Definition set_serverCertificate (cert : UA_ByteString) (ed : UA_EndpointDescription)
  : UA_EndpointDescription :=
  {| serverCertificate := cert;
     securityPolicyUri := securityPolicyUri ed;
     ed_server := ed_server ed |}.

(** The [while(i < server->config.endpointsSize)] loop: [todo] are the
    endpoints from position [i] on.  The status of the string copy is
    ignored by the source. *)
Fixpoint updateCertificate_endpoints (oldCertificate newCertificate newPrivateKey : UA_ByteString)
    (i : nat) (todo : list UA_EndpointDescription) (server : UA_Server)
  : M (UA_StatusCode * UA_Server) :=
  match todo with
  | [] => mret (UA_STATUSCODE_GOOD, server)
  | ed :: rest =>
      if UA_ByteString_equal (serverCertificate ed) oldCertificate then
        '(_, cert) ← UA_String_copy newCertificate;
        let server :=
          set_config (set_endpoints (<[i:=set_serverCertificate cert ed]>
                                       (endpoints (config server))) (config server)) server in
        match getSecurityPolicyByUri server (securityPolicyUri ed) with
        | None => mret (UA_STATUSCODE_BADINTERNALERROR, server)
        | Some (p, sp) =>
            let sp := updateCertificateAndPrivateKey sp newCertificate newPrivateKey in
            updateCertificate_endpoints oldCertificate newCertificate newPrivateKey (S i) rest
              (set_config (set_securityPolicies (<[p:=sp]> (securityPolicies (config server)))
                             (config server)) server)
        end
      else
        updateCertificate_endpoints oldCertificate newCertificate newPrivateKey (S i) rest server
  end.

(** [UA_Server_updateCertificate]: the status and the server afterwards.  A
    [NULL] pointer argument is [None]. *)
Definition UA_Server_updateCertificate (server : option UA_Server)
    (oldCertificate newCertificate newPrivateKey : option UA_ByteString)
    (closeSessions closeSecureChannels : bool) : M (UA_StatusCode * option UA_Server) :=
  match server, oldCertificate, newCertificate, newPrivateKey with
  | Some server, Some oldCertificate, Some newCertificate, Some newPrivateKey =>
      server ← lift (if closeSessions
                     then updateCertificate_sessions oldCertificate (sessions server) server
                     else Returns server);
      server ← lift (if closeSecureChannels
                     then updateCertificate_channels oldCertificate 0 (channels server) server
                     else Returns server);
      '(res, server) ← updateCertificate_endpoints oldCertificate newCertificate newPrivateKey
                         0 (endpoints (config server)) server;
      mret (res, Some server)
  | _, _, _, _ => mret (UA_STATUSCODE_BADINTERNALERROR, server)
  end.

(** ** Timed callbacks, listeners, reverse connect, main loop *)

(** What the server asks of its collaborators, in order. *)
Inductive Event :=
| OpenConnection (cm : nat) (params : UA_KeyValueMap)
| StateCallback (callback : nat) (context_handle : Z) (st : UA_SecureChannelState).

Definition to_UInt64 (z : Z) : Z := (z mod 2 ^ 64)%Z.

Definition set_rc_state (st : UA_SecureChannelState) (c : reverse_connect_context)
  : reverse_connect_context :=
  {| hostname := hostname c; port := port c; handle := handle c; rc_state := st;
     connectionId := connectionId c; stateCallback := stateCallback c;
     callbackContext := callbackContext c; destruction := destruction c |}.

Definition set_connectionId (id : Z) (c : reverse_connect_context)
  : reverse_connect_context :=
  {| hostname := hostname c; port := port c; handle := handle c; rc_state := rc_state c;
     connectionId := id; stateCallback := stateCallback c;
     callbackContext := callbackContext c; destruction := destruction c |}.

Definition tcpString : UA_String := Some "tcp".

Section Server.
Context `{Collaborators}.

(** [addRepeatedCallback] (and [UA_Server_addRepeatedCallback], which adds
    the lock): the status, the identifier written to [*callbackId] (if any),
    the server afterwards. *)
Definition addRepeatedCallback (server : UA_Server) (callback : UA_ServerCallback)
    (interval_ms : Z) : result (UA_StatusCode * option Z * UA_Server) :=
  match eventLoop (config server) with
  | None => Undefined NullDereference
  | Some el =>
      let '(res, id, el) := el_addCyclicCallback el callback interval_ms in
      Returns (res, id, set_config (set_eventLoop (Some el) (config server)) server)
  end.

(** [removeCallback] *)
Definition removeCallback (server : UA_Server) (callbackId : Z) : result UA_Server :=
  match eventLoop (config server) with
  | None => Undefined NullDereference
  | Some el =>
      Returns (set_config (set_eventLoop (Some (el_removeCyclicCallback el callbackId))
                             (config server)) server)
  end.

(** The loop of [UA_Server_createServerConnection] over the event sources;
    [i] is the position of the head of [todo]. *)
Fixpoint createServerConnection_loop (params : UA_KeyValueMap) (i : nat)
    (todo : list UA_EventSource) (el : UA_EventLoop) : UA_StatusCode * UA_EventLoop :=
  match todo with
  | [] => (UA_STATUSCODE_BADINTERNALERROR, el)
  | es :: rest =>
      (* Is this a usable connection manager? *)
      if negb (bool_decide (eventSourceType es = UA_EVENTSOURCETYPE_CONNECTIONMANAGER))
      then createServerConnection_loop params (S i) rest el
      else if negb (UA_String_equal tcpString (protocol es))
      then createServerConnection_loop params (S i) rest el
      else
        (* Open the server connection *)
        let '(res, el) := cm_openConnection el i params UA_Server_networkCallback in
        if isGood res then (res, el)
        else createServerConnection_loop params (S i) rest el
  end.

(** [UA_Server_createServerConnection] *)
Definition UA_Server_createServerConnection (server : UA_Server) (serverUrl : UA_String)
  : result (UA_StatusCode * UA_Server) :=
  (* Extract the protocol, hostname and port from the url *)
  let '(res, hostname, parsedPort) := UA_parseEndpointUrl serverUrl in
  let port := default 4840%Z parsedPort in
  if negb (isGood res) then Returns (res, server)
  else
    match eventLoop (config server) with
    | None => Undefined NullDereference
    | Some el =>
        (* Set up the parameters *)
        let params :=
          [("port"%string, VUInt16 port); ("listen"%string, VBoolean true)] ++
          (if 0 <? UA_String_length hostname
           then [("address"%string, VStringArray [hostname])] else []) in
        let '(res, el) := createServerConnection_loop params 0 (eventSources el) el in
        Returns (res, set_config (set_eventLoop (Some el) (config server)) server)
    end.

(** The loop of [attemptReverseConnect] over the event sources; [i] is the
    position of the head of [todo], [res] the status so far, [log] what was
    asked of the collaborators so far. *)
Fixpoint attemptReverseConnect_loop (i : nat) (todo : list UA_EventSource)
    (el : UA_EventLoop) (context : reverse_connect_context) (res : UA_StatusCode)
    (log : list Event)
  : UA_StatusCode * UA_EventLoop * reverse_connect_context * list Event :=
  match todo with
  | [] => (res, el, context, log)
  | es :: rest =>
      (* Is this a usable connection manager? *)
      if negb (bool_decide (eventSourceType es = UA_EVENTSOURCETYPE_CONNECTIONMANAGER))
      then attemptReverseConnect_loop (S i) rest el context res log
      else if negb (UA_String_equal tcpString (protocol es))
      then attemptReverseConnect_loop (S i) rest el context res log
      else if negb (bool_decide (es_state es = UA_EVENTSOURCESTATE_STARTED))
      then (UA_STATUSCODE_GOODCOMPLETESASYNCHRONOUSLY, el, context, log)
      else
        (* Set up the parameters *)
        let params :=
          [("address"%string, VString (hostname context));
           ("port"%string, VUInt16 (port context))] in
        (* Open the server connection *)
        let '(res, el) :=
          cm_openConnection el i params (UA_Server_reverseConnectCallback (handle context)) in
        let log := log ++ [OpenConnection i params] in
        let context := if negb (isGood res) then set_connectionId 0 context else context in
        let '(context, log) :=
          if negb (bool_decide (rc_state context = UA_SECURECHANNELSTATE_CONNECTING)) then
            let context := set_rc_state UA_SECURECHANNELSTATE_CONNECTING context in
            (context,
             match stateCallback context with
             | Some cb => log ++ [StateCallback cb (handle context) (rc_state context)]
             | None => log
             end)
          else (context, log) in
        attemptReverseConnect_loop (S i) rest el context res log
  end.

(** [attemptReverseConnect]: the status, the server and the entry
    afterwards, and what was asked of the collaborators. *)
Definition attemptReverseConnect (server : UA_Server) (context : reverse_connect_context)
  : result (UA_StatusCode * UA_Server * reverse_connect_context * list Event) :=
  match eventLoop (config server) with
  | None => Undefined NullDereference
  | Some el =>
      let '(res, el, context, log) :=
        attemptReverseConnect_loop 0 (eventSources el) el context
          UA_STATUSCODE_BADINTERNALERROR [] in
      Returns (res, set_config (set_eventLoop (Some el) (config server)) server, context, log)
  end.

(** The connection managers on which an attempt called [openConnection]. *)
Definition opened_on (log : list Event) : list nat :=
  omap (λ e, match e with OpenConnection cm _ => Some cm | _ => None end) log.

(** Modelled from the spec: [setReverseConnectRetryCallback] is defined next
    to the network callbacks, which are not part of this file; "install the
    1 Hz retry cyclic callback if this is the first entry" and "when the last
    entry is removed, deregister the retry cyclic callback" (section 4.E).
    The handle of the retry callback is kept in the server, 0 when none is
    registered. *)
Definition setReverseConnectRetryCallback (server : UA_Server) (enabled : bool)
  : result UA_Server :=
  if enabled then
    if (reverseConnectsCheckHandle server =? 0)%Z then
      match addRepeatedCallback server retryReverseConnectCallback 1000 with
      | Undefined why => Undefined why
      | Returns (_, Some id, server) => Returns (set_reverseConnectsCheckHandle id server)
      | Returns (_, None, server) => Returns server
      end
    else Returns server
  else
    if (reverseConnectsCheckHandle server =? 0)%Z then Returns server
    else
      match removeCallback server (reverseConnectsCheckHandle server) with
      | Undefined why => Undefined why
      | Returns server => Returns (set_reverseConnectsCheckHandle 0 server)
      end.

(** [UA_Server_addReverseConnect]: the status, the handle written to
    [*handle] (if any), the server afterwards and what was asked of the
    collaborators.  [want_handle] tells whether [handle] is non-[NULL]. *)
Definition UA_Server_addReverseConnect (server : UA_Server) (url : UA_String)
    (stateCallback : option nat) (callbackContext : nat) (want_handle : bool)
  : M (UA_StatusCode * option Z * UA_Server * list Event) :=
  let '(res, hostname, parsedPort) := UA_parseEndpointUrl url in
  let port := default 0%Z parsedPort in
  if negb (isGood res) then mret (res, None, server, [])
  else
    server ← lift (match reverseConnects server with
                   | [] => setReverseConnectRetryCallback server true
                   | _ => Returns server
                   end);
    newContext ← UA_malloc;
    if negb newContext then mret (UA_STATUSCODE_BADOUTOFMEMORY, None, server, [])
    else
      '(_, hostname) ← UA_String_copy hostname;
      let server :=
        set_lastReverseConnectHandle (to_UInt64 (lastReverseConnectHandle server + 1)) server in
      let newContext :=
        {| hostname := hostname; port := port;
           handle := lastReverseConnectHandle server;
           rc_state := UA_SECURECHANNELSTATE_CLOSED; connectionId := 0;
           stateCallback := stateCallback; callbackContext := callbackContext;
           destruction := false |} in
      let server := set_reverseConnects (newContext :: reverseConnects server) server in
      '(res, server, context, log) ← lift (attemptReverseConnect server newContext);
      mret (res, (if want_handle then Some (handle newContext) else None),
            set_reverseConnects (<[0:=context]> (reverseConnects server)) server, log).

(** [UA_Server_run_iterate]: the returned value and the server afterwards.
    [nowMonotonic] is the value of [UA_DateTime_nowMonotonic()] after the
    event loop has run.  The MQTT pump and the multicast maintenance are
    optional subsystems outside this model. *)
Definition UA_Server_run_iterate (nowMonotonic : Z) (server : UA_Server) (waitInternal : bool)
  : result (Z * UA_Server) :=
  match eventLoop (config server) with
  | None => Undefined NullDereference
  | Some _ =>
      (* Process timed and network events in the EventLoop *)
      let '(_, server) := el_run server UA_MAXTIMEOUT in
      (* Return the time until the next scheduled callback *)
      match eventLoop (config server) with
      | None => Undefined NullDereference
      | Some el =>
          Returns (to_UInt16 (to_Int64 (el_nextCyclicTime el - nowMonotonic) ÷ UA_DATETIME_MSEC),
                   server)
      end
  end.

(** [verifyServerApplicationURI]: "The local ApplicationURI has to match the
    certificates of the SecurityPolicies". *)
Definition securityPolicyNoneUri : UA_String :=
  Some "http://opcfoundation.org/UA/SecurityPolicy#None".

Fixpoint verifyServerApplicationURI_loop (todo : list UA_SecurityPolicy) (uri : UA_String)
  : UA_StatusCode :=
  match todo with
  | [] => UA_STATUSCODE_GOOD
  | sp :: rest =>
      if UA_String_equal (policyUri sp) securityPolicyNoneUri
         && (UA_String_length (localCertificate sp) =? 0)
      then verifyServerApplicationURI_loop rest uri
      else
        let retval := verifyApplicationURI (localCertificate sp) uri in
        if negb (isGood retval) then retval
        else verifyServerApplicationURI_loop rest uri
  end.

Definition verifyServerApplicationURI (server : UA_Server) : UA_StatusCode :=
  verifyServerApplicationURI_loop (securityPolicies (config server))
    (applicationUri (applicationDescription (config server))).

(** *** Startup *)

(** "Add a regular callback for housekeeping tasks. With a 1s interval." *)
Definition startup_houseKeeping (server : UA_Server) : result UA_Server :=
  if (houseKeepingCallbackId server =? 0)%Z then
    match addRepeatedCallback server serverHouseKeeping 1000 with
    | Undefined why => Undefined why
    | Returns (_, Some id, server) => Returns (set_houseKeepingCallbackId id server)
    | Returns (_, None, server) => Returns server
    end
  else Returns server.

(** "Open server sockets", the loop over the configured URLs: the flag
    [haveServerSocket] and the server afterwards. *)
Fixpoint startup_serverUrls (todo : list UA_String) (haveServerSocket : bool)
    (server : UA_Server) : result (bool * UA_Server) :=
  match todo with
  | [] => Returns (haveServerSocket, server)
  | url :: rest =>
      match UA_Server_createServerConnection server url with
      | Undefined why => Undefined why
      | Returns (retVal, server) =>
          startup_serverUrls rest (if isGood retVal then true else haveServerSocket) server
      end
  end.

Definition startup_openSockets (server : UA_Server) : result (bool * UA_Server) :=
  match serverUrls (config server) with
  | [] =>
      (* Empty hostname -> listen on all devices *)
      match UA_Server_createServerConnection server (Some "opc.tcp://:4840") with
      | Undefined why => Undefined why
      | Returns (retVal, server) => Returns (isGood retVal, server)
      end
  | urls => startup_serverUrls urls false server
  end.

(** "Update the application description to include the server urls for
    discovery. Don't add the urls with an empty host": a status other than
    good is the early return of the function. *)
Fixpoint startup_discoveryUrls (todo : list UA_String) (server : UA_Server)
  : M (UA_StatusCode * UA_Server) :=
  match todo with
  | [] => mret (UA_STATUSCODE_GOOD, server)
  | url :: rest =>
      let '(retVal, hostname, _) := UA_parseEndpointUrl url in
      if negb (isGood retVal) || (UA_String_length hostname =? 0) then
        startup_discoveryUrls rest server
      else
        '(retVal, urls) ←
          UA_Array_appendCopy (discoveryUrls (applicationDescription (config server))) url;
        let server := set_config (set_discoveryUrls urls (config server)) server in
        if negb (isGood retVal) then mret (retVal, server)
        else startup_discoveryUrls rest server
  end.

(** Modelled from the spec: [UA_ApplicationDescription_copy] belongs to the
    types library, which is not part of this file; a deep copy that fails
    with out-of-memory when an allocation fails (section 7), leaving a
    cleared destination. *)
Definition UA_ApplicationDescription_copy (src : UA_ApplicationDescription)
  : M (UA_StatusCode * UA_ApplicationDescription) :=
  let cleared := {| applicationUri := UA_STRING_NULL; discoveryUrls := [] |} in
  '(res, uri) ← UA_String_copy (applicationUri src);
  if negb (isGood res) then mret (res, cleared)
  else
    '(res, urls) ← UA_Array_copy (discoveryUrls src);
    if negb (isGood res) then mret (res, cleared)
    else mret (UA_STATUSCODE_GOOD, {| applicationUri := uri; discoveryUrls := urls |}).

(** "Update Endpoint description"; the status of the copy is ignored by the
    source. *)
Fixpoint startup_endpoints (app : UA_ApplicationDescription)
    (todo : list UA_EndpointDescription) : M (list UA_EndpointDescription) :=
  match todo with
  | [] => mret []
  | ed :: rest =>
      '(_, copy) ← UA_ApplicationDescription_copy app;
      rest ← startup_endpoints app rest;
      mret ({| serverCertificate := serverCertificate ed;
               securityPolicyUri := securityPolicyUri ed;
               ed_server := copy |} :: rest)
  end.

(** [UA_Server_run_startup] on a non-[NULL] server.  [now] is the value of
    [UA_DateTime_now()].  The discovery manager, the PubSub manager, the
    multicast server and the write of the start time to the node store are
    optional or external subsystems without a part in this model. *)
Definition run_startup (now : Z) (server : UA_Server) : M (UA_StatusCode * UA_Server) :=
  (* Add a regular callback for housekeeping tasks *)
  server ← lift (startup_houseKeeping server);
  (* Start the EventLoop if not already started *)
  match eventLoop (config server) with
  | None => mret (UA_STATUSCODE_BADINTERNALERROR, server)
  | Some el =>
      let '(retVal, server) :=
        if negb (bool_decide (el_state el = UA_EVENTLOOPSTATE_STARTED)) then
          let '(retVal, el) := el_start el in
          (retVal, set_config (set_eventLoop (Some el) (config server)) server)
        else (UA_STATUSCODE_GOOD, server) in
      if negb (isGood retVal) then mret (retVal, server)
      else
        (* Open server sockets *)
        '(_, server) ← lift (startup_openSockets server);
        (* ensure that the uri for ns1 is set up from the app description *)
        server ← setupNs1Uri server;
        (* write ServerArray with same ApplicationURI value as NamespaceArray *)
        let retVal :=
          writeNs0VariableArray server
            [applicationUri (applicationDescription (config server))] in
        if negb (isGood retVal) then mret (retVal, server)
        else if (lifecycle_value (state server) >? lifecycle_value UA_SERVERLIFECYCLE_FRESH)%Z
        then mret (UA_STATUSCODE_GOOD, server)
        else
          (* Does the ApplicationURI match the local certificates? *)
          let retVal :=
            if UA_ENABLE_ENCRYPTION then verifyServerApplicationURI server
            else UA_STATUSCODE_GOOD in
          if negb (isGood retVal) then mret (retVal, server)
          else
            (* Sample the start time and set it to the Server object *)
            let server := set_startTime now server in
            '(retVal, server) ← startup_discoveryUrls (serverUrls (config server)) server;
            if negb (isGood retVal) then mret (retVal, server)
            else
              (* Update Endpoint description *)
              eds ← startup_endpoints (applicationDescription (config server))
                      (endpoints (config server));
              let server := set_config (set_endpoints eds (config server)) server in
              mret (UA_STATUSCODE_GOOD, set_state UA_SERVERLIFECYCLE_FRESH server)
  end.

(** [UA_Server_run_startup]; a [NULL] server pointer is [None]. *)
Definition UA_Server_run_startup (now : Z) (server : option UA_Server)
  : M (UA_StatusCode * option UA_Server) :=
  match server with
  | None => mret (UA_STATUSCODE_BADINVALIDARGUMENT, None)
  | Some server =>
      '(res, server) ← run_startup now server;
      mret (res, Some server)
  end.

End Server.

(** ** The public wrappers of the namespace operations

    The locked entry points call the unlocked functions between [UA_LOCK]
    and [UA_UNLOCK]; the lock has no part in this sequential model. *)

(** [UA_Server_addNamespace]: the C string becomes a [UA_String] with a
    non-null data pointer and the length [strlen(name)]. *)
Definition UA_Server_addNamespace (server : UA_Server) (name : string) : M (Z * UA_Server) :=
  addNamespace server (Some name).

(** [UA_Server_getNamespaceByName] *)
Definition UA_Server_getNamespaceByName (server : UA_Server) (namespaceUri : UA_String)
  : M (UA_StatusCode * option nat * UA_Server) :=
  getNamespaceByName server namespaceUri.

(** [UA_Server_getNamespaceByIndex] *)
Definition UA_Server_getNamespaceByIndex (server : UA_Server) (namespaceIndex : nat)
  : M (UA_StatusCode * option UA_String * UA_Server) :=
  getNamespaceByIndex server namespaceIndex.

(** ** Iterating over the children of a node *)

Inductive UA_NodeId :=
| UA_NODEID_NUMERIC (nsIndex : Z) (identifier : Z)
| UA_NODEID_STRING (nsIndex : Z) (identifier : string).

Record UA_ExpandedNodeId := {
  nodeId : UA_NodeId;
  namespaceUri : UA_String;
  serverIndex : Z
}.

Record UA_ReferenceDescription := {
  referenceTypeId : UA_NodeId;
  isForward : bool;
  rd_nodeId : UA_ExpandedNodeId          (* references[i].nodeId *)
}.

Record UA_BrowseResult := {
  statusCode : UA_StatusCode;
  references : list UA_ReferenceDescription
}.

(** Modelled from the spec: [UA_ExpandedNodeId_isLocal] belongs to the types
    library, which is not part of this file; "the local-only filter"
    (section 4.J): a node of this server has server index 0. *)
Definition UA_ExpandedNodeId_isLocal (n : UA_ExpandedNodeId) : bool :=
  (serverIndex n =? 0)%Z.

Section ForEachChild.
(** The state behind the [void *handle] of the user callback. *)
Context {Handle : Type}.

(** [UA_NodeIteratorCallback]: child, isInverse, reference type, handle; the
    status and the state behind the handle afterwards. *)
Definition UA_NodeIteratorCallback : Type :=
  UA_NodeId → bool → UA_NodeId → Handle → UA_StatusCode * Handle.

(** The loop over [br.references]; [res] is the status so far. *)
Fixpoint forEachChildNodeCall_loop (callback : UA_NodeIteratorCallback)
    (todo : list UA_ReferenceDescription) (res : UA_StatusCode) (handle : Handle)
  : UA_StatusCode * Handle :=
  match todo with
  | [] => (res, handle)
  | ref :: rest =>
      if negb (UA_ExpandedNodeId_isLocal (rd_nodeId ref))
      then forEachChildNodeCall_loop callback rest res handle
      else
        let '(res, handle) :=
          callback (nodeId (rd_nodeId ref)) (negb (isForward ref)) (referenceTypeId ref)
            handle in
        if negb (isGood res) then (res, handle)
        else forEachChildNodeCall_loop callback rest res handle
  end.

(** [UA_Server_forEachChildNodeCall]; [br] is the result of
    [UA_Server_browse(server, 0, &bd)] for the parent node in both
    directions. *)
Definition UA_Server_forEachChildNodeCall (br : UA_BrowseResult)
    (callback : UA_NodeIteratorCallback) (handle : Handle) : UA_StatusCode * Handle :=
  let res := statusCode br in
  if negb (isGood res) then (res, handle)
  else forEachChildNodeCall_loop callback (references br) res handle.

End ForEachChild.

(** ** Removing a reverse connect *)

(** The collaborators of the teardown paths. *)
Class Teardown := {
  (** [el->addDelayedCallback(el, freeCallback)] for the callback that frees
      the entry with the given handle. *)
  el_addDelayedCallback : UA_EventLoop → Z → UA_EventLoop;
  (** [cm->closeConnection(cm, connectionId)] on the connection manager of
      the entry's current connection. *)
  cm_closeConnection : UA_EventLoop → Z → UA_EventLoop
}.

Definition set_destruction (b : bool) (c : reverse_connect_context)
  : reverse_connect_context :=
  {| hostname := hostname c; port := port c; handle := handle c; rc_state := rc_state c;
     connectionId := connectionId c; stateCallback := stateCallback c;
     callbackContext := callbackContext c; destruction := b |}.

(** Modelled from the spec: [setReverseConnectState] is defined next to the
    network callbacks, which are not part of this file; "notifies state
    transitions" (section 2, E): a change of state is stored and reported to
    the state callback of the entry, if it has one. *)
Definition setReverseConnectState (context : reverse_connect_context)
    (newState : UA_SecureChannelState) : reverse_connect_context * list Event :=
  if bool_decide (rc_state context = newState) then (context, [])
  else
    let context := set_rc_state newState context in
    (context,
     match stateCallback context with
     | Some cb => [StateCallback cb (handle context) newState]
     | None => []
     end).

Section Remove.
Context `{Collaborators} `{Teardown}.

(** [UA_Server_removeReverseConnect]: the status, the server afterwards, the
    entry that waits for its delayed release (if the removed entry had a
    connection), and what was asked of the state callbacks. *)
Definition UA_Server_removeReverseConnect (server : UA_Server) (handle_ : Z)
  : M (UA_StatusCode * UA_Server * option reverse_connect_context * list Event) :=
  '(result, server, pending, log) ←
    match list_find (λ rev, handle rev = handle_) (reverseConnects server) with
    | None => mret (UA_STATUSCODE_BADNOTFOUND, server, None, [])
    | Some (i, rev) =>
        let server := set_reverseConnects (delete i (reverseConnects server)) server in
        if negb (connectionId rev =? 0)%Z then
          let rev := set_destruction true rev in
          (* Request disconnect and run the event loop for one iteration *)
          freeCallback ← UA_malloc;
          if negb freeCallback then undefined NullDereference
          else
            match eventLoop (config server) with
            | None => undefined NullDereference
            | Some el =>
                let el := el_addDelayedCallback el (handle rev) in
                let el := cm_closeConnection el (connectionId rev) in
                mret (UA_STATUSCODE_GOOD,
                      set_config (set_eventLoop (Some el) (config server)) server,
                      Some rev, [])
            end
        else
          let '(_, log) := setReverseConnectState rev UA_SECURECHANNELSTATE_CLOSED in
          mret (UA_STATUSCODE_GOOD, server, None, log)
    end;
  server ← lift (match reverseConnects server with
                 | [] => setReverseConnectRetryCallback server false
                 | _ => Returns server
                 end);
  mret (result, server, pending, log).

(** ** The main loop *)

(** What one pass of the loop of [UA_Server_run] reads from its
    environment: the clock in [testShutdownCondition], the monotonic clock
    in [UA_Server_run_iterate], the flag [*running], and the clock in
    [setServerShutdown]. *)
Record Tick := {
  tick_now : Z;
  tick_nowMonotonic : Z;
  tick_running : bool;
  tick_now_request : Z
}.

(** The [while(!testShutdownCondition(server))] loop of [UA_Server_run],
    for as many passes as there are readings: whether the loop was left,
    the server then, and the number of calls of [UA_Server_run_iterate]. *)
Fixpoint UA_Server_run_loop (ticks : list Tick) (server : UA_Server)
  : result (bool * UA_Server * nat) :=
  match ticks with
  | [] => Returns (false, server, 0)
  | t :: rest =>
      if testShutdownCondition (tick_now t) server then Returns (true, server, 0)
      else
        match UA_Server_run_iterate (tick_nowMonotonic t) server true with
        | Undefined why => Undefined why
        | Returns (_, server) =>
            let '(stop, server) :=
              if negb (tick_running t) then setServerShutdown (tick_now_request t) server
              else (false, server) in
            if stop then Returns (true, server, 1)
            else
              match UA_Server_run_loop rest server with
              | Undefined why => Undefined why
              | Returns (done, server, n) => Returns (done, server, S n)
              end
        end
  end.

End Remove.

(** ** A concrete set of collaborators and servers, for evaluation *)

Module Example.

Definition started (el : UA_EventLoop) : UA_EventLoop :=
  {| el_state := UA_EVENTLOOPSTATE_STARTED; eventSources := eventSources el;
     cyclicCallbacks := cyclicCallbacks el |}.

(** A well-behaved event loop: every request succeeds, cyclic callbacks get
    the identifiers 1, 2, ...; the next cyclic deadline is [next]; every URL
    parses to the host [client.example] without a port. *)
Definition collaborators (next : Z) : Collaborators :=
  {| el_start := λ el, (UA_STATUSCODE_GOOD, started el);
     el_run := λ server _, (UA_STATUSCODE_GOOD, server);
     el_nextCyclicTime := λ _, next;
     el_addCyclicCallback := λ el cb interval,
       let id := Z.of_nat (S (length (cyclicCallbacks el))) in
       (UA_STATUSCODE_GOOD, Some id,
        {| el_state := el_state el; eventSources := eventSources el;
           cyclicCallbacks := cyclicCallbacks el ++ [(id, cb, interval)] |});
     el_removeCyclicCallback := λ el id,
       {| el_state := el_state el; eventSources := eventSources el;
          cyclicCallbacks := filter (λ c, c.1.1 ≠ id) (cyclicCallbacks el) |};
     cm_openConnection := λ el _ _ _, (UA_STATUSCODE_GOOD, el);
     UA_parseEndpointUrl := λ _, (UA_STATUSCODE_GOOD, Some "client.example", None);
     writeNs0VariableArray := λ _ _, UA_STATUSCODE_GOOD;
     UA_ENABLE_ENCRYPTION := false;
     verifyApplicationURI := λ _ _, UA_STATUSCODE_GOOD |}.

Definition tcp (st : UA_EventSourceState) : UA_EventSource :=
  {| eventSourceType := UA_EVENTSOURCETYPE_CONNECTIONMANAGER; es_state := st;
     protocol := Some "tcp" |}.

Definition loop (sources : list UA_EventSource) : UA_EventLoop :=
  {| el_state := UA_EVENTLOOPSTATE_FRESH; eventSources := sources; cyclicCallbacks := [] |}.

(** The server as [UA_Server_init] leaves it, for an application URI, a list
    of server URLs and an event loop. *)
Definition fresh (uri : UA_String) (urls : list UA_String) (el : UA_EventLoop) : UA_Server :=
  {| config :=
       {| applicationDescription := {| applicationUri := uri; discoveryUrls := [] |};
          shutdownDelay := 0; endpoints := []; securityPolicies := [];
          serverUrls := urls; eventLoop := Some el |};
     namespaces := init_namespaces;
     sessions := []; channels := []; reverseConnects := [];
     lastReverseConnectHandle := 0; reverseConnectsCheckHandle := 0;
     houseKeepingCallbackId := 0; state := UA_SERVERLIFECYCLE_FRESH;
     startTime := 0; endTime := 0 |}.

Definition server0 : UA_Server :=
  fresh (Some "urn:app") [] (loop [tcp UA_EVENTSOURCESTATE_STARTED]).

(** [server0] after its first observable use: slot 1 holds the application
    URI. *)
Definition server1 : UA_Server :=
  set_namespaces [Some "http://opcfoundation.org/UA/"; Some "urn:app"] server0.

(** A table with 65536 entries: the two of [server1] and 65534 further,
    pairwise different URIs. *)
Fixpoint bits (p : positive) : string :=
  match p with
  | xH => ""
  | xO p => String "0" (bits p)
  | xI p => String "1" (bits p)
  end.

Fixpoint uris_from (n : nat) (p : positive) : list UA_String :=
  match n with
  | 0 => []
  | S n => Some ("urn:ns:" +:+ bits p) :: uris_from n (Pos.succ p)
  end.

Definition full_table : list UA_String :=
  namespaces server1 ++ uris_from (Z.to_nat 65534) 1%positive.

Definition full_server : UA_Server := set_namespaces full_table server1.

(** A server whose slot 1 was set by the user and that has no application
    URI. *)
Definition custom_ns1_server : UA_Server :=
  set_namespaces [Some "http://opcfoundation.org/UA/"; Some "urn:custom"]
    (fresh None [] (loop [tcp UA_EVENTSOURCESTATE_STARTED])).

(** A server whose event loop has two started TCP connection managers, and
    a reverse-connect entry as [UA_Server_addReverseConnect] creates it. *)
Definition two_managers_server : UA_Server :=
  fresh (Some "urn:app") []
    (loop [tcp UA_EVENTSOURCESTATE_STARTED; tcp UA_EVENTSOURCESTATE_STARTED]).

Definition new_entry : reverse_connect_context :=
  {| hostname := Some "client.example"; port := 4841; handle := 1;
     rc_state := UA_SECURECHANNELSTATE_CLOSED; connectionId := 0;
     stateCallback := Some 7; callbackContext := 0; destruction := false |}.

(** A fresh server with one configured URL. *)
Definition one_url_server : UA_Server :=
  fresh (Some "urn:app") [Some "opc.tcp://client.example:4840"]
    (loop [tcp UA_EVENTSOURCESTATE_STARTED]).

(** A server with two security policies, an endpoint for each, two
    channels and two sessions; the first policy holds the certificate that
    is to be rotated. *)
Definition rotation_server : UA_Server :=
  let el := loop [tcp UA_EVENTSOURCESTATE_STARTED] in
  let app := {| applicationUri := Some "urn:app"; discoveryUrls := [] |} in
  {| config :=
       {| applicationDescription := app;
          shutdownDelay := 0;
          endpoints :=
            [{| serverCertificate := Some "old-cert"; securityPolicyUri := Some "Basic256";
                ed_server := app |};
             {| serverCertificate := Some "other-cert"; securityPolicyUri := Some "Aes128";
                ed_server := app |}];
          securityPolicies :=
            [{| policyUri := Some "Basic256"; localCertificate := Some "old-cert";
                privateKey := Some "old-key" |};
             {| policyUri := Some "Aes128"; localCertificate := Some "other-cert";
                privateKey := Some "other-key" |}];
          serverUrls := []; eventLoop := Some el |};
     namespaces := [Some "http://opcfoundation.org/UA/"; Some "urn:app"];
     sessions := [{| authenticationToken := 11; channel := Some 0 |};
                  {| authenticationToken := 12; channel := Some 1 |}];
     channels := [{| securityPolicy := Some 0;
                     channelState := UA_SECURECHANNELSTATE_OPEN |};
                  {| securityPolicy := Some 1;
                     channelState := UA_SECURECHANNELSTATE_OPEN |}];
     reverseConnects := [];
     lastReverseConnectHandle := 0; reverseConnectsCheckHandle := 0;
     houseKeepingCallbackId := 0; state := UA_SERVERLIFECYCLE_FRESH;
     startTime := 0; endTime := 0 |}.


End Example.

(** ** Further concrete inputs *)

Module Example2.

Definition reference (server : Z) (id : Z) (forward : bool) : UA_ReferenceDescription :=
  {| referenceTypeId := UA_NODEID_NUMERIC 0 35;
     isForward := forward;
     rd_nodeId := {| nodeId := UA_NODEID_NUMERIC 1 id; namespaceUri := None;
                     serverIndex := server |} |}.

(** A browse result with three local references and one to another
    server. *)
Definition browse_result : UA_BrowseResult :=
  {| statusCode := UA_STATUSCODE_GOOD;
     references := [reference 0 10 true; reference 2 11 true; reference 0 12 false;
                    reference 0 13 true] |}.

(** A callback status: everything is fine except the node 12. *)
Definition refuse_12 (call : UA_NodeId * bool * UA_NodeId) : UA_StatusCode :=
  match call with
  | (UA_NODEID_NUMERIC _ 12, _, _) => UA_STATUSCODE_BADINTERNALERROR
  | _ => UA_STATUSCODE_GOOD
  end.

(** A started connection manager for another protocol. *)
Definition udp : UA_EventSource :=
  {| eventSourceType := UA_EVENTSOURCETYPE_CONNECTIONMANAGER;
     es_state := UA_EVENTSOURCESTATE_STARTED; protocol := Some "udp" |}.

(** A server without a TCP connection manager. *)
Definition udp_server : UA_Server :=
  Example.fresh (Some "urn:app") [] (Example.loop [udp]).

(** A server whose first TCP connection manager is not started yet; a
    second one is. *)
Definition fresh_manager_server : UA_Server :=
  Example.fresh (Some "urn:app") []
    (Example.loop [udp; Example.tcp UA_EVENTSOURCESTATE_FRESH;
                   Example.tcp UA_EVENTSOURCESTATE_STARTED]).

(** A server whose second and third event sources are started TCP
    connection managers. *)
Definition udp_tcp_server : UA_Server :=
  Example.fresh (Some "urn:app") []
    (Example.loop [udp; Example.tcp UA_EVENTSOURCESTATE_STARTED;
                   Example.tcp UA_EVENTSOURCESTATE_STARTED]).

(** Collaborators whose connection managers refuse every connection. *)
Definition refusing : Collaborators :=
  {| el_start := @el_start (Example.collaborators 0);
     el_run := @el_run (Example.collaborators 0);
     el_nextCyclicTime := @el_nextCyclicTime (Example.collaborators 0);
     el_addCyclicCallback := @el_addCyclicCallback (Example.collaborators 0);
     el_removeCyclicCallback := @el_removeCyclicCallback (Example.collaborators 0);
     cm_openConnection := λ el _ _ _, (UA_STATUSCODE_BADINTERNALERROR, el);
     UA_parseEndpointUrl := @UA_parseEndpointUrl (Example.collaborators 0);
     writeNs0VariableArray := @writeNs0VariableArray (Example.collaborators 0);
     UA_ENABLE_ENCRYPTION := false;
     verifyApplicationURI := @verifyApplicationURI (Example.collaborators 0) |}.

(** A teardown that leaves the event loop as it is. *)
Definition teardown : Teardown :=
  {| el_addDelayedCallback := λ el _, el; cm_closeConnection := λ el _, el |}.

(** An entry with an open connection, and a second, idle entry. *)
Definition connected_entry : reverse_connect_context :=
  {| hostname := Some "client.example"; port := 4841; handle := 2;
     rc_state := UA_SECURECHANNELSTATE_OPEN; connectionId := 9;
     stateCallback := Some 7; callbackContext := 0; destruction := false |}.

(** A server with two reverse connects, the newer one first. *)
Definition two_entries_server : UA_Server :=
  set_lastReverseConnectHandle 2
    (set_reverseConnects [connected_entry; Example.new_entry] Example.server0).

(** The rotation server with a second endpoint that names a security policy
    URI no policy has. *)
Definition missing_policy_server : UA_Server :=
  set_config
    (set_endpoints
       [{| serverCertificate := Some "old-cert"; securityPolicyUri := Some "Basic256";
           ed_server := {| applicationUri := Some "urn:app"; discoveryUrls := [] |} |};
        {| serverCertificate := Some "other-cert"; securityPolicyUri := Some "Aes256";
           ed_server := {| applicationUri := Some "urn:app"; discoveryUrls := [] |} |}]
       (config Example.rotation_server))
    Example.rotation_server.

End Example2.

(** * Notions used by the properties *)

(** Slot 1 needs no further initialisation: it is set, or there is no
    application URI to copy. *)
Definition ns1_settled (s : UA_Server) : Prop :=
  ∃ ns1, namespaces s !! 1 = Some ns1
         ∧ (UA_String_isNull ns1 = true →
            applicationUri (applicationDescription (config s)) = None).

(** [i] is the position of the first occurrence of [uri] in [table]. *)
Definition first_occurrence (uri : UA_String) (table : list UA_String) (i : nat) : Prop :=
  (∃ u, table !! i = Some u ∧ UA_String_equal uri u = true)
  ∧ ∀ j u, j < i → table !! j = Some u → UA_String_equal uri u = false.

(** A sequence of [addNamespace] calls: the returned indices, in order, and
    the server afterwards. *)
Fixpoint addNamespaces (server : UA_Server) (names : list UA_String)
  : M (list Z * UA_Server) :=
  match names with
  | [] => mret ([], server)
  | name :: rest =>
      '(idx, server) ← addNamespace server name;
      '(idxs, server) ← addNamespaces server rest;
      mret (idx :: idxs, server)
  end.

Definition set_shutdownDelay (delay : Z) (s : UA_Server) : UA_Server :=
  set_config
    {| applicationDescription := applicationDescription (config s);
       shutdownDelay := delay; endpoints := endpoints (config s);
       securityPolicies := securityPolicies (config s);
       serverUrls := serverUrls (config s); eventLoop := eventLoop (config s) |} s.

(** A sequence of shutdown requests; before each one the clock reads [now]
    and the configured delay is [delay]. *)
Fixpoint shutdown_requests (calls : list (Z * Z)) (server : UA_Server)
  : list bool * UA_Server :=
  match calls with
  | [] => ([], server)
  | (now, delay) :: rest =>
      let '(stop, server) := setServerShutdown now (set_shutdownDelay delay server) in
      let '(stops, server) := shutdown_requests rest server in
      (stop :: stops, server)
  end.

(** A started connection manager that advertises the tcp protocol. *)
Definition started_tcp_manager (es : UA_EventSource) : Prop :=
  eventSourceType es = UA_EVENTSOURCETYPE_CONNECTIONMANAGER
  ∧ UA_String_equal tcpString (protocol es) = true
  ∧ es_state es = UA_EVENTSOURCESTATE_STARTED.

(** What the startup steps around [setupNs1Uri] leave alone: the namespace
    table, the lifecycle state, the application URI, the configured URLs
    and security policies, the sessions, channels and reverse connects, and
    the shutdown deadline. *)
Definition startup_frame (s s' : UA_Server) : Prop :=
  namespaces s' = namespaces s
  ∧ state s' = state s
  ∧ applicationUri (applicationDescription (config s'))
    = applicationUri (applicationDescription (config s))
  ∧ serverUrls (config s') = serverUrls (config s)
  ∧ securityPolicies (config s') = securityPolicies (config s)
  ∧ sessions s' = sessions s
  ∧ channels s' = channels s
  ∧ reverseConnects s' = reverseConnects s
  ∧ endTime s' = endTime s.

(** The uses of the server after which the namespace array can be observed:
    the three namespace operations and a successful startup. *)
Inductive namespace_use {C : Collaborators} (s : UA_Server) (h : Heap) (s' : UA_Server)
  : Prop :=
| use_addNamespace (name : UA_String) (idx : Z) (h' : Heap) :
    addNamespace s name h = Returns ((idx, s'), h') → namespace_use s h s'
| use_getNamespaceByName (uri : UA_String) (res : UA_StatusCode) (idx : option nat)
    (h' : Heap) :
    getNamespaceByName s uri h = Returns ((res, idx, s'), h') → namespace_use s h s'
| use_getNamespaceByIndex (i : nat) (res : UA_StatusCode) (uri : option UA_String)
    (h' : Heap) :
    getNamespaceByIndex s i h = Returns ((res, uri, s'), h') → namespace_use s h s'
| use_run_startup (now : Z) (h' : Heap) :
    UA_Server_run_startup now (Some s) h
    = Returns ((UA_STATUSCODE_GOOD, Some s'), h') → namespace_use s h s'.

(** Namespace index 1 is non-empty; the application URI is non-empty. *)
Definition ns1_nonempty (s : UA_Server) : Prop :=
  ∃ ns1, namespaces s !! 1 = Some ns1 ∧ 0 < UA_String_length ns1.

Definition applicationUri_nonempty (s : UA_Server) : Prop :=
  0 < UA_String_length (applicationUri (applicationDescription (config s))).





(** * Notions used by the further properties *)

(** The number of leading passes whose clock is not past the deadline. *)
Fixpoint passes_before_deadline (deadline : Z) (ticks : list Tick) : nat :=
  match ticks with
  | [] => 0
  | t :: rest =>
      if (tick_now t >? deadline)%Z then 0
      else S (passes_before_deadline deadline rest)
  end.

(** The number of leading passes during which [*running] is true. *)
Fixpoint passes_while_running (ticks : list Tick) : nat :=
  match ticks with
  | [] => 0
  | t :: rest => if tick_running t then S (passes_while_running rest) else 0
  end.

(** An event loop whose [run] leaves the shutdown deadline, the configured
    delay and the event-loop pointer of the server alone. *)
Definition run_keeps_shutdown_settings {C : Collaborators} : Prop :=
  ∀ s timeout,
    endTime (el_run s timeout).2 = endTime s
    ∧ shutdownDelay (config (el_run s timeout).2) = shutdownDelay (config s)
    ∧ (is_Some (eventLoop (config s)) →
       is_Some (eventLoop (config (el_run s timeout).2))).

(** The arguments the callback of [UA_Server_forEachChildNodeCall] gets for
    a reference: child, isInverse, reference type. *)
Definition child_call (ref : UA_ReferenceDescription) : UA_NodeId * bool * UA_NodeId :=
  (nodeId (rd_nodeId ref), negb (isForward ref), referenceTypeId ref).

(** The references to nodes of this server. *)
Definition local_references (refs : list UA_ReferenceDescription)
  : list UA_ReferenceDescription :=
  filter (λ ref, UA_ExpandedNodeId_isLocal (rd_nodeId ref)) refs.

(** A callback that records its arguments behind the handle and answers
    with a status that depends on them. *)
Definition recording (status : UA_NodeId * bool * UA_NodeId → UA_StatusCode)
  : @UA_NodeIteratorCallback (list (UA_NodeId * bool * UA_NodeId)) :=
  λ child isInverse type log,
    (status (child, isInverse, type), log ++ [(child, isInverse, type)]).

(** A policy that [verifyServerApplicationURI] does not look at: the policy
    "None" without a certificate. *)
Definition exempt_from_verification (sp : UA_SecurityPolicy) : Prop :=
  UA_String_equal (policyUri sp) securityPolicyNoneUri = true
  ∧ UA_String_length (localCertificate sp) = 0.

(** A connection manager that advertises the tcp protocol. *)
Definition tcp_manager (es : UA_EventSource) : Prop :=
  eventSourceType es = UA_EVENTSOURCETYPE_CONNECTIONMANAGER
  ∧ UA_String_equal tcpString (protocol es) = true.

(** The parameters [UA_Server_createServerConnection] hands to
    [openConnection] for a parsed URL. *)
Definition listen_params (hostname : UA_String) (parsedPort : option Z) : UA_KeyValueMap :=
  [("port"%string, VUInt16 (default 4840%Z parsedPort));
   ("listen"%string, VBoolean true)]
  ++ (if 0 <? UA_String_length hostname
      then [("address"%string, VStringArray [hostname])] else []).

(** [s'] is [s] up to the event loop and the identifier of the housekeeping
    callback. *)
Definition only_event_loop_changed (s s' : UA_Server) : Prop :=
  ∃ el id, s' = set_houseKeepingCallbackId id (set_config (set_eventLoop el (config s)) s).

(** The state callbacks an attempt made: callback, handle, reported state. *)
Definition state_callbacks (log : list Event) : list (nat * Z * UA_SecureChannelState) :=
  omap (λ e, match e with
             | StateCallback cb h st => Some (cb, h, st)
             | _ => None
             end) log.

(** The report an entry that enters the connecting state makes. *)
Definition connecting_report (context : reverse_connect_context)
  : list (nat * Z * UA_SecureChannelState) :=
  if bool_decide (rc_state context = UA_SECURECHANNELSTATE_CONNECTING) then []
  else match stateCallback context with
       | Some cb => [(cb, handle context, UA_SECURECHANNELSTATE_CONNECTING)]
       | None => []
       end.

(** Two entries are the same up to the state and the connection. *)
Definition same_target (c c' : reverse_connect_context) : Prop :=
  hostname c' = hostname c ∧ port c' = port c ∧ handle c' = handle c
  ∧ stateCallback c' = stateCallback c ∧ callbackContext c' = callbackContext c
  ∧ destruction c' = destruction c.

(** The handles in the list were issued by the counter and are pairwise
    different. *)
Definition handles_issued (s : UA_Server) : Prop :=
  Forall (λ c, (0 < handle c ≤ lastReverseConnectHandle s)%Z) (reverseConnects s)
  ∧ NoDup (handle <$> reverseConnects s).

(** * Properties *)

(** ** The monad and the strings *)

Ltac munfold := unfold mbind, M_bind, mret, M_ret, undefined, lift in *.

Lemma no_failure_tail ok h : no_failure (ok :: h) → ok = true ∧ no_failure h.
Proof. intros Hh. split; [exact (Forall_inv Hh) | exact (Forall_inv_tail Hh)]. Qed.

Lemma UA_malloc_ok h :
  no_failure h → ∃ h', UA_malloc h = Returns (true, h') ∧ no_failure h'.
Proof.
  destruct h as [|ok h]; intros Hh; simpl.
  - exists []. split; [reflexivity | constructor].
  - apply no_failure_tail in Hh as [-> Hh]. eauto.
Qed.

Lemma UA_String_equal_bytes s1 s2 :
  UA_String_equal s1 s2 = true ↔ UA_String_bytes s1 = UA_String_bytes s2.
Proof.
  assert (Hlen : ∀ s, UA_String_length s = String.length (UA_String_bytes s))
    by (intros [b|]; reflexivity).
  unfold UA_String_equal. rewrite !Hlen.
  destruct (String.length (UA_String_bytes s1) =? String.length (UA_String_bytes s2)) eqn:El;
    simpl.
  - apply Nat.eqb_eq in El.
    destruct (String.length (UA_String_bytes s1) =? 0) eqn:E0.
    + apply Nat.eqb_eq in E0. rewrite E0 in El.
      destruct (UA_String_bytes s1), (UA_String_bytes s2); simpl in *; try discriminate.
      tauto.
    + apply String.eqb_eq.
  - apply Nat.eqb_neq in El. split; [discriminate | intros Heq; rewrite Heq in El; lia].
Qed.

Lemma UA_String_equal_refl s : UA_String_equal s s = true.
Proof. by apply UA_String_equal_bytes. Qed.

Lemma UA_String_equal_sym s1 s2 : UA_String_equal s1 s2 = UA_String_equal s2 s1.
Proof.
  apply eq_true_iff_eq. rewrite !UA_String_equal_bytes. split; congruence.
Qed.

Lemma UA_String_equal_trans s1 s2 s3 :
  UA_String_equal s1 s2 = true → UA_String_equal s2 s3 = UA_String_equal s1 s3.
Proof.
  intros H12. apply eq_true_iff_eq. rewrite UA_String_equal_bytes in H12.
  rewrite !UA_String_equal_bytes. split; congruence.
Qed.

(** A copy always returns; the destination holds the source or is null. *)
Lemma UA_String_copy_any src h :
  ∃ res dst h', UA_String_copy src h = Returns ((res, dst), h')
    ∧ (dst = src ∨ dst = None).
Proof.
  unfold UA_String_copy. destruct src as [b|]; [|munfold; eauto 6].
  destruct (String.length b =? 0); [munfold; eauto 6|].
  munfold. destruct h as [|[] h]; simpl; eauto 6.
Qed.

(** Without an allocation failure the copy is good and exact. *)
Lemma UA_String_copy_ok src h :
  no_failure h →
  ∃ h', UA_String_copy src h = Returns ((UA_STATUSCODE_GOOD, src), h') ∧ no_failure h'.
Proof.
  intros Hh. unfold UA_String_copy. destruct src as [b|]; [|munfold; eauto].
  destruct (String.length b =? 0); [munfold; eauto|].
  munfold. destruct (UA_malloc_ok h Hh) as (h' & -> & Hh'). eauto.
Qed.

(** A string of length 0 is copied without touching the allocator. *)
Lemma UA_String_copy_empty src h :
  UA_String_length src = 0 →
  UA_String_copy src h = Returns ((UA_STATUSCODE_GOOD, src), h).
Proof.
  intros Hl. unfold UA_String_copy. destruct src as [b|]; [|reflexivity].
  simpl in Hl. rewrite Hl. reflexivity.
Qed.

(** ** Namespace handling *)

Lemma set_namespaces_id s : set_namespaces (namespaces s) s = s.
Proof. by destruct s. Qed.

(** What [setupNs1Uri] does: slot 1 is overwritten with [ns1'], which is the
    old content when that was set, and otherwise the copy of the application
    URI (or null when the copy failed). *)
Lemma setupNs1Uri_any s h ns1 :
  namespaces s !! 1 = Some ns1 →
  ∃ ns1' h',
    setupNs1Uri s h = Returns (set_namespaces (<[1:=ns1']> (namespaces s)) s, h')
    ∧ (if UA_String_isNull ns1
       then ns1' = applicationUri (applicationDescription (config s)) ∨ ns1' = None
       else ns1' = ns1 ∧ h' = h)
    ∧ (no_failure h →
       no_failure h'
       ∧ (UA_String_isNull ns1 = true →
          ns1' = applicationUri (applicationDescription (config s)))).
Proof.
  intros H1. unfold setupNs1Uri. rewrite H1.
  destruct (UA_String_isNull ns1) eqn:Enull.
  - destruct (UA_String_copy_any (applicationUri (applicationDescription (config s))) h)
      as (res & dst & h' & Hc & Hdst).
    munfold. rewrite Hc. exists dst, h'. split; [reflexivity|]. split; [exact Hdst|].
    intros Hh.
    destruct (UA_String_copy_ok (applicationUri (applicationDescription (config s))) h Hh)
      as (h'' & Hc' & Hh'').
    rewrite Hc in Hc'. inversion Hc'; subst. auto.
  - munfold. exists ns1, h. rewrite list_insert_id by done. rewrite set_namespaces_id.
    repeat split; auto; discriminate.
Qed.

Lemma setupNs1Uri_short s h :
  namespaces s !! 1 = None → setupNs1Uri s h = Undefined OutOfBoundsRead.
Proof. intros H1. unfold setupNs1Uri. by rewrite H1. Qed.

Lemma UA_String_isNull_true s : UA_String_isNull s = true → s = None.
Proof. by destruct s. Qed.

Lemma setupNs1Uri_settled s h : ns1_settled s → setupNs1Uri s h = Returns (s, h).
Proof.
  intros (ns1 & H1 & Huri). unfold setupNs1Uri. rewrite H1.
  destruct (UA_String_isNull ns1) eqn:Enull; [|reflexivity].
  rewrite Huri by done. munfold. simpl.
  apply UA_String_isNull_true in Enull as ->.
  rewrite list_insert_id by done. by rewrite set_namespaces_id.
Qed.

Lemma setupNs1Uri_settles s h s' h' :
  no_failure h → setupNs1Uri s h = Returns (s', h') →
  ns1_settled s' ∧ no_failure h' ∧ config s' = config s
  ∧ namespacesSize s' = namespacesSize s.
Proof.
  intros Hh Hs. destruct (namespaces s !! 1) as [ns1|] eqn:H1;
    [|by rewrite setupNs1Uri_short in Hs].
  destruct (setupNs1Uri_any s h ns1 H1) as (ns1' & h'' & Heq & Hcase & Hok).
  rewrite Heq in Hs. inversion Hs; subst; clear Hs.
  destruct (Hok Hh) as [Hh' Hcopy]. unfold namespacesSize. simpl.
  rewrite length_insert. split_and!; try done.
  exists ns1'. simpl. split.
  - apply list_lookup_insert_eq. by apply lookup_lt_Some in H1.
  - intros Hnull. apply UA_String_isNull_true in Hnull as ->.
    destruct (UA_String_isNull ns1) eqn:Enull; [symmetry; auto|].
    destruct Hcase as [<- _]. discriminate.
Qed.

Lemma first_occurrence_find uri table i :
  first_occurrence uri table i ↔
  ∃ u, list_find (λ ns, UA_String_equal uri ns) table = Some (i, u).
Proof.
  unfold first_occurrence. split.
  - intros [(u & Hu & Heq) Hbefore]. exists u. apply list_find_Some.
    split_and!; [done | by rewrite Heq |].
    intros j y Hy Hlt. rewrite (Hbefore j y Hlt Hy). simpl. tauto.
  - intros (u & (Hu & Heq & Hbefore)%list_find_Some). split.
    + exists u. split; [done|]. by apply Is_true_true.
    + intros j y Hlt Hy. specialize (Hbefore j y Hy Hlt).
      by destruct (UA_String_equal uri y); [destruct Hbefore|].
Qed.

Lemma first_occurrence_app uri table ext i :
  first_occurrence uri table i → first_occurrence uri (table ++ ext) i.
Proof.
  rewrite !first_occurrence_find. intros (u & Hu). exists u.
  by apply list_find_app_l.
Qed.

Lemma first_occurrence_lt uri table i : first_occurrence uri table i → i < length table.
Proof. intros [(u & Hu & _) _]. by apply lookup_lt_Some in Hu. Qed.

Lemma to_UInt16_small (i : nat) :
  (Z.of_nat i < 65536)%Z → to_UInt16 (Z.of_nat i) = Z.of_nat i.
Proof. intros Hi. unfold to_UInt16. apply Z.mod_small. lia. Qed.

(** Adding a URI that is in the table of a settled server changes nothing
    and needs no memory. *)
Lemma addNamespace_again s uri i h :
  ns1_settled s → first_occurrence uri (namespaces s) i → (Z.of_nat i < 65536)%Z →
  addNamespace s uri h = Returns ((Z.of_nat i, s), h).
Proof.
  intros Hs (u & Hfind)%first_occurrence_find Hi. unfold addNamespace. munfold.
  rewrite setupNs1Uri_settled by done. rewrite Hfind.
  by rewrite to_UInt16_small.
Qed.

(** Adding a URI that is not in the table of a settled server appends it. *)
Lemma addNamespace_fresh s name h :
  ns1_settled s → no_failure h →
  list_find (λ ns, UA_String_equal name ns) (namespaces s) = None →
  ∃ h',
    addNamespace s name h
    = Returns ((to_UInt16 (Z.of_nat (namespacesSize s)),
                set_namespaces (namespaces s ++ [name]) s), h')
    ∧ no_failure h'
    ∧ first_occurrence name (namespaces s ++ [name]) (namespacesSize s).
Proof.
  intros Hs Hh Hfind. unfold addNamespace. munfold.
  rewrite setupNs1Uri_settled by done. rewrite Hfind.
  destruct (UA_malloc_ok h Hh) as (h1 & -> & Hh1). simpl.
  destruct (UA_String_copy_ok name h1 Hh1) as (h2 & -> & Hh2). simpl.
  unfold namespacesSize. simpl. rewrite length_app. simpl.
  replace (length (namespaces s) + 1 - 1) with (length (namespaces s)) by lia.
  exists h2. split_and!; try done.
  apply first_occurrence_find. exists name.
  rewrite list_find_app_r by done. simpl.
  rewrite decide_True by (rewrite UA_String_equal_refl; done). reflexivity.
Qed.

Lemma addNamespace_settled s name h :
  ns1_settled s → no_failure h → (Z.of_nat (namespacesSize s) < 65536)%Z →
  ∃ i s' h',
    addNamespace s name h = Returns ((Z.of_nat i, s'), h')
    ∧ no_failure h' ∧ ns1_settled s'
    ∧ (∃ ext, namespaces s' = namespaces s ++ ext ∧ length ext ≤ 1)
    ∧ first_occurrence name (namespaces s') i.
Proof.
  intros Hs Hh Hsize.
  destruct (list_find (λ ns, UA_String_equal name ns) (namespaces s))
    as [[i u]|] eqn:Hfind.
  - assert (Hocc : first_occurrence name (namespaces s) i)
      by (apply first_occurrence_find; eauto).
    pose proof (first_occurrence_lt _ _ _ Hocc) as Hlt. unfold namespacesSize in Hsize.
    exists i, s, h. rewrite (addNamespace_again s name i h) by (done || lia).
    split_and!; try done. exists []. rewrite app_nil_r. split; [done | simpl; lia].
  - destruct (addNamespace_fresh s name h Hs Hh Hfind) as (h' & Hadd & Hh' & Hocc).
    rewrite to_UInt16_small in Hadd by done.
    exists (namespacesSize s), (set_namespaces (namespaces s ++ [name]) s), h'.
    split_and!; try done.
    + destruct Hs as (ns1 & H1 & Huri). exists ns1. simpl. split; [|done].
      by apply lookup_app_l_Some.
    + exists [name]. simpl. split; [done | lia].
Qed.

(** One call on a settled server, whatever the size of the table: the call
    returns and extends the table by at most one entry; as long as the table
    afterwards has at most 65536 entries, the index is the position of the
    first occurrence. *)
Lemma addNamespace_settled_any_size s name h :
  ns1_settled s → no_failure h →
  ∃ idx s' h',
    addNamespace s name h = Returns ((idx, s'), h')
    ∧ no_failure h' ∧ ns1_settled s'
    ∧ (∃ ext, namespaces s' = namespaces s ++ ext)
    ∧ ((Z.of_nat (namespacesSize s') ≤ 65536)%Z →
       ∃ i, idx = Z.of_nat i ∧ first_occurrence name (namespaces s') i).
Proof.
  intros Hs Hh.
  destruct (list_find (λ ns, UA_String_equal name ns) (namespaces s))
    as [[i u]|] eqn:Hfind.
  - assert (Hocc : first_occurrence name (namespaces s) i)
      by (apply first_occurrence_find; eauto).
    pose proof (first_occurrence_lt _ _ _ Hocc) as Hlt.
    exists (to_UInt16 (Z.of_nat i)), s, h. split_and!; try done.
    + unfold addNamespace. munfold. rewrite setupNs1Uri_settled by done.
      by rewrite Hfind.
    + exists []. by rewrite app_nil_r.
    + intros Hsize. unfold namespacesSize in Hsize. exists i.
      split; [apply to_UInt16_small; lia | done].
  - destruct (addNamespace_fresh s name h Hs Hh Hfind) as (h' & Hadd & Hh' & Hocc).
    exists (to_UInt16 (Z.of_nat (namespacesSize s))),
      (set_namespaces (namespaces s ++ [name]) s), h'.
    split_and!; try done.
    + destruct Hs as (ns1 & H1 & Huri). exists ns1. simpl. split; [|done].
      by apply lookup_app_l_Some.
    + by exists [name].
    + intros Hsize. unfold namespacesSize in *. simpl in Hsize.
      rewrite length_app in Hsize. simpl in Hsize. exists (length (namespaces s)).
      split; [apply to_UInt16_small; lia | done].
Qed.

Lemma addNamespaces_settled_any_size names : ∀ s h,
  ns1_settled s → no_failure h →
  ∃ idxs s' h',
    addNamespaces s names h = Returns ((idxs, s'), h')
    ∧ ns1_settled s'
    ∧ (∃ ext, namespaces s' = namespaces s ++ ext)
    ∧ ((Z.of_nat (namespacesSize s') ≤ 65536)%Z →
       Forall2 (λ name idx, ∃ i, idx = Z.of_nat i
                                 ∧ first_occurrence name (namespaces s') i) names idxs).
Proof.
  induction names as [|name rest IH]; intros s h Hs Hh; simpl.
  - exists [], s, h. munfold. split_and!; try done.
    exists []. by rewrite app_nil_r.
  - destruct (addNamespace_settled_any_size s name h Hs Hh)
      as (idx & s1 & h1 & Hadd & Hh1 & Hs1 & (ext1 & Hext1) & Hidx).
    destruct (IH s1 h1 Hs1 Hh1) as (idxs & s' & h' & Hrest & Hs' & (ext & Hext) & Hall).
    munfold. rewrite Hadd. simpl. rewrite Hrest. simpl.
    exists (idx :: idxs), s', h'. split_and!; try done.
    + exists (ext1 ++ ext). by rewrite Hext, Hext1, <-app_assoc.
    + intros Hsize. constructor; [|by apply Hall].
      assert (Hsize1 : (Z.of_nat (namespacesSize s1) ≤ 65536)%Z).
      { unfold namespacesSize in *. rewrite Hext, length_app in Hsize. lia. }
      destruct (Hidx Hsize1) as (i & -> & Hocc). exists i. split; [done|].
      rewrite Hext. by apply first_occurrence_app.
Qed.

Lemma addNamespace_after_setup s h s1 h1 name :
  setupNs1Uri s h = Returns (s1, h1) → ns1_settled s1 →
  addNamespace s name h = addNamespace s1 name h1.
Proof.
  intros Hsetup Hs1. unfold addNamespace. munfold.
  by rewrite Hsetup, (setupNs1Uri_settled s1 h1 Hs1).
Qed.

(** C4 (as amended): a sequence of [addNamespace] calls during which no
    allocation fails returns; if the table holds at most 65536 entries
    afterwards (and hence throughout, so that every position fits the
    16-bit result), the index returned for every URI of the sequence —
    repeated or not — is the position of the first occurrence of that URI
    in the table; adding the URI once more returns the same index and leaves
    the server, and hence the table and its size, unchanged. *)
Theorem addNamespace_returns_first_occurrence (s : UA_Server) (names : list UA_String)
    (h : Heap) :
  2 ≤ namespacesSize s →
  no_failure h →
  ∃ idxs s' h',
    addNamespaces s names h = Returns ((idxs, s'), h')
    ∧ ((Z.of_nat (namespacesSize s') ≤ 65536)%Z →
       Forall2 (λ name idx,
         first_occurrence name (namespaces s') (Z.to_nat idx)
         ∧ ∀ h2, addNamespace s' name h2 = Returns ((idx, s'), h2)) names idxs).
Proof.
  intros Hsize Hh. destruct names as [|name rest].
  { exists [], s, h. split; [reflexivity | constructor]. }
  destruct (namespaces s !! 1) as [ns1|] eqn:H1;
    [|apply lookup_ge_None in H1; unfold namespacesSize in Hsize; lia].
  destruct (setupNs1Uri_any s h ns1 H1) as (ns1' & h1 & Hsetup & _).
  destruct (setupNs1Uri_settles s h _ h1 Hh Hsetup) as (Hs1 & Hh1 & _ & Hsize1).
  set (s1 := set_namespaces (<[1:=ns1']> (namespaces s)) s) in *.
  destruct (addNamespaces_settled_any_size (name :: rest) s1 h1 Hs1 Hh1)
    as (idxs & s' & h' & Hrun & Hs' & _ & Hall).
  exists idxs, s', h'. split.
  - simpl in *. munfold.
    by rewrite (addNamespace_after_setup s h s1 h1 name Hsetup Hs1).
  - intros Hbound. eapply Forall2_impl; [exact (Hall Hbound)|].
    intros uri idx (i & -> & Hocc).
    rewrite Nat2Z.id. split; [done|]. intros h2.
    apply addNamespace_again; [done..|].
    apply first_occurrence_lt in Hocc. unfold namespacesSize in *. lia.
Qed.

(** Scenario "Namespace growth": adding A, B, A, C to a fresh server returns
    2, 3, 2, 4 and leaves a table of size 5. *)
Example addNamespaces_growth :
  ∃ s',
    addNamespaces Example.server0 [Some "A"; Some "B"; Some "A"; Some "C"] []
    = Returns (([2; 3; 2; 4]%Z, s'), [])
    ∧ namespacesSize s' = 5.
Proof. eexists. split; [vm_compute; reflexivity | reflexivity]. Qed.

Lemma addNamespace_returns_first_occurrence_witness :
  ∃ idxs s' h',
    addNamespaces Example.server0 [Some "A"; Some "B"; Some "A"; Some "C"] []
    = Returns ((idxs, s'), h')
    ∧ (Z.of_nat (namespacesSize s') ≤ 65536)%Z
    ∧ Forall2 (λ name idx,
        first_occurrence name (namespaces s') (Z.to_nat idx)
        ∧ ∀ h2, addNamespace s' name h2 = Returns ((idx, s'), h2))
        [Some "A"; Some "B"; Some "A"; Some "C"] idxs.
Proof.
  destruct (addNamespace_returns_first_occurrence Example.server0
              [Some "A"; Some "B"; Some "A"; Some "C"] [])
    as (idxs & s' & h' & Hrun & Hall).
  - unfold namespacesSize; simpl; lia.
  - constructor.
  - assert (Hsize : (Z.of_nat (namespacesSize s') ≤ 65536)%Z).
    { vm_compute in Hrun. inversion Hrun; subst. vm_compute. discriminate. }
    exists idxs, s', h'. split; [exact Hrun|]. split; [exact Hsize|]. exact (Hall Hsize).
Defined.

Lemma full_table_facts :
  Z.of_nat (length Example.full_table) = 65536%Z
  ∧ list_find (λ ns, UA_String_equal (Some "urn:new") ns) Example.full_table = None
  ∧ Example.full_table !! 1 = Some (Some "urn:app")
  ∧ Example.full_table !! 0 = Some (Some "http://opcfoundation.org/UA/").
Proof. split_and!; vm_compute; reflexivity. Qed.

(** C4 (counterexample): the returned index is not always the position of
    the first occurrence.  When the growth of the table fails, 0 is returned
    for a URI that is nowhere in the table; when the table holds 65536
    entries, a new URI lands at position 65536 and 0 is returned. *)
Lemma addNamespace_index_not_first_occurrence :
  (addNamespace Example.server1 (Some "urn:A") [false]
     = Returns ((0%Z, Example.server1), [])
   ∧ ¬ first_occurrence (Some "urn:A") (namespaces Example.server1) 0)
  ∧ (∃ s' h',
       addNamespace Example.full_server (Some "urn:new") [] = Returns ((0%Z, s'), h')
       ∧ first_occurrence (Some "urn:new") (namespaces s') (Z.to_nat 65536)
       ∧ ¬ first_occurrence (Some "urn:new") (namespaces s') 0).
Proof.
  split.
  - split; [vm_compute; reflexivity|].
    intros [(u & Hu & Heq) _]. vm_compute in Hu. inversion Hu; subst. discriminate.
  - destruct full_table_facts as (Hlen & Hfind & H1 & H0).
    assert (Hns : namespaces Example.full_server = Example.full_table) by reflexivity.
    assert (Hs : ns1_settled Example.full_server).
    { exists (Some "urn:app"). rewrite Hns. split; [exact H1 | discriminate]. }
    rewrite <- Hns in Hfind.
    destruct (addNamespace_fresh Example.full_server (Some "urn:new") [] Hs
                ltac:(constructor) Hfind) as (h' & Hadd & _ & Hocc).
    unfold namespacesSize in *. rewrite Hns in *.
    rewrite Hlen in Hadd. change (to_UInt16 65536) with 0%Z in Hadd.
    eexists _, h'. split; [exact Hadd|].
    assert (Hns' : ∀ l s, namespaces (set_namespaces l s) = l) by reflexivity.
    rewrite Hns'. split.
    + replace (Z.to_nat 65536) with (length Example.full_table)
        by (apply Nat2Z.inj; rewrite Hlen; reflexivity).
      exact Hocc.
    + intros [(u & Hu & Heq) _].
      rewrite (lookup_app_l_Some _ _ _ _ H0) in Hu. inversion Hu; subst. discriminate.
Qed.

(** ** C1: [getNamespaceByIndex] at and above the size of the table *)

(** Above the size the answer is not-found, and nothing is copied out. *)
Lemma getNamespaceByIndex_above_size s h i :
  2 ≤ namespacesSize s → namespacesSize s < i →
  ∃ s' h', getNamespaceByIndex s i h
           = Returns ((UA_STATUSCODE_BADNOTFOUND, None, s'), h')
           ∧ namespacesSize s' = namespacesSize s.
Proof.
  intros Hsize Hi. unfold namespacesSize in *.
  destruct (namespaces s !! 1) as [ns1|] eqn:H1; [|apply lookup_ge_None in H1; lia].
  destruct (setupNs1Uri_any s h ns1 H1) as (ns1' & h' & Hsetup & _).
  unfold getNamespaceByIndex. munfold. rewrite Hsetup.
  unfold namespacesSize. simpl. rewrite length_insert.
  destruct (Nat.ltb_spec (length (namespaces s)) i); [|lia].
  eexists _, h'. split; [reflexivity|]. simpl. by rewrite length_insert.
Qed.

(** C1 (the code at the boundary): for an index equal to the size of the
    table the bounds check [namespaceIndex > namespacesSize] does not fire
    and the function reads [namespaces[namespacesSize]], one past the end of
    the array, instead of answering not-found. *)
Theorem getNamespaceByIndex_at_size_reads_past_end (s : UA_Server) (h : Heap) :
  2 ≤ namespacesSize s →
  getNamespaceByIndex s (namespacesSize s) h = Undefined OutOfBoundsRead.
Proof.
  intros Hsize. unfold namespacesSize in *.
  destruct (namespaces s !! 1) as [ns1|] eqn:H1; [|apply lookup_ge_None in H1; lia].
  destruct (setupNs1Uri_any s h ns1 H1) as (ns1' & h' & Hsetup & _).
  unfold getNamespaceByIndex. munfold. rewrite Hsetup.
  unfold namespacesSize. simpl. rewrite length_insert.
  rewrite Nat.ltb_irrefl.
  rewrite (proj2 (lookup_ge_None _ _)); [reflexivity|].
  by rewrite length_insert.
Qed.

Lemma getNamespaceByIndex_at_size_reads_past_end_witness :
  getNamespaceByIndex Example.server0 (namespacesSize Example.server0) []
  = Undefined OutOfBoundsRead.
Proof.
  apply (getNamespaceByIndex_at_size_reads_past_end Example.server0 []).
  unfold namespacesSize; simpl; lia.
Defined.

(** ** C10: a shutdown deadline, once set, stays *)

Lemma setServerShutdown_pending now s :
  endTime s ≠ 0%Z → setServerShutdown now s = (false, s).
Proof.
  intros Hend. unfold setServerShutdown.
  destruct (Z.eqb_spec (endTime s) 0); [done | reflexivity].
Qed.

(** C10: once a shutdown deadline is set ([endTime ≠ 0]), every later call
    of [setServerShutdown] returns false and leaves [endTime] as it is,
    whatever the clock reads and whatever the configured delay is at that
    time, 0 included. *)
Theorem setServerShutdown_keeps_deadline (calls : list (Z * Z)) (s : UA_Server) :
  endTime s ≠ 0%Z →
  Forall (λ stop, stop = false) (shutdown_requests calls s).1
  ∧ endTime (shutdown_requests calls s).2 = endTime s.
Proof.
  revert s. induction calls as [|[now delay] rest IH]; intros s Hend; simpl.
  - split; [constructor | reflexivity].
  - rewrite setServerShutdown_pending by done.
    destruct (IH (set_shutdownDelay delay s) Hend) as [Hall Heq].
    destruct (shutdown_requests rest (set_shutdownDelay delay s)) as [stops s'].
    simpl in *. split; [by constructor | exact Heq].
Qed.

Lemma setServerShutdown_keeps_deadline_witness :
  Forall (λ stop, stop = false)
    (shutdown_requests [(700, 0); (800, 500)]%Z (set_endTime 600 Example.server0)).1
  ∧ endTime (shutdown_requests [(700, 0); (800, 500)]%Z (set_endTime 600 Example.server0)).2
    = endTime (set_endTime 600 Example.server0).
Proof.
  apply (setServerShutdown_keeps_deadline [(700, 0); (800, 500)]%Z
           (set_endTime 600 Example.server0)).
  simpl. lia.
Defined.

(** ** C3: the value returned by [UA_Server_run_iterate] *)

Lemma to_UInt16_range z : (0 ≤ to_UInt16 z ≤ 65535)%Z.
Proof. unfold to_UInt16. pose proof (Z.mod_pos_bound z 65536). lia. Qed.

Lemma to_Int64_small z : (- 2 ^ 63 ≤ z < 2 ^ 63)%Z → to_Int64 z = z.
Proof. intros Hz. unfold to_Int64. rewrite Z.mod_small; lia. Qed.

(** C3 (as amended): [UA_Server_run_iterate] runs the event loop with a
    timeout of 50 ms and returns the time to the next cyclic callback in ms,
    truncated to 16 bits: a value between 0 and 65535, which is at most 50
    when that callback is due within the next 50 ms. *)
Theorem run_iterate_return_value `{Collaborators} (now : Z) (s : UA_Server)
    (waitInternal : bool) (ret : Z) (s' : UA_Server) :
  UA_Server_run_iterate now s waitInternal = Returns (ret, s') →
  s' = (el_run s 50).2
  ∧ ∃ el, eventLoop (config s') = Some el
          ∧ ret = to_UInt16 (to_Int64 (el_nextCyclicTime el - now) ÷ UA_DATETIME_MSEC)
          ∧ (0 ≤ ret ≤ 65535)%Z
          ∧ (0 ≤ el_nextCyclicTime el - now < 51 * UA_DATETIME_MSEC → ret ≤ 50)%Z.
Proof.
  unfold UA_Server_run_iterate, UA_MAXTIMEOUT. intros Hrun.
  destruct (eventLoop (config s)); [|discriminate].
  destruct (el_run s 50) as [res s1] eqn:Erun.
  destruct (eventLoop (config s1)) as [el|] eqn:Eel; [|discriminate].
  inversion Hrun; subst; clear Hrun. split; [reflexivity|].
  exists el. split; [done|]. split; [reflexivity|]. split; [apply to_UInt16_range|].
  intros Hdue. unfold UA_DATETIME_MSEC in *.
  rewrite to_Int64_small by lia.
  assert (0 ≤ (el_nextCyclicTime el - now) ÷ 10000 ≤ 50)%Z as Hq.
  { rewrite Z.quot_div_nonneg by lia. split; [apply Z.div_pos; lia|].
    apply Z.lt_succ_r. apply Z.div_lt_upper_bound; lia. }
  unfold to_UInt16. rewrite Z.mod_small; lia.
Qed.

Lemma run_iterate_return_value_witness :
  Example.server0 = (@el_run (Example.collaborators 300000) Example.server0 50).2
  ∧ ∃ el, eventLoop (config Example.server0) = Some el
          ∧ 30%Z = to_UInt16 (to_Int64 (@el_nextCyclicTime (Example.collaborators 300000) el - 0)
                                ÷ UA_DATETIME_MSEC)
          ∧ (0 ≤ 30 ≤ 65535)%Z
          ∧ (0 ≤ @el_nextCyclicTime (Example.collaborators 300000) el - 0
               < 51 * UA_DATETIME_MSEC → 30 ≤ 50)%Z.
Proof.
  apply (@run_iterate_return_value (Example.collaborators 300000) 0 Example.server0 true
           30 Example.server0).
  vm_compute. reflexivity.
Defined.

(** C3 (counterexample): with the next cyclic callback one second away (the
    housekeeping interval), [UA_Server_run_iterate] returns 1000. *)
Lemma run_iterate_returns_more_than_50 :
  @UA_Server_run_iterate (Example.collaborators 10000000) 0 Example.server0 true
  = Returns (1000%Z, Example.server0)
  ∧ ¬ (1000 ≤ 50)%Z.
Proof. split; [vm_compute; reflexivity | lia]. Qed.

(** ** C6: [UA_Server_updateCertificate] with a null argument *)

(** C6 (as amended): with a null server or a null old certificate, new
    certificate or private key, [UA_Server_updateCertificate] returns
    [UA_STATUSCODE_BADINTERNALERROR] and changes nothing, whatever the two
    boolean arguments are. *)
Theorem updateCertificate_null_argument (server : option UA_Server)
    (oldCertificate newCertificate newPrivateKey : option UA_ByteString)
    (closeSessions closeSecureChannels : bool) (h : Heap) :
  server = None ∨ oldCertificate = None ∨ newCertificate = None ∨ newPrivateKey = None →
  UA_Server_updateCertificate server oldCertificate newCertificate newPrivateKey
    closeSessions closeSecureChannels h
  = Returns ((UA_STATUSCODE_BADINTERNALERROR, server), h).
Proof.
  intros Hnull. unfold UA_Server_updateCertificate.
  destruct server, oldCertificate, newCertificate, newPrivateKey;
    try reflexivity.
  destruct Hnull as [?|[?|[?|?]]]; discriminate.
Qed.

Lemma updateCertificate_null_argument_witness :
  UA_Server_updateCertificate (Some Example.server0) None (Some (Some "new"))
    (Some (Some "key")) true false []
  = Returns ((UA_STATUSCODE_BADINTERNALERROR, Some Example.server0), []).
Proof.
  apply (updateCertificate_null_argument (Some Example.server0) None (Some (Some "new"))
           (Some (Some "key")) true false []).
  right. left. reflexivity.
Defined.

(** C6 (counterexample): the status returned for a null server is the
    internal-error code, which is not the invalid-argument code. *)
Lemma updateCertificate_null_not_invalid_argument :
  UA_Server_updateCertificate None (Some (Some "old")) (Some (Some "new"))
    (Some (Some "key")) true true []
  = Returns ((UA_STATUSCODE_BADINTERNALERROR, None), [])
  ∧ UA_STATUSCODE_BADINTERNALERROR ≠ UA_STATUSCODE_BADINVALIDARGUMENT.
Proof. split; [reflexivity | discriminate]. Qed.

(** ** C9: the connection managers tried by one reverse-connect attempt *)

Lemma opened_on_app log1 log2 : opened_on (log1 ++ log2) = opened_on log1 ++ opened_on log2.
Proof. unfold opened_on. apply omap_app. Qed.

Lemma attemptReverseConnect_loop_started `{Collaborators} todo :
  ∀ i el context res log,
    Forall started_tcp_manager todo →
    opened_on (attemptReverseConnect_loop i todo el context res log).2
    = opened_on log ++ seq i (length todo).
Proof.
  induction todo as [|es rest IH]; intros i el context res log Hall; simpl.
  - by rewrite app_nil_r.
  - apply Forall_cons in Hall as [(Htype & Htcp & Hstate) Hall].
    rewrite Htype, Htcp, Hstate.
    rewrite !bool_decide_eq_true_2 by done. simpl.
    destruct (cm_openConnection el i _ _) as [res' el'].
    set (context1 := if negb (isGood res') then set_connectionId 0 context else context).
    destruct (negb (bool_decide (rc_state context1 = UA_SECURECHANNELSTATE_CONNECTING)));
      rewrite IH by done.
    + destruct (stateCallback _); rewrite ?opened_on_app; simpl;
        rewrite ?app_nil_r, <-app_assoc; reflexivity.
    + rewrite opened_on_app. simpl. by rewrite <-app_assoc.
Qed.

(** C9 (the code with several managers): one attempt calls [openConnection]
    on every started TCP connection manager of the event-source list, in
    order, not only on the first one: the loop of [attemptReverseConnect]
    goes on after opening a connection. *)
Theorem attemptReverseConnect_opens_on_every_manager `{Collaborators}
    (s : UA_Server) (el : UA_EventLoop) (context : reverse_connect_context) :
  eventLoop (config s) = Some el →
  Forall started_tcp_manager (eventSources el) →
  ∃ res s' context' log,
    attemptReverseConnect s context = Returns (res, s', context', log)
    ∧ opened_on log = seq 0 (length (eventSources el)).
Proof.
  intros Hel Hall. unfold attemptReverseConnect. rewrite Hel.
  pose proof (attemptReverseConnect_loop_started (eventSources el) 0 el context
                UA_STATUSCODE_BADINTERNALERROR [] Hall) as Hlog.
  destruct (attemptReverseConnect_loop _ _ _ _ _ _) as [[[res el'] context'] log].
  eexists _, _, _, _. split; [reflexivity|]. exact Hlog.
Qed.

Lemma attemptReverseConnect_opens_on_every_manager_witness :
  ∃ res s' context' log,
    @attemptReverseConnect (Example.collaborators 0) Example.two_managers_server
      Example.new_entry = Returns (res, s', context', log)
    ∧ opened_on log = [0; 1].
Proof.
  apply (@attemptReverseConnect_opens_on_every_manager (Example.collaborators 0)
           Example.two_managers_server
           (Example.loop [Example.tcp UA_EVENTSOURCESTATE_STARTED;
                          Example.tcp UA_EVENTSOURCESTATE_STARTED])
           Example.new_entry).
  - reflexivity.
  - repeat constructor.
Defined.

(** ** C5: allocation failure in [addNamespace] and [UA_Server_addReverseConnect] *)

(** When the growth of the table fails, [addNamespace] returns 0 and the
    table is the one [setupNs1Uri] left: no entry is added. *)
Lemma addNamespace_out_of_memory s name h idx s' h' :
  addNamespace s name h = Returns ((idx, s'), h') →
  (∀ u, u ∈ namespaces s' → UA_String_equal name u = false) →
  idx = 0%Z
  ∧ namespacesSize s' = namespacesSize s
  ∧ ∃ h1, setupNs1Uri s h = Returns (s', h1).
Proof.
  unfold addNamespace. munfold. intros Hadd Hnotin.
  destruct (setupNs1Uri s h) as [[s1 h1]|] eqn:Hsetup; [|discriminate].
  assert (Hsize1 : namespacesSize s1 = namespacesSize s).
  { destruct (namespaces s !! 1) as [ns1|] eqn:H1;
      [|by rewrite setupNs1Uri_short in Hsetup].
    destruct (setupNs1Uri_any s h ns1 H1) as (ns1' & h1' & Heq & _).
    rewrite Heq in Hsetup. inversion Hsetup; subst.
    unfold namespacesSize. simpl. by rewrite length_insert. }
  destruct (list_find _ (namespaces s1)) as [[i u]|] eqn:Hfind.
  - inversion Hadd; subst. apply list_find_Some in Hfind as (Hu & Heq & _).
    apply list_elem_of_lookup_2 in Hu. rewrite (Hnotin u Hu) in Heq. done.
  - destruct (UA_malloc h1) as [[[] h2]|] eqn:Hmalloc; simpl in Hadd;
      [|inversion Hadd; subst; eauto| discriminate].
    destruct (UA_String_copy_any name h2) as (res & dst & h3 & Hcopy & Hdst).
    rewrite Hcopy in Hadd. simpl in Hadd.
    destruct (isGood res) eqn:Hres; simpl in Hadd; inversion Hadd; subst; [|eauto].
    exfalso. simpl in Hnotin.
    assert (Hin : dst ∈ namespaces s1 ++ [dst]) by (apply elem_of_app; right; by left).
    specialize (Hnotin dst Hin).
    unfold UA_String_copy in Hcopy. munfold.
    destruct name as [b|]; [|inversion Hcopy; subst; done].
    destruct (String.length b =? 0); [inversion Hcopy; subst; by rewrite UA_String_equal_refl in Hnotin|].
    destruct (UA_malloc h2) as [[[] ?]|]; inversion Hcopy; subst;
      [by rewrite UA_String_equal_refl in Hnotin | discriminate].
Qed.

(** C5 (the code when the entry cannot be allocated): on the first
    reverse connect, [UA_Server_addReverseConnect] registers the retry
    callback before it allocates the entry.  When the allocation fails it
    returns out-of-memory with the list and the handle counter as they were,
    but with the retry callback registered and its identifier stored in the
    server. *)
Theorem addReverseConnect_out_of_memory `{Collaborators} (s : UA_Server)
    (url hostname : UA_String) (parsedPort : option Z) (el el' : UA_EventLoop)
    (res : UA_StatusCode) (id : Z) (stateCallback : option nat) (callbackContext : nat)
    (want_handle : bool) (h : Heap) :
  UA_parseEndpointUrl url = (UA_STATUSCODE_GOOD, hostname, parsedPort) →
  reverseConnects s = [] →
  reverseConnectsCheckHandle s = 0%Z →
  eventLoop (config s) = Some el →
  el_addCyclicCallback el retryReverseConnectCallback 1000 = (res, Some id, el') →
  ∃ s',
    UA_Server_addReverseConnect s url stateCallback callbackContext want_handle (false :: h)
    = Returns ((UA_STATUSCODE_BADOUTOFMEMORY, None, s', []), h)
    ∧ reverseConnects s' = []
    ∧ lastReverseConnectHandle s' = lastReverseConnectHandle s
    ∧ reverseConnectsCheckHandle s' = id
    ∧ eventLoop (config s') = Some el'.
Proof.
  intros Hparse Hlist Hhandle Hel Hadd.
  unfold UA_Server_addReverseConnect. rewrite Hparse. simpl. rewrite Hlist.
  unfold setReverseConnectRetryCallback, addRepeatedCallback.
  rewrite Hhandle, Hel, Hadd. munfold. simpl.
  eexists. split; [reflexivity|]. simpl. by rewrite Hlist.
Qed.

Lemma addReverseConnect_out_of_memory_witness :
  ∃ s',
    @UA_Server_addReverseConnect (Example.collaborators 0) Example.server0
      (Some "opc.tcp://client.example:4841") None 0 true [false]
    = Returns ((UA_STATUSCODE_BADOUTOFMEMORY, None, s', []), [])
    ∧ reverseConnects s' = []
    ∧ lastReverseConnectHandle s' = lastReverseConnectHandle Example.server0
    ∧ reverseConnectsCheckHandle s' = 1%Z
    ∧ eventLoop (config s')
      = Some {| el_state := UA_EVENTLOOPSTATE_FRESH;
                eventSources := [Example.tcp UA_EVENTSOURCESTATE_STARTED];
                cyclicCallbacks := [(1%Z, retryReverseConnectCallback, 1000%Z)] |}.
Proof.
  apply (@addReverseConnect_out_of_memory (Example.collaborators 0) Example.server0
           (Some "opc.tcp://client.example:4841") (Some "client.example") None
           (Example.loop [Example.tcp UA_EVENTSOURCESTATE_STARTED]) _
           UA_STATUSCODE_GOOD 1 None 0 true []); reflexivity.
Defined.

(** ** Startup *)

Lemma startup_frame_refl s : startup_frame s s.
Proof. by repeat split. Qed.

Lemma startup_frame_trans s1 s2 s3 :
  startup_frame s1 s2 → startup_frame s2 s3 → startup_frame s1 s3.
Proof. unfold startup_frame. intros ? ?. intuition congruence. Qed.

Lemma startup_frame_eventLoop s el :
  startup_frame s (set_config (set_eventLoop el (config s)) s).
Proof. by repeat split. Qed.

Ltac not_good :=
  let Heq := fresh in
  intros Heq; inversion Heq; subst;
  match goal with Hg : isGood _ = false |- _ => apply Z.eqb_neq in Hg; congruence end.

Section Startup.
Context `{Collaborators}.

Lemma addRepeatedCallback_frame s cb interval res id s' :
  addRepeatedCallback s cb interval = Returns (res, id, s') → startup_frame s s'.
Proof.
  unfold addRepeatedCallback. destruct (eventLoop (config s)) as [el|]; [|discriminate].
  destruct (el_addCyclicCallback el cb interval) as [[res' id'] el'].
  intros Heq. inversion Heq; subst. apply startup_frame_eventLoop.
Qed.

Lemma startup_houseKeeping_frame s s' :
  startup_houseKeeping s = Returns s' → startup_frame s s'.
Proof.
  unfold startup_houseKeeping.
  destruct (houseKeepingCallbackId s =? 0)%Z;
    [|intros Heq; inversion Heq; subst; apply startup_frame_refl].
  destruct (addRepeatedCallback s serverHouseKeeping 1000) as [[[res id] s1]|] eqn:Hadd;
    [|discriminate].
  apply addRepeatedCallback_frame in Hadd.
  destruct id; intros Heq; inversion Heq; subst; [|done].
  eapply startup_frame_trans; [exact Hadd|]. by repeat split.
Qed.

Lemma createServerConnection_frame s url res s' :
  UA_Server_createServerConnection s url = Returns (res, s') → startup_frame s s'.
Proof.
  unfold UA_Server_createServerConnection.
  destruct (UA_parseEndpointUrl url) as [[res0 hostname] parsedPort].
  destruct (negb (isGood res0)).
  { intros Heq. inversion Heq; subst. apply startup_frame_refl. }
  destruct (eventLoop (config s)) as [el|]; [|discriminate].
  destruct (createServerConnection_loop _ 0 (eventSources el) el) as [res1 el1].
  intros Heq. inversion Heq; subst. apply startup_frame_eventLoop.
Qed.

Lemma startup_serverUrls_frame todo : ∀ have s have' s',
  startup_serverUrls todo have s = Returns (have', s') → startup_frame s s'.
Proof.
  induction todo as [|url rest IH]; intros have s have' s'; simpl.
  - intros Heq. inversion Heq; subst. apply startup_frame_refl.
  - destruct (UA_Server_createServerConnection s url) as [[res s1]|] eqn:Hc; [|discriminate].
    intros Hrest. eapply startup_frame_trans; [by eapply createServerConnection_frame|].
    by eapply IH.
Qed.

Lemma startup_openSockets_frame s have s' :
  startup_openSockets s = Returns (have, s') → startup_frame s s'.
Proof.
  unfold startup_openSockets. destruct (serverUrls (config s)) as [|url rest].
  - destruct (UA_Server_createServerConnection s _) as [[res s1]|] eqn:Hc; [|discriminate].
    intros Heq. inversion Heq; subst. by eapply createServerConnection_frame.
  - apply startup_serverUrls_frame.
Qed.

Lemma startup_discoveryUrls_frame todo : ∀ s h res s' h',
  startup_discoveryUrls todo s h = Returns ((res, s'), h') → startup_frame s s'.
Proof.
  induction todo as [|url rest IH]; intros s h res s' h'; simpl.
  - munfold. intros Heq. inversion Heq; subst. apply startup_frame_refl.
  - destruct (UA_parseEndpointUrl url) as [[res0 hostname] parsedPort].
    destruct (negb (isGood res0) || (UA_String_length hostname =? 0)); [apply IH|].
    munfold.
    destruct (UA_Array_appendCopy _ url h) as [[[res1 urls] h1]|]; [|discriminate].
    set (s1 := set_config (set_discoveryUrls urls (config s)) s).
    assert (Hf : startup_frame s s1) by (by repeat split).
    destruct (negb (isGood res1)).
    + intros Heq. inversion Heq; subst. exact Hf.
    + intros Hrest. eapply startup_frame_trans; [exact Hf | by eapply IH].
Qed.

(** The anatomy of a run of [run_startup] that gets as far as
    [setupNs1Uri]: [s1] is the server after the housekeeping callback, the
    start of the event loop and the listeners; [s2] the server after
    [setupNs1Uri]; from there on the namespaces and the application URI stay,
    and the lifecycle state stays or is set to fresh. *)
Lemma run_startup_good now s h s' h' :
  run_startup now s h = Returns ((UA_STATUSCODE_GOOD, s'), h') →
  ∃ s1 s2 h2,
    startup_frame s s1
    ∧ setupNs1Uri s1 h = Returns (s2, h2)
    ∧ namespaces s' = namespaces s2
    ∧ applicationUri (applicationDescription (config s'))
      = applicationUri (applicationDescription (config s))
    ∧ ((state s' = state s
        ∧ (lifecycle_value (state s) > lifecycle_value UA_SERVERLIFECYCLE_FRESH)%Z)
       ∨ (state s' = UA_SERVERLIFECYCLE_FRESH
          ∧ (lifecycle_value (state s) ≤ lifecycle_value UA_SERVERLIFECYCLE_FRESH)%Z)).
Proof.
  unfold run_startup. munfold.
  destruct (startup_houseKeeping s) as [sa|] eqn:Hhk; [|discriminate].
  apply startup_houseKeeping_frame in Hhk.
  destruct (eventLoop (config sa)) as [el|] eqn:Hel; [|discriminate].
  set (started := if negb (bool_decide (el_state el = UA_EVENTLOOPSTATE_STARTED))
                  then let '(retVal, el0) := el_start el in
                       (retVal, set_config (set_eventLoop (Some el0) (config sa)) sa)
                  else (UA_STATUSCODE_GOOD, sa)).
  assert (Hsb : startup_frame sa started.2).
  { unfold started. destruct (negb _); [|apply startup_frame_refl].
    destruct (el_start el). apply startup_frame_eventLoop. }
  destruct started as [retVal sb]. simpl in Hsb.
  destruct (isGood retVal) eqn:Hgood; simpl; [|not_good].
  destruct (startup_openSockets sb) as [[have s1]|] eqn:Hsock; [|discriminate].
  apply startup_openSockets_frame in Hsock.
  assert (Hs1 : startup_frame s s1)
    by (eapply startup_frame_trans; [|exact Hsock];
        eapply startup_frame_trans; [exact Hhk | exact Hsb]).
  destruct (setupNs1Uri s1 h) as [[s2 h2]|] eqn:Hsetup; [|discriminate].
  assert (Hs2 : config s2 = config s1 ∧ state s2 = state s1).
  { destruct (namespaces s1 !! 1) as [ns1|] eqn:H1;
      [|by rewrite setupNs1Uri_short in Hsetup].
    destruct (setupNs1Uri_any s1 h ns1 H1) as (ns1' & h1' & Heq & _).
    rewrite Heq in Hsetup. by inversion Hsetup; subst. }
  destruct Hs2 as [Hc2 Hst2].
  destruct Hs1 as (Hns1 & Hst1 & Huri1 & Hrest1).
  destruct (isGood (writeNs0VariableArray s2 _)) eqn:Hwrite; simpl;
    [|not_good].
  change (lifecycle_value UA_SERVERLIFECYCLE_FRESH) with 0%Z in *.
  destruct (lifecycle_value (state s2) >? 0)%Z eqn:Hpast.
  { intros Heq. inversion Heq; subst. exists s1, s', h'.
    split_and!; try done; [by rewrite Hc2 |].
    left. rewrite Hst2, Hst1. split; [done|]. apply Z.gtb_gt in Hpast.
    rewrite Hst2, Hst1 in Hpast. lia. }
  destruct (isGood (if UA_ENABLE_ENCRYPTION then verifyServerApplicationURI s2
                    else UA_STATUSCODE_GOOD)) eqn:Hverify; simpl;
    [|not_good].
  destruct (startup_discoveryUrls _ (set_startTime now s2) h2) as [[[res3 s3] h3]|] eqn:Hdisc;
    [|discriminate].
  apply startup_discoveryUrls_frame in Hdisc.
  destruct Hdisc as (Hns3 & Hst3 & Huri3 & _). simpl in *.
  destruct (isGood res3) eqn:Hres3; simpl; [|not_good].
  destruct (startup_endpoints _ _ h3) as [[eds h4]|]; [|discriminate].
  intros Heq. inversion Heq; subst. exists s1, s2, h2. simpl.
  split_and!; try done; [by rewrite Huri3; simpl; rewrite Hc2 |].
  right. split; [done|].
  rewrite Hst2, Hst1 in Hpast. lia.
Qed.

End Startup.

(** ** C2: the lifecycle state after startup *)

(** C2 (the code after a successful startup): [UA_Server_run_startup] on a
    fresh server ends with [server->state = UA_SERVERLIFECYCLE_FRESH]: the
    state is not past fresh afterwards, so the guard
    [server->state > UA_SERVERLIFECYCLE_FRESH] that is meant to make a
    repeated startup return early never fires on the next call. *)
Theorem run_startup_leaves_state_fresh `{Collaborators} (now : Z) (s s' : UA_Server)
    (h h' : Heap) :
  state s = UA_SERVERLIFECYCLE_FRESH →
  UA_Server_run_startup now (Some s) h = Returns ((UA_STATUSCODE_GOOD, Some s'), h') →
  state s' = UA_SERVERLIFECYCLE_FRESH
  ∧ ¬ (lifecycle_value (state s') > lifecycle_value UA_SERVERLIFECYCLE_FRESH)%Z.
Proof.
  intros Hfresh Hrun. unfold UA_Server_run_startup in Hrun. munfold.
  destruct (run_startup now s h) as [[[res s1] h1]|] eqn:Hbody; [|discriminate].
  inversion Hrun; subst; clear Hrun.
  destruct (run_startup_good now s h s' h' Hbody)
    as (s1 & s2 & h2 & _ & _ & _ & _ & [[Hst Hpast]|[Hst _]]).
  - rewrite Hfresh in Hpast. simpl in Hpast. lia.
  - rewrite Hst. simpl. split; [reflexivity | lia].
Qed.

Lemma run_startup_leaves_state_fresh_witness :
  ∃ s' h',
    @UA_Server_run_startup (Example.collaborators 0) 5 (Some Example.one_url_server) []
    = Returns ((UA_STATUSCODE_GOOD, Some s'), h')
    ∧ state s' = UA_SERVERLIFECYCLE_FRESH
    ∧ ¬ (lifecycle_value (state s') > lifecycle_value UA_SERVERLIFECYCLE_FRESH)%Z.
Proof.
  eexists _, _. split; [vm_compute; reflexivity|].
  eapply (@run_startup_leaves_state_fresh (Example.collaborators 0) 5
            Example.one_url_server _ [] _).
  - reflexivity.
  - vm_compute. reflexivity.
Defined.

(** A second startup does not return early: it runs the whole sequence
    again and, for one, appends the discovery URL a second time. *)
Example run_startup_twice :
  ∃ s1 s2,
    @UA_Server_run_startup (Example.collaborators 0) 5 (Some Example.one_url_server) []
    = Returns ((UA_STATUSCODE_GOOD, Some s1), [])
    ∧ @UA_Server_run_startup (Example.collaborators 0) 6 (Some s1) []
      = Returns ((UA_STATUSCODE_GOOD, Some s2), [])
    ∧ discoveryUrls (applicationDescription (config s1))
      = [Some "opc.tcp://client.example:4840"]
    ∧ discoveryUrls (applicationDescription (config s2))
      = [Some "opc.tcp://client.example:4840"; Some "opc.tcp://client.example:4840"]
    ∧ startTime s1 = 5%Z ∧ startTime s2 = 6%Z.
Proof.
  eexists _, _. split; [vm_compute; reflexivity|].
  split; [vm_compute; reflexivity|]. repeat split.
Qed.

(** ** C8: namespace 1 after an observable use *)

Lemma setupNs1Uri_slot1 s h s1 h1 :
  setupNs1Uri s h = Returns (s1, h1) → no_failure h →
  config s1 = config s
  ∧ 2 ≤ length (namespaces s1)
  ∧ ∃ old, namespaces s !! 1 = Some old
           ∧ namespaces s1 !! 1
             = Some (if UA_String_isNull old
                     then applicationUri (applicationDescription (config s)) else old).
Proof.
  intros Hsetup Hh.
  destruct (namespaces s !! 1) as [old|] eqn:H1; [|by rewrite setupNs1Uri_short in Hsetup].
  destruct (setupNs1Uri_any s h old H1) as (ns1' & h' & Heq & Hcase & Hok).
  rewrite Heq in Hsetup. inversion Hsetup; subst; clear Hsetup.
  destruct (Hok Hh) as [_ Hcopy]. apply lookup_lt_Some in H1 as Hlt. simpl.
  rewrite length_insert. split_and!; [done | lia |].
  exists old. split; [done|]. rewrite list_lookup_insert_eq by done.
  destruct (UA_String_isNull old); [by rewrite Hcopy | by destruct Hcase as [-> _]].
Qed.

(** C8 (as amended): after [addNamespace], [getNamespaceByName] or
    [getNamespaceByIndex] has returned, or [UA_Server_run_startup] has
    returned success, and no allocation failed, namespace index 1 holds the
    application URI if it was unset before the call — it is then non-empty
    if and only if the application URI is non-empty — and still holds its
    earlier value if it had been set before. *)
Theorem ns1_after_observable_use `{Collaborators} (s : UA_Server) (h : Heap)
    (s' : UA_Server) :
  namespace_use s h s' →
  no_failure h →
  applicationUri (applicationDescription (config s'))
  = applicationUri (applicationDescription (config s))
  ∧ ∃ old,
      namespaces s !! 1 = Some old
      ∧ namespaces s' !! 1
        = Some (if UA_String_isNull old
                then applicationUri (applicationDescription (config s)) else old)
      ∧ (UA_String_isNull old = true → (ns1_nonempty s' ↔ applicationUri_nonempty s')).
Proof.
  intros Huse Hh.
  assert (Hcore :
    applicationUri (applicationDescription (config s'))
    = applicationUri (applicationDescription (config s))
    ∧ ∃ old, namespaces s !! 1 = Some old
        ∧ namespaces s' !! 1
          = Some (if UA_String_isNull old
                  then applicationUri (applicationDescription (config s)) else old)).
  { destruct Huse as [name idx h' Hadd | uri res idx h' Hget | i res uri h' Hget
                     | now h' Hrun].
    - unfold addNamespace in Hadd. munfold.
      destruct (setupNs1Uri s h) as [[s1 h1]|] eqn:Hsetup; [|discriminate].
      destruct (setupNs1Uri_slot1 s h s1 h1 Hsetup Hh) as (Hc & Hlen & old & Hold & Hnew).
      assert (Hkeep : ∀ ext, (namespaces s1 ++ ext) !! 1 = namespaces s1 !! 1)
        by (intros ext; apply lookup_app_l; lia).
      destruct (list_find _ (namespaces s1)) as [[i u]|].
      { inversion Hadd; subst. rewrite Hc. eauto. }
      destruct (UA_malloc h1) as [[[] h2]|]; simpl in Hadd;
        [| inversion Hadd; subst; rewrite Hc; eauto | discriminate].
      destruct (UA_String_copy name h2) as [[[res2 copy] h3]|]; [|discriminate].
      simpl in Hadd. destruct (negb (isGood res2)); inversion Hadd; subst; simpl;
        rewrite ?Hkeep, Hc; eauto.
    - unfold getNamespaceByName in Hget. munfold.
      destruct (setupNs1Uri s h) as [[s1 h1]|] eqn:Hsetup; [|discriminate].
      destruct (setupNs1Uri_slot1 s h s1 h1 Hsetup Hh) as (Hc & Hlen & old & Hold & Hnew).
      destruct (list_find _ (namespaces s1)) as [[i u]|];
        inversion Hget; subst; rewrite Hc; eauto.
    - unfold getNamespaceByIndex in Hget. munfold.
      destruct (setupNs1Uri s h) as [[s1 h1]|] eqn:Hsetup; [|discriminate].
      destruct (setupNs1Uri_slot1 s h s1 h1 Hsetup Hh) as (Hc & Hlen & old & Hold & Hnew).
      destruct (namespacesSize s1 <? i); [inversion Hget; subst; rewrite Hc; eauto|].
      destruct (namespaces s1 !! i); [|discriminate].
      destruct (UA_String_copy _ h1) as [[[res2 copy] h2]|]; [|discriminate].
      inversion Hget; subst; rewrite Hc; eauto.
    - unfold UA_Server_run_startup in Hrun. munfold.
      destruct (run_startup now s h) as [[[res sr] hr]|] eqn:Hbody; [|discriminate].
      inversion Hrun; subst; clear Hrun.
      destruct (run_startup_good now s h s' h' Hbody)
        as (s1 & s2 & h2 & (Hns1 & _ & Huri1 & _) & Hsetup & Hns' & Huri' & _).
      destruct (setupNs1Uri_slot1 s1 h s2 h2 Hsetup Hh) as (Hc & Hlen & old & Hold & Hnew).
      split; [done|]. exists old. rewrite Hns', Hnew, <-Hns1, Huri1. done. }
  destruct Hcore as [Huri (old & Hold & Hnew)]. split; [done|].
  exists old. split_and!; [done..|]. intros Hnull. rewrite Hnull in Hnew.
  unfold ns1_nonempty, applicationUri_nonempty. rewrite Hnew, Huri. split.
  - intros (ns1 & Heq & Hlen). by inversion Heq; subst.
  - intros Hlen. eauto.
Qed.

Lemma ns1_after_observable_use_witness :
  applicationUri (applicationDescription (config Example.server1))
  = applicationUri (applicationDescription (config Example.server0))
  ∧ ∃ old,
      namespaces Example.server0 !! 1 = Some old
      ∧ namespaces Example.server1 !! 1
        = Some (if UA_String_isNull old
                then applicationUri (applicationDescription (config Example.server0))
                else old)
      ∧ (UA_String_isNull old = true →
         (ns1_nonempty Example.server1 ↔ applicationUri_nonempty Example.server1)).
Proof.
  apply (@ns1_after_observable_use (Example.collaborators 0) Example.server0 []
           Example.server1).
  - apply (use_getNamespaceByName _ _ _ (Some "urn:app") UA_STATUSCODE_GOOD (Some 1) []).
    vm_compute. reflexivity.
  - constructor.
Defined.

(** C8 (counterexample): a namespace 1 that the user set before the first
    use is kept; with an empty application URI it is non-empty although the
    application URI is empty. *)
Lemma ns1_custom_uri_is_kept :
  @namespace_use (Example.collaborators 0) Example.custom_ns1_server []
    Example.custom_ns1_server
  ∧ ¬ (ns1_nonempty Example.custom_ns1_server
       ↔ applicationUri_nonempty Example.custom_ns1_server).
Proof.
  split.
  - apply (use_getNamespaceByIndex _ _ _ 0 UA_STATUSCODE_GOOD
             (Some (Some "http://opcfoundation.org/UA/")) []).
    vm_compute. reflexivity.
  - intros [Hto _]. unfold applicationUri_nonempty in Hto. simpl in Hto.
    assert (Hne : ns1_nonempty Example.custom_ns1_server).
    { exists (Some "urn:custom"). split; [reflexivity | simpl; lia]. }
    specialize (Hto Hne). lia.
Qed.

(** ** C7: certificate rotation *)





Lemma channel_localCertificate_ext s1 s2 ch :
  securityPolicies (config s2) = securityPolicies (config s1) →
  channel_localCertificate s2 ch = channel_localCertificate s1 ch.
Proof. intros Hsp. unfold channel_localCertificate. by rewrite Hsp. Qed.













(** Scenario "Certificate rotation": one of two sessions is bound to the old
    certificate; after the rotation with both flags set it is gone, the
    channel is closing, the endpoint and the policy hold the new
    certificate. *)
Example updateCertificate_scenario :
  ∃ s',
    UA_Server_updateCertificate (Some Example.rotation_server) (Some (Some "old-cert"))
      (Some (Some "new-cert")) (Some (Some "new-key")) true true []
    = Returns ((UA_STATUSCODE_GOOD, Some s'), [])
    ∧ sessions s' = [{| authenticationToken := 12; channel := Some 1 |}]
    ∧ channelState <$> channels s'
      = [UA_SECURECHANNELSTATE_CLOSING; UA_SECURECHANNELSTATE_OPEN]
    ∧ serverCertificate <$> endpoints (config s') = [Some "new-cert"; Some "other-cert"]
    ∧ localCertificate <$> securityPolicies (config s')
      = [Some "new-cert"; Some "other-cert"].
Proof. eexists. split; [vm_compute; reflexivity|]. repeat split. Qed.

(** * Further properties of the code *)

(** ** The namespace registry *)

Lemma setupNs1Uri_shape s h s1 h1 :
  setupNs1Uri s h = Returns (s1, h1) →
  ∃ ns1, s1 = set_namespaces (<[1:=ns1]> (namespaces s)) s ∧ 2 ≤ length (namespaces s).
Proof.
  intros Hsetup.
  destruct (namespaces s !! 1) as [old|] eqn:H1; [|by rewrite setupNs1Uri_short in Hsetup].
  destruct (setupNs1Uri_any s h old H1) as (ns1' & h' & Heq & _).
  rewrite Heq in Hsetup. inversion Hsetup; subst. exists ns1'. split; [done|].
  apply lookup_lt_Some in H1. lia.
Qed.

Lemma addNamespace_append_only_result (s : UA_Server) (name : UA_String) (h : Heap)
    (idx : Z) (s' : UA_Server) (h' : Heap) :
  addNamespace s name h = Returns ((idx, s'), h') →
  s' = set_namespaces (namespaces s') s
  ∧ namespacesSize s ≤ namespacesSize s' ≤ namespacesSize s + 1
  ∧ ∀ i u, i ≠ 1 → namespaces s !! i = Some u → namespaces s' !! i = Some u.
Proof.
  unfold addNamespace. munfold. intros Hadd.
  destruct (setupNs1Uri s h) as [[s1 h1]|] eqn:Hsetup; [|discriminate].
  destruct (setupNs1Uri_shape s h s1 h1 Hsetup) as (ns1 & -> & Hlen).
  assert (Hkeep : ∀ i u, i ≠ 1 → namespaces s !! i = Some u →
                         <[1:=ns1]> (namespaces s) !! i = Some u).
  { intros i u Hi Hu. by rewrite list_lookup_insert_ne. }
  unfold namespacesSize. simpl in Hadd.
  destruct (list_find _ _) as [[i u]|].
  { inversion Hadd; subst. simpl. rewrite length_insert. split_and!; [done | lia | lia | done]. }
  destruct (UA_malloc h1) as [[[] h2]|]; simpl in Hadd;
    [| inversion Hadd; subst; simpl; rewrite length_insert;
       split_and!; [done | lia | lia | done] | discriminate].
  destruct (UA_String_copy name h2) as [[[res copy] h3]|]; [|discriminate].
  simpl in Hadd. destruct (negb (isGood res)); inversion Hadd; subst; simpl.
  - rewrite length_insert. split_and!; [done | lia | lia | done].
  - rewrite length_app, length_insert. simpl. split_and!; [done | lia | lia |].
    intros i u Hi Hu. apply lookup_app_l_Some. by apply Hkeep.
Qed.

Lemma getNamespaceByName_answer_result (s : UA_Server) (uri : UA_String) (h : Heap)
    (res : UA_StatusCode) (found : option nat) (s' : UA_Server) (h' : Heap) :
  getNamespaceByName s uri h = Returns ((res, found, s'), h') →
  (res = UA_STATUSCODE_GOOD
   ∧ ∃ i, found = Some i ∧ first_occurrence uri (namespaces s') i)
  ∨ (res = UA_STATUSCODE_BADNOTFOUND ∧ found = None
     ∧ ∀ u, u ∈ namespaces s' → UA_String_equal uri u = false).
Proof.
  unfold getNamespaceByName. munfold. intros Hget.
  destruct (setupNs1Uri s h) as [[s1 h1]|] eqn:Hsetup; [|discriminate].
  assert (Hext : list_find (λ ns, UA_String_equal ns uri) (namespaces s1)
                 = list_find (λ ns, UA_String_equal uri ns) (namespaces s1)).
  { apply list_find_ext. intros x. by rewrite UA_String_equal_sym. }
  rewrite Hext in Hget.
  destruct (list_find _ (namespaces s1)) as [[i u]|] eqn:Hfind; inversion Hget; subst.
  - left. split; [done|]. exists i. split; [done|]. apply first_occurrence_find. eauto.
  - right. split_and!; [done..|]. intros u Hu.
    apply list_find_None in Hfind. apply (proj1 (Forall_forall _ _) Hfind) in Hu.
    by destruct (UA_String_equal uri u).
Qed.

Lemma addNamespace_lookup_round_trip_result (s : UA_Server) (name : UA_String) (h : Heap)
    (idx : Z) (s' : UA_Server) (h' : Heap) :
  addNamespace s name h = Returns ((idx, s'), h') →
  no_failure h →
  (Z.of_nat (namespacesSize s) < 65536)%Z →
  (∀ h2, getNamespaceByName s' name h2
         = Returns ((UA_STATUSCODE_GOOD, Some (Z.to_nat idx), s'), h2))
  ∧ (∀ h2, no_failure h2 →
       ∃ uri h3, getNamespaceByIndex s' (Z.to_nat idx) h2
                 = Returns ((UA_STATUSCODE_GOOD, Some uri, s'), h3)
                 ∧ UA_String_equal name uri = true).
Proof.
  intros Hadd Hh Hsize.
  destruct (setupNs1Uri s h) as [[s1 h1]|] eqn:Hsetup;
    [|unfold addNamespace in Hadd; munfold; by rewrite Hsetup in Hadd].
  destruct (setupNs1Uri_settles s h s1 h1 Hh Hsetup) as (Hs1 & Hh1 & _ & Hsize1).
  rewrite (addNamespace_after_setup s h s1 h1 name Hsetup Hs1) in Hadd.
  destruct (addNamespace_settled s1 name h1 Hs1 Hh1 ltac:(lia))
    as (i & s2 & h2 & Hadd2 & _ & Hs2 & _ & Hocc).
  rewrite Hadd2 in Hadd. inversion Hadd; subst. rewrite Nat2Z.id.
  pose proof (first_occurrence_lt _ _ _ Hocc) as Hlt.
  split.
  - intros h3. unfold getNamespaceByName. munfold.
    rewrite setupNs1Uri_settled by done.
    apply first_occurrence_find in Hocc as (u & Hfind).
    rewrite (list_find_ext _ (λ ns, UA_String_equal name ns))
      by (intros x; by rewrite UA_String_equal_sym).
    by rewrite Hfind.
  - intros h3 Hh3. unfold getNamespaceByIndex. munfold.
    rewrite setupNs1Uri_settled by done.
    destruct (Nat.ltb_spec (namespacesSize s') i); [unfold namespacesSize in *; lia|].
    destruct Hocc as [(u & Hu & Heq) _]. rewrite Hu.
    destruct (UA_String_copy_ok u h3 Hh3) as (h4 & -> & _). eauto.
Qed.

(** A copy either succeeds exactly or fails with out-of-memory and a null
    destination. *)
Lemma UA_String_copy_cases src h :
  ∃ h', UA_String_copy src h = Returns ((UA_STATUSCODE_GOOD, src), h')
        ∨ UA_String_copy src h = Returns ((UA_STATUSCODE_BADOUTOFMEMORY, None), h').
Proof.
  unfold UA_String_copy. destruct src as [b|]; [|munfold; eauto].
  destruct (String.length b =? 0); [munfold; eauto|].
  munfold. destruct h as [|[] h]; simpl; eauto.
Qed.

Lemma setupNs1Uri_returns s h :
  2 ≤ namespacesSize s → ∃ s1 h1, setupNs1Uri s h = Returns (s1, h1).
Proof.
  intros Hsize. unfold namespacesSize in Hsize.
  destruct (lookup_lt_is_Some_2 (namespaces s) 1 ltac:(lia)) as [ns1 H1].
  destruct (setupNs1Uri_any s h ns1 H1) as (ns1' & h' & -> & _). eauto.
Qed.

Lemma addNamespace_returns s name h :
  2 ≤ namespacesSize s → ∃ idx s' h', addNamespace s name h = Returns ((idx, s'), h').
Proof.
  intros Hsize. destruct (setupNs1Uri_returns s h Hsize) as (s1 & h1 & Hsetup).
  unfold addNamespace. munfold. rewrite Hsetup.
  destruct (list_find _ _) as [[i u]|]; [eauto|].
  destruct (UA_malloc h1) as [[[] h2]|] eqn:Hmalloc; simpl.
  - destruct (UA_String_copy_cases name h2) as (h3 & [-> | ->]); simpl; eauto.
  - eauto.
  - destruct h1; discriminate.
Qed.

(** [addNamespace] only ever touches the namespace table, and there only
    slot 1 (the lazy initialisation) and the end (the new entry): on a
    table with its two first slots it returns, and whatever the allocator
    does, every other field of the server stays, the table grows by at most
    one entry and no entry outside slot 1 changes. *)
Theorem addNamespace_append_only (s : UA_Server) (name : UA_String) (h : Heap) :
  2 ≤ namespacesSize s →
  ∃ idx s' h',
    addNamespace s name h = Returns ((idx, s'), h')
    ∧ s' = set_namespaces (namespaces s') s
    ∧ namespacesSize s ≤ namespacesSize s' ≤ namespacesSize s + 1
    ∧ ∀ i u, i ≠ 1 → namespaces s !! i = Some u → namespaces s' !! i = Some u.
Proof.
  intros Hsize. destruct (addNamespace_returns s name h Hsize) as (idx & s' & h' & Hadd).
  exists idx, s', h'. split; [done|]. by eapply addNamespace_append_only_result.
Qed.

Lemma addNamespace_append_only_witness :
  ∃ idx s' h',
    addNamespace Example.server0 (Some "urn:new") [] = Returns ((idx, s'), h')
    ∧ s' = set_namespaces (namespaces s') Example.server0
    ∧ namespacesSize Example.server0 ≤ namespacesSize s'
      ≤ namespacesSize Example.server0 + 1
    ∧ ∀ i u, i ≠ 1 → namespaces Example.server0 !! i = Some u
             → namespaces s' !! i = Some u.
Proof.
  apply (addNamespace_append_only Example.server0 (Some "urn:new") []).
  unfold namespacesSize. simpl. lia.
Defined.

(** The answer of [getNamespaceByName] on a table with its two first
    slots: good with the position of the first entry equal to the URI, or
    not-found — with [*foundIndex] left alone — when no entry of the table
    is equal to the URI. *)
Theorem getNamespaceByName_answer (s : UA_Server) (uri : UA_String) (h : Heap) :
  2 ≤ namespacesSize s →
  ∃ res found s' h',
    getNamespaceByName s uri h = Returns ((res, found, s'), h')
    ∧ ((res = UA_STATUSCODE_GOOD
        ∧ ∃ i, found = Some i ∧ first_occurrence uri (namespaces s') i)
       ∨ (res = UA_STATUSCODE_BADNOTFOUND ∧ found = None
          ∧ ∀ u, u ∈ namespaces s' → UA_String_equal uri u = false)).
Proof.
  intros Hsize. destruct (setupNs1Uri_returns s h Hsize) as (s1 & h1 & Hsetup).
  assert (∃ res found s' h', getNamespaceByName s uri h = Returns ((res, found, s'), h'))
    as (res & found & s' & h' & Hget).
  { unfold getNamespaceByName. munfold. rewrite Hsetup.
    destruct (list_find _ _) as [[i u]|]; eauto. }
  exists res, found, s', h'. split; [done|]. by eapply getNamespaceByName_answer_result.
Qed.

Lemma getNamespaceByName_answer_witness :
  ∃ res found s' h',
    getNamespaceByName Example.server0 (Some "urn:app") [] = Returns ((res, found, s'), h')
    ∧ ((res = UA_STATUSCODE_GOOD
        ∧ ∃ i, found = Some i ∧ first_occurrence (Some "urn:app") (namespaces s') i)
       ∨ (res = UA_STATUSCODE_BADNOTFOUND ∧ found = None
          ∧ ∀ u, u ∈ namespaces s' → UA_String_equal (Some "urn:app") u = false)).
Proof.
  apply (getNamespaceByName_answer Example.server0 (Some "urn:app") []).
  unfold namespacesSize. simpl. lia.
Defined.

(** What [addNamespace] returns can be looked up again: by name it gives
    the same index, by index it gives a URI equal to the one added.  (A
    table with its two first slots and within the 16-bit range, no failed
    allocation.) *)
Theorem addNamespace_lookup_round_trip (s : UA_Server) (name : UA_String) (h : Heap) :
  2 ≤ namespacesSize s →
  no_failure h →
  (Z.of_nat (namespacesSize s) < 65536)%Z →
  ∃ idx s' h',
    addNamespace s name h = Returns ((idx, s'), h')
    ∧ (∀ h2, getNamespaceByName s' name h2
             = Returns ((UA_STATUSCODE_GOOD, Some (Z.to_nat idx), s'), h2))
    ∧ (∀ h2, no_failure h2 →
         ∃ uri h3, getNamespaceByIndex s' (Z.to_nat idx) h2
                   = Returns ((UA_STATUSCODE_GOOD, Some uri, s'), h3)
                   ∧ UA_String_equal name uri = true).
Proof.
  intros Hsize Hh Hrange.
  destruct (addNamespace_returns s name h Hsize) as (idx & s' & h' & Hadd).
  exists idx, s', h'. split; [done|]. by eapply addNamespace_lookup_round_trip_result.
Qed.

Lemma addNamespace_lookup_round_trip_witness :
  ∃ idx s' h',
    addNamespace Example.server0 (Some "A") [] = Returns ((idx, s'), h')
    ∧ (∀ h2, getNamespaceByName s' (Some "A") h2
             = Returns ((UA_STATUSCODE_GOOD, Some (Z.to_nat idx), s'), h2))
    ∧ (∀ h2, no_failure h2 →
         ∃ uri h3, getNamespaceByIndex s' (Z.to_nat idx) h2
                   = Returns ((UA_STATUSCODE_GOOD, Some uri, s'), h3)
                   ∧ UA_String_equal (Some "A") uri = true).
Proof.
  apply (addNamespace_lookup_round_trip Example.server0 (Some "A") []).
  - unfold namespacesSize. simpl. lia.
  - constructor.
  - unfold namespacesSize. simpl. lia.
Defined.

Lemma addNamespace_out_of_memory_witness :
  0%Z = 0%Z
  ∧ namespacesSize Example.server1 = namespacesSize Example.server1
  ∧ ∃ h1, setupNs1Uri Example.server1 [false] = Returns (Example.server1, h1).
Proof.
  apply (addNamespace_out_of_memory Example.server1 (Some "urn:A") [false] 0
           Example.server1 []).
  - vm_compute. reflexivity.
  - intros u Hu. apply list_elem_of_In in Hu. simpl in Hu.
    destruct Hu as [<-|[<-|[]]]; reflexivity.
Defined.

Lemma getNamespaceByIndex_above_size_witness :
  ∃ s' h', getNamespaceByIndex Example.server0 3 []
           = Returns ((UA_STATUSCODE_BADNOTFOUND, None, s'), h')
           ∧ namespacesSize s' = namespacesSize Example.server0.
Proof.
  apply (getNamespaceByIndex_above_size Example.server0 [] 3);
    unfold namespacesSize; simpl; lia.
Defined.

(** Below the size of the table [getNamespaceByIndex] hands out a copy of
    the entry at the index; the only way it fails is that this copy cannot
    be allocated, and then the URI handed out is null. *)
Theorem getNamespaceByIndex_in_range (s : UA_Server) (i : nat) (h : Heap) :
  2 ≤ namespacesSize s →
  i < namespacesSize s →
  ∃ res uri s' h',
    getNamespaceByIndex s i h = Returns ((res, Some uri, s'), h')
    ∧ ((res = UA_STATUSCODE_GOOD ∧ namespaces s' !! i = Some uri)
       ∨ (res = UA_STATUSCODE_BADOUTOFMEMORY ∧ uri = None))
    ∧ (no_failure h → res = UA_STATUSCODE_GOOD).
Proof.
  intros Hsize Hi. unfold namespacesSize in *.
  destruct (namespaces s !! 1) as [ns1|] eqn:H1; [|apply lookup_ge_None in H1; lia].
  destruct (setupNs1Uri_any s h ns1 H1) as (ns1' & h1 & Hsetup & _ & Hok).
  unfold getNamespaceByIndex. munfold. rewrite Hsetup.
  unfold namespacesSize. simpl. rewrite length_insert.
  destruct (Nat.ltb_spec (length (namespaces s)) i); [lia|].
  destruct (<[1:=ns1']> (namespaces s) !! i) as [u|] eqn:Hu;
    [|apply lookup_ge_None in Hu; rewrite length_insert in Hu; lia].
  destruct (UA_String_copy_cases u h1) as (h2 & [Hcopy|Hcopy]); rewrite Hcopy.
  - eexists _, _, _, _. split; [reflexivity|]. split; [left; by split | done].
  - eexists _, _, _, _. split; [reflexivity|]. split; [right; by split|].
    intros Hh. destruct (Hok Hh) as [Hh1 _].
    destruct (UA_String_copy_ok u h1 Hh1) as (h3 & Hgood & _).
    rewrite Hgood in Hcopy. by inversion Hcopy.
Qed.

Lemma getNamespaceByIndex_in_range_witness :
  ∃ res uri s' h',
    getNamespaceByIndex Example.server0 1 [] = Returns ((res, Some uri, s'), h')
    ∧ ((res = UA_STATUSCODE_GOOD ∧ namespaces s' !! 1 = Some uri)
       ∨ (res = UA_STATUSCODE_BADOUTOFMEMORY ∧ uri = None))
    ∧ (no_failure [] → res = UA_STATUSCODE_GOOD).
Proof.
  apply (getNamespaceByIndex_in_range Example.server0 1 []);
    unfold namespacesSize; simpl; lia.
Defined.

(** The empty name: a C string of length 0 is equal to a null or empty
    entry.  On a server without an application URI whose slot 1 is still
    empty, [UA_Server_addNamespace(server, "")] finds slot 1, returns 1 and
    adds nothing. *)
Theorem addNamespace_empty_name (s : UA_Server) (h : Heap) (ns0 ns1 : UA_String) :
  namespaces s !! 0 = Some ns0 →
  namespaces s !! 1 = Some ns1 →
  0 < UA_String_length ns0 →
  UA_String_length ns1 = 0 →
  UA_String_length (applicationUri (applicationDescription (config s))) = 0 →
  ∃ s' h',
    UA_Server_addNamespace s "" h = Returns ((1%Z, s'), h')
    ∧ namespacesSize s' = namespacesSize s.
Proof.
  intros H0 H1 Hlen0 Hlen1 Huri.
  destruct (setupNs1Uri_any s h ns1 H1) as (ns1' & h1 & Hsetup & Hcase & _).
  assert (Hlen1' : UA_String_length ns1' = 0).
  { destruct (UA_String_isNull ns1); [|by destruct Hcase as [-> _]].
    by destruct Hcase as [-> | ->]. }
  unfold UA_Server_addNamespace, addNamespace. munfold. rewrite Hsetup. simpl.
  assert (Hfind : list_find (λ ns, UA_String_equal (Some "") ns)
                    (<[1:=ns1']> (namespaces s)) = Some (1, ns1')).
  { apply list_find_Some. apply lookup_lt_Some in H1 as Hlt. split_and!.
    - by apply list_lookup_insert_eq.
    - unfold UA_String_equal. simpl. rewrite Hlen1'. done.
    - intros j y Hy Hj. assert (j = 0) as -> by lia.
      rewrite list_lookup_insert_ne in Hy by done. rewrite H0 in Hy.
      inversion Hy; subst. unfold UA_String_equal. simpl.
      destruct (UA_String_length y); [lia | simpl; tauto]. }
  rewrite Hfind. eexists _, _. split; [reflexivity|].
  unfold namespacesSize. simpl. by rewrite length_insert.
Qed.

Lemma addNamespace_empty_name_witness :
  ∃ s' h',
    UA_Server_addNamespace
      (Example.fresh None [] (Example.loop [])) "" [] = Returns ((1%Z, s'), h')
    ∧ namespacesSize s' = namespacesSize (Example.fresh None [] (Example.loop [])).
Proof.
  apply (addNamespace_empty_name (Example.fresh None [] (Example.loop [])) []
           (Some "http://opcfoundation.org/UA/") None);
    try reflexivity.
  simpl. lia.
Defined.

(** ** Shutdown requests *)

(** The first shutdown request (no deadline pending): with a delay of 0 the
    server is to stop now and nothing is recorded; with a delay the request
    returns false and records the deadline [now + delay], in 100 ns ticks. *)
Lemma setServerShutdown_first_request (now : Z) (s : UA_Server) :
  endTime s = 0%Z →
  (shutdownDelay (config s) = 0%Z → setServerShutdown now s = (true, s))
  ∧ (shutdownDelay (config s) ≠ 0%Z →
     (- 2 ^ 63 ≤ shutdownDelay (config s) * UA_DATETIME_MSEC < 2 ^ 63)%Z →
     (- 2 ^ 63 ≤ now + shutdownDelay (config s) * UA_DATETIME_MSEC < 2 ^ 63)%Z →
     setServerShutdown now s
     = (false, set_endTime (now + shutdownDelay (config s) * UA_DATETIME_MSEC) s)).
Proof.
  intros Hend. unfold setServerShutdown. rewrite Hend. simpl. split.
  - intros ->. reflexivity.
  - intros Hdelay Hr1 Hr2.
    destruct (Z.eqb_spec (shutdownDelay (config s)) 0); [done|].
    by rewrite (to_Int64_small _ Hr1), (to_Int64_small _ Hr2).
Qed.

(** A delayed shutdown: after a request at [now] with a delay that puts the
    deadline at a non-zero tick, the shutdown condition is false up to the
    deadline and true from the first tick after it. *)
Theorem delayed_shutdown_condition (now later : Z) (s : UA_Server) :
  endTime s = 0%Z →
  shutdownDelay (config s) ≠ 0%Z →
  (- 2 ^ 63 ≤ shutdownDelay (config s) * UA_DATETIME_MSEC < 2 ^ 63)%Z →
  (- 2 ^ 63 ≤ now + shutdownDelay (config s) * UA_DATETIME_MSEC < 2 ^ 63)%Z →
  (now + shutdownDelay (config s) * UA_DATETIME_MSEC ≠ 0)%Z →
  (setServerShutdown now s).1 = false
  ∧ (testShutdownCondition later (setServerShutdown now s).2 = true
     ↔ (later > now + shutdownDelay (config s) * UA_DATETIME_MSEC)%Z).
Proof.
  intros Hend Hdelay Hr1 Hr2 Hnz.
  destruct (setServerShutdown_first_request now s Hend) as [_ Hreq].
  rewrite (Hreq Hdelay Hr1 Hr2). simpl. split; [done|].
  unfold testShutdownCondition. simpl.
  destruct (Z.eqb_spec (now + shutdownDelay (config s) * UA_DATETIME_MSEC) 0); [done|].
  rewrite Z.gtb_gt. done.
Qed.

Lemma delayed_shutdown_condition_witness :
  (setServerShutdown 1000 (set_shutdownDelay 500 Example.server0)).1 = false
  ∧ (testShutdownCondition 6001000 (setServerShutdown 1000
                                      (set_shutdownDelay 500 Example.server0)).2 = true
     ↔ (6001000 > 1000 + shutdownDelay (config (set_shutdownDelay 500 Example.server0))
                         * UA_DATETIME_MSEC)%Z).
Proof.
  apply (delayed_shutdown_condition 1000 6001000 (set_shutdownDelay 500 Example.server0));
    simpl; unfold UA_DATETIME_MSEC; lia.
Defined.

(** ** The main loop *)

Lemma run_iterate_returns `{Collaborators} now s wait :
  run_keeps_shutdown_settings →
  is_Some (eventLoop (config s)) →
  ∃ ret, UA_Server_run_iterate now s wait = Returns (ret, (el_run s 50).2)
         ∧ endTime (el_run s 50).2 = endTime s
         ∧ shutdownDelay (config (el_run s 50).2) = shutdownDelay (config s)
         ∧ is_Some (eventLoop (config (el_run s 50).2)).
Proof.
  intros Hkeep [el Hel]. destruct (Hkeep s 50%Z) as (Hend & Hdelay & Hsome).
  unfold UA_Server_run_iterate, UA_MAXTIMEOUT. rewrite Hel.
  destruct (el_run s 50) as [res s1]. simpl in *.
  destruct (Hsome ltac:(eauto)) as [el1 Hel1]. rewrite Hel1. eauto 6.
Qed.

(** Once a shutdown deadline is pending, the main loop of [UA_Server_run]
    makes one pass for every clock reading up to the deadline and leaves at
    the first reading past it — whatever [*running] is during these passes:
    a delayed shutdown cannot be called off, shortened or extended. *)
Theorem run_loop_leaves_at_deadline `{Collaborators} (ticks : list Tick) (s : UA_Server) :
  run_keeps_shutdown_settings →
  is_Some (eventLoop (config s)) →
  endTime s ≠ 0%Z →
  ∃ s',
    UA_Server_run_loop ticks s
    = Returns (bool_decide (passes_before_deadline (endTime s) ticks < length ticks), s',
               passes_before_deadline (endTime s) ticks)
    ∧ endTime s' = endTime s.
Proof.
  intros Hkeep. revert s. induction ticks as [|t rest IH]; intros s Hel Hend; simpl.
  - exists s. by split.
  - unfold testShutdownCondition.
    destruct (Z.eqb_spec (endTime s) 0); [done|].
    destruct (tick_now t >? endTime s)%Z.
    { exists s. split; [|done]. rewrite bool_decide_eq_true_2 by lia. done. }
    destruct (run_iterate_returns (tick_nowMonotonic t) s true Hkeep Hel)
      as (ret & -> & Hend1 & _ & Hel1).
    set (s1 := (el_run s 50).2) in *.
    assert (Hstop : (if negb (tick_running t)
                     then setServerShutdown (tick_now_request t) s1
                     else (false, s1)) = (false, s1)).
    { destruct (tick_running t); simpl; [done|].
      apply setServerShutdown_pending. by rewrite Hend1. }
    rewrite Hstop.
    destruct (IH s1 Hel1 ltac:(by rewrite Hend1)) as (s' & Hloop & Hend').
    rewrite Hloop, Hend1. exists s'. split; [|by rewrite Hend', Hend1].
    f_equal. f_equal. f_equal. apply bool_decide_ext. lia.
Qed.

(** Without a delay ([shutdownDelay = 0]) and without a pending deadline,
    the main loop of [UA_Server_run] keeps iterating while [*running] is
    true and leaves right after the first pass that finds it false. *)
Theorem run_loop_leaves_when_not_running `{Collaborators} (ticks : list Tick)
    (s : UA_Server) :
  run_keeps_shutdown_settings →
  is_Some (eventLoop (config s)) →
  endTime s = 0%Z →
  shutdownDelay (config s) = 0%Z →
  ∃ s',
    UA_Server_run_loop ticks s
    = Returns (bool_decide (passes_while_running ticks < length ticks), s',
               if bool_decide (passes_while_running ticks < length ticks)
               then S (passes_while_running ticks) else passes_while_running ticks)
    ∧ endTime s' = 0%Z.
Proof.
  intros Hkeep. revert s. induction ticks as [|t rest IH]; intros s Hel Hend Hdelay; simpl.
  - exists s. by split.
  - unfold testShutdownCondition. rewrite Hend. simpl.
    destruct (run_iterate_returns (tick_nowMonotonic t) s true Hkeep Hel)
      as (ret & -> & Hend1 & Hdelay1 & Hel1).
    set (s1 := (el_run s 50).2) in *. rewrite Hend in Hend1. rewrite Hdelay in Hdelay1.
    destruct (tick_running t); simpl.
    + destruct (IH s1 Hel1 Hend1 Hdelay1) as (s' & Hloop & Hend').
      rewrite Hloop. exists s'. split; [|done].
      rewrite (bool_decide_ext (S (passes_while_running rest) < S (length rest))
                 (passes_while_running rest < length rest)) by lia.
      by destruct (bool_decide (passes_while_running rest < length rest)).
    + unfold setServerShutdown. rewrite Hend1, Hdelay1. simpl.
      exists s1. by split.
Qed.

Lemma example_run_keeps_shutdown_settings next :
  @run_keeps_shutdown_settings (Example.collaborators next).
Proof. intros s timeout. simpl. auto. Qed.

Lemma run_loop_leaves_at_deadline_witness :
  ∃ s',
    @UA_Server_run_loop (Example.collaborators 0)
      [{| tick_now := 100; tick_nowMonotonic := 0; tick_running := false;
          tick_now_request := 100 |};
       {| tick_now := 500; tick_nowMonotonic := 0; tick_running := true;
          tick_now_request := 500 |};
       {| tick_now := 700; tick_nowMonotonic := 0; tick_running := true;
          tick_now_request := 700 |}]
      (set_endTime 600 Example.server0)
    = Returns (bool_decide (2 < 3), s', 2)
    ∧ endTime s' = 600%Z.
Proof.
  apply (@run_loop_leaves_at_deadline (Example.collaborators 0)
           [{| tick_now := 100; tick_nowMonotonic := 0; tick_running := false;
               tick_now_request := 100 |};
            {| tick_now := 500; tick_nowMonotonic := 0; tick_running := true;
               tick_now_request := 500 |};
            {| tick_now := 700; tick_nowMonotonic := 0; tick_running := true;
               tick_now_request := 700 |}]
           (set_endTime 600 Example.server0)).
  - apply example_run_keeps_shutdown_settings.
  - eexists. reflexivity.
  - simpl. lia.
Defined.

Lemma run_loop_leaves_when_not_running_witness :
  ∃ s',
    @UA_Server_run_loop (Example.collaborators 0)
      [{| tick_now := 100; tick_nowMonotonic := 0; tick_running := true;
          tick_now_request := 100 |};
       {| tick_now := 200; tick_nowMonotonic := 0; tick_running := false;
          tick_now_request := 200 |};
       {| tick_now := 300; tick_nowMonotonic := 0; tick_running := true;
          tick_now_request := 300 |}]
      Example.server0
    = Returns (bool_decide (1 < 3), s', if bool_decide (1 < 3) then 2 else 1)
    ∧ endTime s' = 0%Z.
Proof.
  apply (@run_loop_leaves_when_not_running (Example.collaborators 0)
           [{| tick_now := 100; tick_nowMonotonic := 0; tick_running := true;
               tick_now_request := 100 |};
            {| tick_now := 200; tick_nowMonotonic := 0; tick_running := false;
               tick_now_request := 200 |};
            {| tick_now := 300; tick_nowMonotonic := 0; tick_running := true;
               tick_now_request := 300 |}]
           Example.server0).
  - apply example_run_keeps_shutdown_settings.
  - eexists. reflexivity.
  - reflexivity.
  - reflexivity.
Defined.

(** ** Iterating over the children of a node *)

Lemma forEachChildNodeCall_loop_local {Handle : Type}
    (callback : @UA_NodeIteratorCallback Handle) (refs : list UA_ReferenceDescription)
    (res : UA_StatusCode) (handle : Handle) :
  forEachChildNodeCall_loop callback refs res handle
  = forEachChildNodeCall_loop callback (local_references refs) res handle.
Proof.
  revert res handle. unfold local_references.
  induction refs as [|ref rest IH]; intros res handle; [reflexivity|].
  rewrite filter_cons. cbn [forEachChildNodeCall_loop].
  destruct (UA_ExpandedNodeId_isLocal (rd_nodeId ref)) eqn:Hlocal.
  - rewrite decide_True by done. cbn [forEachChildNodeCall_loop negb]. rewrite Hlocal.
    cbn [negb]. destruct (callback _ _ _ handle) as [res1 handle1].
    destruct (negb (isGood res1)); [reflexivity | apply IH].
  - rewrite decide_False by (by intros []). apply IH.
Qed.

(** References to nodes of other servers are skipped: they change neither
    the status nor what the callback does to the state behind its handle.
    The iteration is the one over the browse result without them. *)
Theorem forEachChildNodeCall_skips_remote {Handle : Type} (br : UA_BrowseResult)
    (callback : @UA_NodeIteratorCallback Handle) (handle : Handle) :
  UA_Server_forEachChildNodeCall br callback handle
  = UA_Server_forEachChildNodeCall
      {| statusCode := statusCode br; references := local_references (references br) |}
      callback handle.
Proof.
  unfold UA_Server_forEachChildNodeCall. simpl.
  destruct (negb (isGood (statusCode br))); [reflexivity|].
  apply forEachChildNodeCall_loop_local.
Qed.

Lemma isGood_true res : isGood res = true ↔ res = UA_STATUSCODE_GOOD.
Proof. unfold isGood. apply Z.eqb_eq. Qed.

Lemma forEachChildNodeCall_loop_recording status refs : ∀ log,
  (∀ ref, ref ∈ refs → UA_ExpandedNodeId_isLocal (rd_nodeId ref) = true) →
  forEachChildNodeCall_loop (recording status) refs UA_STATUSCODE_GOOD log
  = match list_find (λ call, status call ≠ UA_STATUSCODE_GOOD) (child_call <$> refs) with
    | None => (UA_STATUSCODE_GOOD, log ++ (child_call <$> refs))
    | Some (k, call) => (status call, log ++ take (S k) (child_call <$> refs))
    end.
Proof.
  induction refs as [|ref rest IH]; intros log Hlocal.
  - simpl. by rewrite app_nil_r.
  - cbn [forEachChildNodeCall_loop]. rewrite Hlocal by (by left). cbn [negb].
    unfold recording at 1. fold (child_call ref).
    destruct (decide (status (child_call ref) ≠ UA_STATUSCODE_GOOD)) as [Hbad|Hgood].
    + assert (isGood (status (child_call ref)) = false) as ->.
      { destruct (isGood _) eqn:Hg; [|done]. by apply isGood_true in Hg. }
      rewrite fmap_cons. cbn [list_find negb]. rewrite decide_True by done.
      reflexivity.
    + apply dec_stable in Hgood. rewrite Hgood.
      change (isGood UA_STATUSCODE_GOOD) with true. cbn [negb].
      rewrite IH by (intros r Hr; apply Hlocal; by right).
      rewrite fmap_cons. cbn [list_find]. rewrite decide_False by (by intros ?).
      destruct (list_find _ (child_call <$> rest)) as [[k call]|]; simpl;
        by rewrite <-app_assoc.
Qed.

(** [UA_Server_forEachChildNodeCall] after a good browse: the callback is
    called for the local references, in the order of the browse result,
    with the child, the inverse flag and the reference type; it is called
    up to and including the first call that does not answer good, whose
    status is returned; if every call answers good, the result is good. *)
Theorem forEachChildNodeCall_calls (br : UA_BrowseResult)
    (status : UA_NodeId * bool * UA_NodeId → UA_StatusCode) :
  statusCode br = UA_STATUSCODE_GOOD →
  UA_Server_forEachChildNodeCall br (recording status) []
  = match list_find (λ call, status call ≠ UA_STATUSCODE_GOOD)
            (child_call <$> local_references (references br)) with
    | None => (UA_STATUSCODE_GOOD, child_call <$> local_references (references br))
    | Some (k, call) =>
        (status call, take (S k) (child_call <$> local_references (references br)))
    end.
Proof.
  intros Hgood. unfold UA_Server_forEachChildNodeCall. rewrite Hgood. simpl.
  rewrite forEachChildNodeCall_loop_local.
  rewrite forEachChildNodeCall_loop_recording; [done|].
  intros ref Hin. unfold local_references in Hin.
  apply list_elem_of_filter in Hin as [Hlocal _]. by apply Is_true_true.
Qed.

Lemma forEachChildNodeCall_calls_witness :
  UA_Server_forEachChildNodeCall Example2.browse_result (recording Example2.refuse_12) []
  = match list_find (λ call, Example2.refuse_12 call ≠ UA_STATUSCODE_GOOD)
            (child_call <$> local_references (references Example2.browse_result)) with
    | None => (UA_STATUSCODE_GOOD,
               child_call <$> local_references (references Example2.browse_result))
    | Some (k, call) =>
        (Example2.refuse_12 call,
         take (S k) (child_call <$> local_references (references Example2.browse_result)))
    end.
Proof.
  apply (forEachChildNodeCall_calls Example2.browse_result Example2.refuse_12).
  reflexivity.
Defined.

(** The nodes 10 and 12 are visited, the remote node 11 is skipped, and the
    failure at 12 ends the iteration before 13. *)
Example forEachChildNodeCall_example :
  UA_Server_forEachChildNodeCall Example2.browse_result (recording Example2.refuse_12) []
  = (UA_STATUSCODE_BADINTERNALERROR,
     [(UA_NODEID_NUMERIC 1 10, false, UA_NODEID_NUMERIC 0 35);
      (UA_NODEID_NUMERIC 1 12, true, UA_NODEID_NUMERIC 0 35)]).
Proof. reflexivity. Qed.

(** A browse that fails is reported as it is, and the callback is not
    called at all. *)
Theorem forEachChildNodeCall_bad_browse {Handle : Type} (br : UA_BrowseResult)
    (callback : @UA_NodeIteratorCallback Handle) (handle : Handle) :
  statusCode br ≠ UA_STATUSCODE_GOOD →
  UA_Server_forEachChildNodeCall br callback handle = (statusCode br, handle).
Proof.
  intros Hbad. unfold UA_Server_forEachChildNodeCall.
  destruct (isGood (statusCode br)) eqn:Hg; [by apply isGood_true in Hg | reflexivity].
Qed.

(** ** Certificate rotation: edge behaviour *)

Lemma updateCertificate_sessions_unused old todo : ∀ s,
  Forall (λ x, ∃ c, session_localCertificate s x = Returns c
                    ∧ UA_ByteString_equal old c = false) todo →
  updateCertificate_sessions old todo s = Returns s.
Proof.
  induction todo as [|x rest IH]; intros s Hall; simpl; [done|].
  apply Forall_cons in Hall as [(c & -> & ->) Hall]. by apply IH.
Qed.

Lemma updateCertificate_channels_unused old todo : ∀ pos s,
  Forall (λ ch, ∃ c, channel_localCertificate s ch = Returns c
                     ∧ UA_ByteString_equal c old = false) todo →
  updateCertificate_channels old pos todo s = Returns s.
Proof.
  induction todo as [|ch rest IH]; intros pos s Hall; simpl; [done|].
  apply Forall_cons in Hall as [(c & -> & ->) Hall]. by apply IH.
Qed.

Lemma updateCertificate_endpoints_unused old new key todo : ∀ i s h,
  Forall (λ ed, UA_ByteString_equal (serverCertificate ed) old = false) todo →
  updateCertificate_endpoints old new key i todo s h
  = Returns ((UA_STATUSCODE_GOOD, s), h).
Proof.
  induction todo as [|ed rest IH]; intros i s h Hall; simpl; [done|].
  apply Forall_cons in Hall as [-> Hall]. by apply IH.
Qed.

(** Rotating a certificate that nothing uses: when no session, no channel
    and no endpoint refers to the old certificate, the rotation returns
    good, allocates nothing and leaves the server exactly as it was. *)
Theorem updateCertificate_unused_certificate (s : UA_Server)
    (old new key : UA_ByteString) (h : Heap) :
  Forall (λ x, ∃ c, session_localCertificate s x = Returns c
                    ∧ UA_ByteString_equal old c = false) (sessions s) →
  Forall (λ ch, ∃ c, channel_localCertificate s ch = Returns c
                     ∧ UA_ByteString_equal c old = false) (channels s) →
  Forall (λ ed, UA_ByteString_equal (serverCertificate ed) old = false)
    (endpoints (config s)) →
  UA_Server_updateCertificate (Some s) (Some old) (Some new) (Some key) true true h
  = Returns ((UA_STATUSCODE_GOOD, Some s), h).
Proof.
  intros Hsess Hch Heds. unfold UA_Server_updateCertificate. munfold.
  rewrite updateCertificate_sessions_unused by done.
  rewrite updateCertificate_channels_unused by done.
  by rewrite updateCertificate_endpoints_unused.
Qed.

Lemma updateCertificate_unused_certificate_witness :
  UA_Server_updateCertificate (Some Example.rotation_server) (Some (Some "unused-cert"))
    (Some (Some "new-cert")) (Some (Some "new-key")) true true []
  = Returns ((UA_STATUSCODE_GOOD, Some Example.rotation_server), []).
Proof.
  apply (updateCertificate_unused_certificate Example.rotation_server (Some "unused-cert")
           (Some "new-cert") (Some "new-key") []).
  - repeat constructor; eexists; (split; [reflexivity | reflexivity]).
  - repeat constructor; eexists; (split; [reflexivity | reflexivity]).
  - repeat constructor.
Defined.

Lemma updateCertificate_sessions_null_channel old todo : ∀ s,
  (∃ x, x ∈ todo ∧ channel x = None) →
  ∃ why, updateCertificate_sessions old todo s = Undefined why.
Proof.
  induction todo as [|current rest IH]; intros s (x & Hin & Hnull).
  - by apply elem_of_nil in Hin.
  - simpl. destruct (session_localCertificate s current) as [cert|why] eqn:Hcert; [|eauto].
    apply elem_of_cons in Hin as [->|Hin].
    { unfold session_localCertificate in Hcert. by rewrite Hnull in Hcert. }
    destruct (UA_ByteString_equal old cert); apply IH; eauto.
Qed.

(** A session without a secure channel: with [closeSessions] set, the loop
    over the sessions reads [header.channel->securityPolicy] of every
    session it reaches without a null check, so a session whose channel
    pointer is [NULL] makes the rotation dereference a null pointer. *)
Theorem updateCertificate_session_without_channel (s : UA_Server) (session : UA_Session)
    (old new key : UA_ByteString) (closeSecureChannels : bool) (h : Heap) :
  session ∈ sessions s →
  channel session = None →
  ∃ why,
    UA_Server_updateCertificate (Some s) (Some old) (Some new) (Some key)
      true closeSecureChannels h = Undefined why.
Proof.
  intros Hin Hnull. unfold UA_Server_updateCertificate. munfold.
  destruct (updateCertificate_sessions_null_channel old (sessions s) s) as (why & ->);
    eauto.
Qed.

Lemma updateCertificate_session_without_channel_witness :
  ∃ why,
    UA_Server_updateCertificate
      (Some (set_sessions [{| authenticationToken := 11; channel := None |}]
               Example.rotation_server))
      (Some (Some "old-cert")) (Some (Some "new-cert")) (Some (Some "new-key"))
      true false [] = Undefined why.
Proof.
  apply (updateCertificate_session_without_channel
           (set_sessions [{| authenticationToken := 11; channel := None |}]
              Example.rotation_server)
           {| authenticationToken := 11; channel := None |}
           (Some "old-cert") (Some "new-cert") (Some "new-key") false []).
  - simpl. by left.
  - reflexivity.
Defined.

Lemma updateCertificate_sessions_returns old todo : ∀ s,
  Forall (λ x, ∃ c, session_localCertificate s x = Returns c) todo →
  ∃ sA, updateCertificate_sessions old todo s = Returns sA
        ∧ config sA = config s ∧ channels sA = channels s.
Proof.
  induction todo as [|current rest IH]; intros s Hall; simpl; [by exists s|].
  apply Forall_cons in Hall as [(cert & ->) Hall].
  destruct (UA_ByteString_equal old cert); [|by apply IH].
  set (s1 := UA_Server_removeSessionByToken s (authenticationToken current)).
  destruct (IH s1) as (sA & -> & Hc & Hch); [|by exists sA].
  eapply Forall_impl; [exact Hall|]. intros x (c & Hx). exists c.
  by rewrite <-Hx.
Qed.

Lemma updateCertificate_channels_returns old todo : ∀ pos s,
  Forall (λ ch, ∃ c, channel_localCertificate s ch = Returns c) todo →
  ∃ sB, updateCertificate_channels old pos todo s = Returns sB
        ∧ config sB = config s.
Proof.
  induction todo as [|entry rest IH]; intros pos s Hall; simpl; [by exists s|].
  apply Forall_cons in Hall as [(cert & ->) Hall].
  destruct (UA_ByteString_equal cert old); [|by apply IH].
  set (s1 := shutdownServerSecureChannel s pos).
  destruct (IH (S pos) s1) as (sB & -> & Hc); [|by exists sB].
  eapply Forall_impl; [exact Hall|]. intros x (c & Hx). by exists c.
Qed.

Lemma updateCertificate_endpoints_missing_policy old new key ed eds_after h todo :
  ∀ done s,
  Forall (λ e, UA_ByteString_equal (serverCertificate e) old = false) todo →
  UA_ByteString_equal (serverCertificate ed) old = true →
  getSecurityPolicyByUri s (securityPolicyUri ed) = None →
  endpoints (config s) = done ++ todo ++ ed :: eds_after →
  ∃ s' h' cert,
    updateCertificate_endpoints old new key (length done) (todo ++ ed :: eds_after) s h
    = Returns ((UA_STATUSCODE_BADINTERNALERROR, s'), h')
    ∧ (cert = new ∨ cert = None) ∧ (no_failure h → cert = new)
    ∧ endpoints (config s') = done ++ todo ++ set_serverCertificate cert ed :: eds_after
    ∧ securityPolicies (config s') = securityPolicies (config s)
    ∧ sessions s' = sessions s ∧ channels s' = channels s.
Proof.
  induction todo as [|e rest IH]; intros done s Hall Hmatch Hnone Heds.
  - simpl. rewrite Hmatch. munfold.
    destruct (UA_String_copy_cases new h) as (h1 & [Hcopy|Hcopy]); rewrite Hcopy; simpl.
    + unfold getSecurityPolicyByUri in *. simpl. rewrite Hnone.
      eexists _, h1, new. split; [reflexivity|]. simpl. split_and!; auto.
      rewrite Heds. simpl. rewrite insert_app_r_alt by lia. by rewrite Nat.sub_diag.
    + unfold getSecurityPolicyByUri in *. simpl. rewrite Hnone.
      eexists _, h1, None. split; [reflexivity|]. simpl. split_and!; auto.
      * intros Hh. destruct (UA_String_copy_ok new h Hh) as (h2 & Hok & _).
        rewrite Hok in Hcopy. by inversion Hcopy.
      * rewrite Heds. simpl. rewrite insert_app_r_alt by lia. by rewrite Nat.sub_diag.
  - apply Forall_cons in Hall as [Hne Hall]. simpl. rewrite Hne.
    destruct (IH (done ++ [e]) s Hall Hmatch Hnone) as (s' & h' & cert & Hrun & Hrest).
    { by rewrite <-app_assoc. }
    rewrite length_app in Hrun. simpl in Hrun.
    replace (length done + 1) with (S (length done)) in Hrun by lia.
    exists s', h', cert. split; [exact Hrun|].
    by rewrite <-app_assoc in Hrest.
Qed.

(** The rotation is not all-or-nothing.  On a server whose sessions all have
    a channel and whose channels all have a security policy: when the first
    endpoint that holds the old certificate names a security policy URI that
    no policy has, the function fails with internal error — whatever the
    two close flags and the allocator — after it has replaced the
    certificate of that endpoint (by the new certificate, or by a null one
    if the copy could not be allocated); the endpoints before and behind it
    and all security policies are left as they were. *)
Theorem updateCertificate_missing_policy (s : UA_Server)
    (old new key : UA_ByteString) (eds_before : list UA_EndpointDescription)
    (ed : UA_EndpointDescription) (eds_after : list UA_EndpointDescription)
    (closeSessions closeSecureChannels : bool) (h : Heap) :
  endpoints (config s) = eds_before ++ ed :: eds_after →
  Forall (λ e, UA_ByteString_equal (serverCertificate e) old = false) eds_before →
  UA_ByteString_equal (serverCertificate ed) old = true →
  getSecurityPolicyByUri s (securityPolicyUri ed) = None →
  Forall (λ x, ∃ c, session_localCertificate s x = Returns c) (sessions s) →
  Forall (λ ch, ∃ c, channel_localCertificate s ch = Returns c) (channels s) →
  ∃ s' h' cert,
    UA_Server_updateCertificate (Some s) (Some old) (Some new) (Some key)
      closeSessions closeSecureChannels h
    = Returns ((UA_STATUSCODE_BADINTERNALERROR, Some s'), h')
    ∧ (cert = new ∨ cert = None) ∧ (no_failure h → cert = new)
    ∧ endpoints (config s') = eds_before ++ set_serverCertificate cert ed :: eds_after
    ∧ securityPolicies (config s') = securityPolicies (config s).
Proof.
  intros Heds Hbefore Hmatch Hnone Hsess Hch. unfold UA_Server_updateCertificate. munfold.
  assert (∃ sA, (if closeSessions then updateCertificate_sessions old (sessions s) s
                 else Returns s) = Returns sA
                ∧ config sA = config s ∧ channels sA = channels s)
    as (sA & -> & HcA & HchA).
  { destruct closeSessions; [by apply updateCertificate_sessions_returns | by exists s]. }
  assert (∃ sB, (if closeSecureChannels
                 then updateCertificate_channels old 0 (channels sA) sA
                 else Returns sA) = Returns sB
                ∧ config sB = config s)
    as (sB & -> & HcB).
  { destruct closeSecureChannels; [|by exists sA].
    destruct (updateCertificate_channels_returns old (channels sA) 0 sA) as (sB & ? & ?).
    - rewrite HchA. eapply Forall_impl; [exact Hch|]. intros ch (c & Hc). exists c.
      rewrite <-Hc. apply channel_localCertificate_ext. by rewrite HcA.
    - exists sB. split; [done | congruence]. }
  destruct (updateCertificate_endpoints_missing_policy old new key ed eds_after h
              eds_before [] sB Hbefore Hmatch)
    as (s' & h' & cert & Hrun & Hcert & Hok & Heds' & Hsp & _).
  { unfold getSecurityPolicyByUri in *. by rewrite HcB. }
  { by rewrite HcB. }
  simpl in Hrun. rewrite HcB, Heds, Hrun. simpl.
  exists s', h', cert. split_and!; [done..| congruence].
Qed.

Lemma updateCertificate_missing_policy_witness :
  ∃ s' h' cert,
    UA_Server_updateCertificate (Some Example2.missing_policy_server)
      (Some (Some "other-cert")) (Some (Some "new-cert")) (Some (Some "new-key"))
      true true [false]
    = Returns ((UA_STATUSCODE_BADINTERNALERROR, Some s'), h')
    ∧ (cert = Some "new-cert" ∨ cert = None)
    ∧ (no_failure [false] → cert = Some "new-cert")
    ∧ endpoints (config s')
      = [{| serverCertificate := Some "old-cert"; securityPolicyUri := Some "Basic256";
            ed_server := {| applicationUri := Some "urn:app"; discoveryUrls := [] |} |}]
        ++ set_serverCertificate cert
             {| serverCertificate := Some "other-cert"; securityPolicyUri := Some "Aes256";
                ed_server := {| applicationUri := Some "urn:app"; discoveryUrls := [] |} |}
           :: []
    ∧ securityPolicies (config s') = securityPolicies (config Example2.missing_policy_server).
Proof.
  apply (updateCertificate_missing_policy Example2.missing_policy_server
           (Some "other-cert") (Some "new-cert") (Some "new-key")
           [{| serverCertificate := Some "old-cert"; securityPolicyUri := Some "Basic256";
               ed_server := {| applicationUri := Some "urn:app"; discoveryUrls := [] |} |}]
           {| serverCertificate := Some "other-cert"; securityPolicyUri := Some "Aes256";
              ed_server := {| applicationUri := Some "urn:app"; discoveryUrls := [] |} |}
           [] true true [false]).
  - reflexivity.
  - repeat constructor.
  - reflexivity.
  - reflexivity.
  - repeat constructor; eexists; reflexivity.
  - repeat constructor; eexists; reflexivity.
Defined.

(** The sessions and channels on the old certificate are closed all the
    same, although the rotation fails. *)
Example updateCertificate_missing_policy_closes :
  ∃ s',
    UA_Server_updateCertificate (Some Example2.missing_policy_server)
      (Some (Some "other-cert")) (Some (Some "new-cert")) (Some (Some "new-key"))
      true true []
    = Returns ((UA_STATUSCODE_BADINTERNALERROR, Some s'), [])
    ∧ sessions s' = [{| authenticationToken := 11; channel := Some 0 |}]
    ∧ channelState <$> channels s'
      = [UA_SECURECHANNELSTATE_OPEN; UA_SECURECHANNELSTATE_CLOSING].
Proof. eexists. split; [vm_compute; reflexivity|]. split; reflexivity. Qed.

(** ** Verification of the application URI *)

Lemma exempt_from_verification_test sp :
  UA_String_equal (policyUri sp) securityPolicyNoneUri
  && (UA_String_length (localCertificate sp) =? 0) = true
  ↔ exempt_from_verification sp.
Proof.
  unfold exempt_from_verification. rewrite andb_true_iff, Nat.eqb_eq. done.
Qed.

(** [verifyServerApplicationURI] is good exactly when the application URI
    verifies against the certificate of every security policy other than a
    policy "None" without certificate; otherwise its status is the one of
    the first such policy that does not verify. *)
Theorem verifyServerApplicationURI_status `{Collaborators} (s : UA_Server) :
  let uri := applicationUri (applicationDescription (config s)) in
  (verifyServerApplicationURI s = UA_STATUSCODE_GOOD
   ↔ Forall (λ sp, exempt_from_verification sp
                   ∨ verifyApplicationURI (localCertificate sp) uri = UA_STATUSCODE_GOOD)
       (securityPolicies (config s)))
  ∧ (verifyServerApplicationURI s ≠ UA_STATUSCODE_GOOD →
     ∃ before sp after,
       securityPolicies (config s) = before ++ sp :: after
       ∧ Forall (λ sp, exempt_from_verification sp
                       ∨ verifyApplicationURI (localCertificate sp) uri
                         = UA_STATUSCODE_GOOD) before
       ∧ ¬ exempt_from_verification sp
       ∧ verifyServerApplicationURI s = verifyApplicationURI (localCertificate sp) uri).
Proof.
  intros uri. unfold verifyServerApplicationURI. fold uri.
  induction (securityPolicies (config s)) as [|sp rest [IHgood IHbad]]; simpl.
  - split; [split; [constructor | done] | done].
  - destruct (UA_String_equal (policyUri sp) securityPolicyNoneUri
              && (UA_String_length (localCertificate sp) =? 0)) eqn:Hex.
    + apply exempt_from_verification_test in Hex. split.
      * rewrite IHgood. split; [intros ?; constructor; auto|].
        intros Hall. by apply Forall_cons in Hall as [_ ?].
      * intros Hbad. destruct (IHbad Hbad) as (before & sp' & after & -> & Hb & Hne & Heq).
        exists (sp :: before), sp', after. split_and!; try done. constructor; auto.
    + assert (Hnex : ¬ exempt_from_verification sp).
      { intros Hyes. apply exempt_from_verification_test in Hyes. congruence. }
      destruct (isGood (verifyApplicationURI (localCertificate sp) uri)) eqn:Hg; simpl.
      * apply isGood_true in Hg. split.
        -- rewrite IHgood. split; [intros ?; constructor; auto|].
           intros Hall. by apply Forall_cons in Hall as [_ ?].
        -- intros Hbad.
           destruct (IHbad Hbad) as (before & sp' & after & -> & Hb & Hne & Heq).
           exists (sp :: before), sp', after. split_and!; try done. constructor; auto.
      * assert (Hbad : verifyApplicationURI (localCertificate sp) uri ≠ UA_STATUSCODE_GOOD).
        { intros Heq. apply (proj2 (isGood_true _)) in Heq. congruence. }
        split.
        -- split; [done|]. intros Hall. apply Forall_cons in Hall as [[?|?] _]; done.
        -- intros _. exists [], sp, rest. split_and!; try done.
Qed.

(** ** Listeners *)

Section Listeners.
Context `{Collaborators}.

Lemma createServerConnection_loop_status params todo : ∀ i el res el',
  createServerConnection_loop params i todo el = (res, el') →
  res = UA_STATUSCODE_GOOD ∨ res = UA_STATUSCODE_BADINTERNALERROR.
Proof.
  induction todo as [|es rest IH]; intros i el res el'; simpl.
  - intros Heq. inversion Heq. auto.
  - destruct (negb (bool_decide _)); [apply IH|].
    destruct (negb (UA_String_equal _ _)); [apply IH|].
    destruct (cm_openConnection el i params UA_Server_networkCallback) as [res1 el1].
    destruct (isGood res1) eqn:Hg; [|apply IH].
    intros Heq. inversion Heq; subst. left. by apply isGood_true.
Qed.

Lemma createServerConnection_loop_no_manager params todo : ∀ i el,
  Forall (λ es, ¬ tcp_manager es) todo →
  createServerConnection_loop params i todo el = (UA_STATUSCODE_BADINTERNALERROR, el).
Proof.
  induction todo as [|es rest IH]; intros i el Hall; simpl; [done|].
  apply Forall_cons in Hall as [Hno Hall].
  destruct (bool_decide (eventSourceType es = UA_EVENTSOURCETYPE_CONNECTIONMANAGER))
    eqn:Htype; simpl; [|by apply IH].
  destruct (UA_String_equal tcpString (protocol es)) eqn:Htcp; simpl; [|by apply IH].
  destruct Hno. split; [by apply bool_decide_eq_true in Htype | done].
Qed.

Lemma createServerConnection_status_result (s : UA_Server) (url : UA_String)
    (res : UA_StatusCode) (s' : UA_Server) :
  UA_Server_createServerConnection s url = Returns (res, s') →
  (UA_parseEndpointUrl url).1.1 ≠ UA_STATUSCODE_GOOD ∧ res = (UA_parseEndpointUrl url).1.1
    ∧ s' = s
  ∨ (UA_parseEndpointUrl url).1.1 = UA_STATUSCODE_GOOD
    ∧ (res = UA_STATUSCODE_GOOD ∨ res = UA_STATUSCODE_BADINTERNALERROR).
Proof.
  unfold UA_Server_createServerConnection.
  destruct (UA_parseEndpointUrl url) as [[pres hostname] parsedPort]. simpl.
  destruct (isGood pres) eqn:Hg; simpl.
  - apply isGood_true in Hg. destruct (eventLoop (config s)) as [el|]; [|discriminate].
    destruct (createServerConnection_loop _ 0 (eventSources el) el) as [res1 el1] eqn:Hloop.
    intros Heq. inversion Heq; subst. right. split; [done|].
    by eapply createServerConnection_loop_status.
  - intros Heq. inversion Heq; subst. left. split_and!; try done.
    intros Heq'. apply (proj2 (isGood_true _)) in Heq'. congruence.
Qed.

(** The status of [UA_Server_createServerConnection]: a URL that does not
    parse is answered with the status of the parser, without touching the
    server; otherwise the answer is good or internal error — the status of
    a connection manager that refused is never handed to the caller. *)
Theorem createServerConnection_status (s : UA_Server) (url : UA_String)
    (el : UA_EventLoop) :
  eventLoop (config s) = Some el →
  ∃ res s',
    UA_Server_createServerConnection s url = Returns (res, s')
    ∧ ((UA_parseEndpointUrl url).1.1 ≠ UA_STATUSCODE_GOOD
       ∧ res = (UA_parseEndpointUrl url).1.1 ∧ s' = s
       ∨ (UA_parseEndpointUrl url).1.1 = UA_STATUSCODE_GOOD
         ∧ (res = UA_STATUSCODE_GOOD ∨ res = UA_STATUSCODE_BADINTERNALERROR)).
Proof.
  intros Hel.
  assert (∃ res s', UA_Server_createServerConnection s url = Returns (res, s'))
    as (res & s' & Hcreate).
  { unfold UA_Server_createServerConnection.
    destruct (UA_parseEndpointUrl url) as [[pres hostname] parsedPort].
    destruct (negb (isGood pres)); [eauto|]. rewrite Hel.
    destruct (createServerConnection_loop _ 0 (eventSources el) el); eauto. }
  exists res, s'. split; [done|]. by apply createServerConnection_status_result.
Qed.

Lemma createServerConnection_loop_first_accepts params skipped : ∀ i es rest el el',
  Forall (λ es, ¬ tcp_manager es) skipped →
  tcp_manager es →
  cm_openConnection el (i + length skipped) params UA_Server_networkCallback
  = (UA_STATUSCODE_GOOD, el') →
  createServerConnection_loop params i (skipped ++ es :: rest) el
  = (UA_STATUSCODE_GOOD, el').
Proof.
  induction skipped as [|sk skipped IH]; intros i es rest el el' Hskip [Htype Htcp] Hopen;
    simpl.
  - rewrite Htype, Htcp. rewrite bool_decide_eq_true_2 by done. simpl.
    simpl in Hopen. rewrite Nat.add_0_r in Hopen. by rewrite Hopen.
  - apply Forall_cons in Hskip as [Hno Hskip].
    assert (Hnext : createServerConnection_loop params (S i) (skipped ++ es :: rest) el
                    = (UA_STATUSCODE_GOOD, el')).
    { apply IH; [done | done |]. simpl in Hopen.
      by replace (S i + length skipped) with (i + S (length skipped)) by lia. }
    destruct (bool_decide (eventSourceType sk = UA_EVENTSOURCETYPE_CONNECTIONMANAGER))
      eqn:Hsk; simpl; [|done].
    destruct (UA_String_equal tcpString (protocol sk)) eqn:Hsktcp; simpl; [|done].
    destruct Hno. split; [by apply bool_decide_eq_true in Hsk | done].
Qed.

(** The first TCP connection manager that accepts wins: when the first TCP
    connection manager of the event-source list opens the connection, the
    result is good with the event loop as that one call left it, whatever
    event sources follow — they are not asked. *)
Theorem createServerConnection_first_manager_wins (s : UA_Server) (url hostname : UA_String)
    (parsedPort : option Z) (el el' : UA_EventLoop) (skipped : list UA_EventSource)
    (es : UA_EventSource) (rest : list UA_EventSource) :
  UA_parseEndpointUrl url = (UA_STATUSCODE_GOOD, hostname, parsedPort) →
  eventLoop (config s) = Some el →
  eventSources el = skipped ++ es :: rest →
  Forall (λ es, ¬ tcp_manager es) skipped →
  tcp_manager es →
  cm_openConnection el (length skipped) (listen_params hostname parsedPort)
    UA_Server_networkCallback = (UA_STATUSCODE_GOOD, el') →
  UA_Server_createServerConnection s url
  = Returns (UA_STATUSCODE_GOOD, set_config (set_eventLoop (Some el') (config s)) s).
Proof.
  intros Hparse Hel Hsources Hskip Htcp Hopen.
  unfold UA_Server_createServerConnection. rewrite Hparse, Hel, Hsources. simpl.
  fold (listen_params hostname parsedPort).
  by rewrite (createServerConnection_loop_first_accepts _ skipped 0 es rest el el').
Qed.

End Listeners.

Lemma createServerConnection_status_witness :
  ∃ res s',
    @UA_Server_createServerConnection Example2.refusing Example.two_managers_server
      (Some "opc.tcp://client.example:4840") = Returns (res, s')
    ∧ ((@UA_parseEndpointUrl Example2.refusing (Some "opc.tcp://client.example:4840")).1.1
         ≠ UA_STATUSCODE_GOOD
       ∧ res = (@UA_parseEndpointUrl Example2.refusing
                  (Some "opc.tcp://client.example:4840")).1.1
       ∧ s' = Example.two_managers_server
       ∨ (@UA_parseEndpointUrl Example2.refusing (Some "opc.tcp://client.example:4840")).1.1
         = UA_STATUSCODE_GOOD
         ∧ (res = UA_STATUSCODE_GOOD ∨ res = UA_STATUSCODE_BADINTERNALERROR)).
Proof.
  apply (@createServerConnection_status Example2.refusing Example.two_managers_server
           (Some "opc.tcp://client.example:4840")
           (Example.loop [Example.tcp UA_EVENTSOURCESTATE_STARTED;
                          Example.tcp UA_EVENTSOURCESTATE_STARTED])).
  reflexivity.
Defined.

Lemma createServerConnection_first_manager_wins_witness :
  @UA_Server_createServerConnection (Example.collaborators 0) Example.two_managers_server
    (Some "opc.tcp://client.example:4840")
  = Returns (UA_STATUSCODE_GOOD,
             set_config (set_eventLoop
               (Some (Example.loop [Example.tcp UA_EVENTSOURCESTATE_STARTED;
                                    Example.tcp UA_EVENTSOURCESTATE_STARTED]))
               (config Example.two_managers_server)) Example.two_managers_server).
Proof.
  apply (@createServerConnection_first_manager_wins (Example.collaborators 0)
           Example.two_managers_server (Some "opc.tcp://client.example:4840")
           (Some "client.example") None
           (Example.loop [Example.tcp UA_EVENTSOURCESTATE_STARTED;
                          Example.tcp UA_EVENTSOURCESTATE_STARTED]) _
           [] (Example.tcp UA_EVENTSOURCESTATE_STARTED)
           [Example.tcp UA_EVENTSOURCESTATE_STARTED]).
  - reflexivity.
  - reflexivity.
  - reflexivity.
  - constructor.
  - split; reflexivity.
  - reflexivity.
Defined.

(** ** Startup: what a repeated startup touches, and soft failure *)

Lemma only_event_loop_changed_refl s : only_event_loop_changed s s.
Proof.
  exists (eventLoop (config s)), (houseKeepingCallbackId s).
  destruct s as [c]. by destruct c.
Qed.

Lemma only_event_loop_changed_trans s1 s2 s3 :
  only_event_loop_changed s1 s2 → only_event_loop_changed s2 s3 →
  only_event_loop_changed s1 s3.
Proof. intros (el & id & ->) (el' & id' & ->). by exists el', id'. Qed.

Lemma only_event_loop_changed_eventLoop s el :
  only_event_loop_changed s (set_config (set_eventLoop el (config s)) s).
Proof. exists el, (houseKeepingCallbackId s). by destruct s. Qed.

Section StartupMore.
Context `{Collaborators}.

Lemma addRepeatedCallback_only_event_loop s cb interval res id s' :
  addRepeatedCallback s cb interval = Returns (res, id, s') →
  only_event_loop_changed s s' ∧ is_Some (eventLoop (config s')).
Proof.
  unfold addRepeatedCallback. destruct (eventLoop (config s)) as [el|]; [|discriminate].
  destruct (el_addCyclicCallback el cb interval) as [[res' id'] el'].
  intros Heq. inversion Heq; subst.
  split; [apply only_event_loop_changed_eventLoop | by eexists].
Qed.

Lemma startup_houseKeeping_only_event_loop s s' :
  startup_houseKeeping s = Returns s' →
  only_event_loop_changed s s'
  ∧ (is_Some (eventLoop (config s)) → is_Some (eventLoop (config s'))).
Proof.
  unfold startup_houseKeeping.
  destruct (houseKeepingCallbackId s =? 0)%Z;
    [|intros Heq; inversion Heq; subst; split; [apply only_event_loop_changed_refl | done]].
  destruct (addRepeatedCallback s serverHouseKeeping 1000) as [[[res id] s1]|] eqn:Hadd;
    [|discriminate].
  apply addRepeatedCallback_only_event_loop in Hadd as [Hadd Hsome].
  destruct id; intros Heq; inversion Heq; subst; [|done].
  split; [|done]. destruct Hadd as (el & id & ->). by exists el, z.
Qed.

Lemma startup_houseKeeping_returns s :
  is_Some (eventLoop (config s)) → ∃ s', startup_houseKeeping s = Returns s'.
Proof.
  intros [el Hel]. unfold startup_houseKeeping, addRepeatedCallback. rewrite Hel.
  destruct (houseKeepingCallbackId s =? 0)%Z; [|eauto].
  destruct (el_addCyclicCallback el serverHouseKeeping 1000) as [[res [id|]] el']; eauto.
Qed.

Lemma createServerConnection_only_event_loop s url res s' :
  UA_Server_createServerConnection s url = Returns (res, s') →
  only_event_loop_changed s s'
  ∧ (is_Some (eventLoop (config s)) → is_Some (eventLoop (config s'))).
Proof.
  unfold UA_Server_createServerConnection.
  destruct (UA_parseEndpointUrl url) as [[res0 hostname] parsedPort].
  destruct (negb (isGood res0)).
  { intros Heq. inversion Heq; subst. split; [apply only_event_loop_changed_refl | done]. }
  destruct (eventLoop (config s)) as [el|]; [|discriminate].
  destruct (createServerConnection_loop _ 0 (eventSources el) el) as [res1 el1].
  intros Heq. inversion Heq; subst.
  split; [apply only_event_loop_changed_eventLoop | by eexists].
Qed.

Lemma createServerConnection_returns s url :
  is_Some (eventLoop (config s)) →
  ∃ res s', UA_Server_createServerConnection s url = Returns (res, s').
Proof.
  intros [el Hel]. unfold UA_Server_createServerConnection. rewrite Hel.
  destruct (UA_parseEndpointUrl url) as [[res0 hostname] parsedPort].
  destruct (negb (isGood res0)); [eauto|].
  destruct (createServerConnection_loop _ 0 (eventSources el) el) as [res1 el1]. eauto.
Qed.

Lemma startup_serverUrls_only_event_loop todo : ∀ have s have' s',
  startup_serverUrls todo have s = Returns (have', s') →
  only_event_loop_changed s s'
  ∧ (is_Some (eventLoop (config s)) → is_Some (eventLoop (config s'))).
Proof.
  induction todo as [|url rest IH]; intros have s have' s'; simpl.
  - intros Heq. inversion Heq; subst. split; [apply only_event_loop_changed_refl | done].
  - destruct (UA_Server_createServerConnection s url) as [[res s1]|] eqn:Hc; [|discriminate].
    apply createServerConnection_only_event_loop in Hc as [Hc Hsome].
    intros Hrest. apply IH in Hrest as [Hrest Hsome'].
    split; [by eapply only_event_loop_changed_trans | auto].
Qed.

Lemma startup_serverUrls_returns todo : ∀ have s,
  is_Some (eventLoop (config s)) →
  ∃ have' s', startup_serverUrls todo have s = Returns (have', s').
Proof.
  induction todo as [|url rest IH]; intros have s Hsome; simpl; [eauto|].
  destruct (createServerConnection_returns s url Hsome) as (res & s1 & Hc). rewrite Hc.
  apply IH. by apply createServerConnection_only_event_loop in Hc as [_ ?]; auto.
Qed.

Lemma startup_openSockets_only_event_loop s have s' :
  startup_openSockets s = Returns (have, s') →
  only_event_loop_changed s s'
  ∧ (is_Some (eventLoop (config s)) → is_Some (eventLoop (config s'))).
Proof.
  unfold startup_openSockets. destruct (serverUrls (config s)) as [|url rest].
  - destruct (UA_Server_createServerConnection s _) as [[res s1]|] eqn:Hc; [|discriminate].
    intros Heq. inversion Heq; subst. by eapply createServerConnection_only_event_loop.
  - apply startup_serverUrls_only_event_loop.
Qed.

Lemma startup_openSockets_returns s :
  is_Some (eventLoop (config s)) →
  ∃ have s', startup_openSockets s = Returns (have, s').
Proof.
  intros Hsome. unfold startup_openSockets. destruct (serverUrls (config s)) as [|url rest].
  - destruct (createServerConnection_returns s (Some "opc.tcp://:4840") Hsome)
      as (res & s1 & ->). eauto.
  - by apply startup_serverUrls_returns.
Qed.

(** A startup of a server that is past fresh is idempotent in all that the
    first startup sets up: if it returns good, the server differs from the
    one before only in the event loop, the identifier of the housekeeping
    callback and slot 1 of the namespace table; the start time, the
    discovery URLs, the endpoints and the lifecycle state are not touched. *)
Theorem run_startup_past_fresh (now : Z) (s s' : UA_Server) (h h' : Heap) :
  (lifecycle_value (state s) > lifecycle_value UA_SERVERLIFECYCLE_FRESH)%Z →
  run_startup now s h = Returns ((UA_STATUSCODE_GOOD, s'), h') →
  ∃ el id ns1,
    s' = set_namespaces (<[1:=ns1]> (namespaces s))
           (set_houseKeepingCallbackId id (set_config (set_eventLoop el (config s)) s)).
Proof.
  intros Hpast. unfold run_startup. munfold.
  destruct (startup_houseKeeping s) as [sa|] eqn:Hhk; [|discriminate].
  apply startup_houseKeeping_only_event_loop in Hhk as [Hhk _].
  destruct (eventLoop (config sa)) as [el|] eqn:Hel; [|discriminate].
  set (started := if negb (bool_decide (el_state el = UA_EVENTLOOPSTATE_STARTED))
                  then let '(retVal, el0) := el_start el in
                       (retVal, set_config (set_eventLoop (Some el0) (config sa)) sa)
                  else (UA_STATUSCODE_GOOD, sa)).
  assert (Hsb : only_event_loop_changed sa started.2).
  { unfold started. destruct (negb _); [|apply only_event_loop_changed_refl].
    destruct (el_start el). apply only_event_loop_changed_eventLoop. }
  destruct started as [retVal sb]. simpl in Hsb.
  destruct (isGood retVal) eqn:Hgood; simpl; [|not_good].
  destruct (startup_openSockets sb) as [[have s1]|] eqn:Hsock; [|discriminate].
  apply startup_openSockets_only_event_loop in Hsock as [Hsock _].
  assert (Hs1 : only_event_loop_changed s s1)
    by (eapply only_event_loop_changed_trans; [|exact Hsock];
        eapply only_event_loop_changed_trans; [exact Hhk | exact Hsb]).
  destruct Hs1 as (el1 & id1 & ->).
  destruct (setupNs1Uri _ h) as [[s2 h2]|] eqn:Hsetup; [|discriminate].
  destruct (setupNs1Uri_shape _ _ _ _ Hsetup) as (ns1 & -> & _).
  destruct (isGood (writeNs0VariableArray _ _)) eqn:Hwrite; simpl in *; [|not_good].
  change (lifecycle_value UA_SERVERLIFECYCLE_FRESH) with 0%Z in *.
  destruct (lifecycle_value (state s) >? 0)%Z eqn:Hgt; [|lia].
  intros Heq. inversion Heq; subst. eauto.
Qed.

Lemma UA_Array_appendCopy_ok arr new h :
  no_failure h →
  ∃ h', UA_Array_appendCopy arr new h = Returns ((UA_STATUSCODE_GOOD, arr ++ [new]), h')
        ∧ no_failure h'.
Proof.
  intros Hh. unfold UA_Array_appendCopy. munfold.
  destruct (UA_malloc_ok h Hh) as (h1 & -> & Hh1).
  destruct (UA_String_copy_ok new h1 Hh1) as (h2 & -> & Hh2). simpl. eauto.
Qed.

Lemma startup_discoveryUrls_ok todo : ∀ s h,
  no_failure h →
  ∃ s' h', startup_discoveryUrls todo s h = Returns ((UA_STATUSCODE_GOOD, s'), h').
Proof.
  induction todo as [|url rest IH]; intros s h Hh; simpl; [munfold; eauto|].
  destruct (UA_parseEndpointUrl url) as [[res0 hostname] parsedPort].
  destruct (negb (isGood res0) || (UA_String_length hostname =? 0)); [by apply IH|].
  munfold.
  destruct (UA_Array_appendCopy_ok (discoveryUrls (applicationDescription (config s)))
              url h Hh) as (h1 & -> & Hh1).
  simpl. by apply IH.
Qed.

Lemma UA_Array_copyMembers_returns src : ∀ h,
  ∃ res dst h', UA_Array_copyMembers src h = Returns ((res, dst), h').
Proof.
  induction src as [|x rest IH]; intros h; simpl; [munfold; eauto|]. munfold.
  destruct (UA_String_copy_any x h) as (res & dst & h1 & -> & _).
  destruct (isGood res); [|eauto].
  destruct (IH h1) as (res1 & dst1 & h2 & ->). destruct (isGood res1); eauto.
Qed.

Lemma UA_ApplicationDescription_copy_returns src h :
  ∃ res dst h', UA_ApplicationDescription_copy src h = Returns ((res, dst), h').
Proof.
  unfold UA_ApplicationDescription_copy. munfold.
  destruct (UA_String_copy_any (applicationUri src) h) as (res & dst & h1 & -> & _).
  destruct (negb (isGood res)); [eauto|].
  unfold UA_Array_copy. destruct (discoveryUrls src) as [|u urls]; [munfold; eauto|].
  munfold. destruct (UA_malloc h1) as [[[] h2]|] eqn:Hm.
  - destruct (UA_Array_copyMembers_returns (u :: urls) h2) as (res1 & dst1 & h3 & ->).
    destruct (negb (isGood res1)); eauto.
  - simpl. eauto.
  - by destruct h1.
Qed.

Lemma startup_endpoints_returns app todo : ∀ h,
  ∃ eds h', startup_endpoints app todo h = Returns (eds, h').
Proof.
  induction todo as [|ed rest IH]; intros h; simpl; [munfold; eauto|]. munfold.
  destruct (UA_ApplicationDescription_copy_returns app h) as (res & dst & h1 & ->).
  destruct (IH h1) as (eds & h2 & ->). eauto.
Qed.

(** Failure to open a listener is soft.  When the event loop starts, the
    server array can be written, the application URI verifies and no
    allocation fails, [UA_Server_run_startup] returns good — whatever the
    URL parser and the connection managers answer, that is, also when no
    listening socket could be opened at all. *)
Theorem run_startup_succeeds_without_listener (now : Z) (s : UA_Server) (h : Heap) :
  is_Some (eventLoop (config s)) →
  2 ≤ namespacesSize s →
  no_failure h →
  (∀ el, (el_start el).1 = UA_STATUSCODE_GOOD) →
  (∀ srv l, writeNs0VariableArray srv l = UA_STATUSCODE_GOOD) →
  (∀ cert uri, verifyApplicationURI cert uri = UA_STATUSCODE_GOOD) →
  ∃ s' h',
    UA_Server_run_startup now (Some s) h = Returns ((UA_STATUSCODE_GOOD, Some s'), h').
Proof.
  intros Hsome Hsize Hh Hstart Hwrite Hverify.
  unfold UA_Server_run_startup, run_startup. munfold.
  destruct (startup_houseKeeping_returns s Hsome) as (sa & Hhk). rewrite Hhk.
  apply startup_houseKeeping_only_event_loop in Hhk as [Hhk Hsa].
  destruct (Hsa Hsome) as [el Hel]. rewrite Hel.
  set (started := if negb (bool_decide (el_state el = UA_EVENTLOOPSTATE_STARTED))
                  then let '(retVal, el0) := el_start el in
                       (retVal, set_config (set_eventLoop (Some el0) (config sa)) sa)
                  else (UA_STATUSCODE_GOOD, sa)).
  assert (Hsb : started.1 = UA_STATUSCODE_GOOD
                ∧ only_event_loop_changed sa started.2
                ∧ is_Some (eventLoop (config started.2))).
  { unfold started. destruct (negb _).
    - specialize (Hstart el). destruct (el_start el) as [r el0]. simpl in *.
      split_and!; [done | apply only_event_loop_changed_eventLoop | by eexists].
    - simpl. split_and!; [done | apply only_event_loop_changed_refl | by eexists]. }
  destruct started as [retVal sb]. simpl in Hsb. destruct Hsb as (-> & Hsb & Hsbel).
  change (isGood UA_STATUSCODE_GOOD) with true. cbn [negb].
  destruct (startup_openSockets_returns sb Hsbel) as (have & s1 & Hsock). rewrite Hsock.
  apply startup_openSockets_only_event_loop in Hsock as [Hsock _].
  assert (Hs1 : only_event_loop_changed s s1)
    by (eapply only_event_loop_changed_trans; [|exact Hsock];
        eapply only_event_loop_changed_trans; [exact Hhk | exact Hsb]).
  destruct Hs1 as (el1 & id1 & ->). cbn [lift].
  set (s1 := set_houseKeepingCallbackId id1 (set_config (set_eventLoop el1 (config s)) s)).
  destruct (namespaces s1 !! 1) as [old|] eqn:H1;
    [|apply lookup_ge_None in H1; unfold namespacesSize in Hsize; simpl in H1; lia].
  destruct (setupNs1Uri_any s1 h old H1) as (ns1 & h2 & Hsetup & _ & Hok).
  rewrite Hsetup. destruct (Hok Hh) as [Hh2 _].
  rewrite Hwrite. change (isGood UA_STATUSCODE_GOOD) with true. cbn [negb].
  destruct (lifecycle_value _ >? _)%Z; [eauto|].
  assert (Hv : ∀ srv, verifyServerApplicationURI srv = UA_STATUSCODE_GOOD).
  { intros srv. unfold verifyServerApplicationURI.
    induction (securityPolicies (config srv)) as [|sp rest IH]; simpl; [done|].
    rewrite Hverify. change (isGood UA_STATUSCODE_GOOD) with true. simpl.
    by destruct (_ && _). }
  rewrite Hv. assert ((if UA_ENABLE_ENCRYPTION then UA_STATUSCODE_GOOD
                       else UA_STATUSCODE_GOOD) = UA_STATUSCODE_GOOD) as ->
    by (by destruct UA_ENABLE_ENCRYPTION).
  change (isGood UA_STATUSCODE_GOOD) with true. cbn [negb].
  match goal with
  | |- context [startup_discoveryUrls ?urls ?srv h2] =>
      destruct (startup_discoveryUrls_ok urls srv h2 Hh2) as (s3 & h3 & ->)
  end.
  change (isGood UA_STATUSCODE_GOOD) with true. cbn [negb].
  destruct (startup_endpoints_returns (applicationDescription (config s3))
              (endpoints (config s3)) h3) as (eds & h4 & ->).
  eauto.
Qed.

End StartupMore.

Lemma run_startup_succeeds_without_listener_witness :
  ∃ s' h',
    @UA_Server_run_startup (Example.collaborators 0) 5
      (Some (Example.fresh (Some "urn:app") [] (Example.loop []))) []
    = Returns ((UA_STATUSCODE_GOOD, Some s'), h').
Proof.
  apply (@run_startup_succeeds_without_listener (Example.collaborators 0) 5
           (Example.fresh (Some "urn:app") [] (Example.loop [])) []).
  - eexists. reflexivity.
  - unfold namespacesSize. simpl. lia.
  - constructor.
  - reflexivity.
  - reflexivity.
  - reflexivity.
Defined.

Lemma run_startup_past_fresh_witness :
  ∃ el id ns1,
    set_namespaces [Some "http://opcfoundation.org/UA/"; Some "urn:app"]
      (set_houseKeepingCallbackId 1
         (set_config
            (set_eventLoop
               (Some {| el_state := UA_EVENTLOOPSTATE_STARTED;
                        eventSources := [Example.tcp UA_EVENTSOURCESTATE_STARTED];
                        cyclicCallbacks := [(1%Z, serverHouseKeeping, 1000%Z)] |})
               (config (set_state UA_SERVERLIFECYCLE_STARTED Example.server0)))
            (set_state UA_SERVERLIFECYCLE_STARTED Example.server0)))
    = set_namespaces (<[1:=ns1]> (namespaces (set_state UA_SERVERLIFECYCLE_STARTED
                                                 Example.server0)))
        (set_houseKeepingCallbackId id
           (set_config (set_eventLoop el
                          (config (set_state UA_SERVERLIFECYCLE_STARTED Example.server0)))
              (set_state UA_SERVERLIFECYCLE_STARTED Example.server0))).
Proof.
  apply (@run_startup_past_fresh (Example.collaborators 0) 5
           (set_state UA_SERVERLIFECYCLE_STARTED Example.server0) _ [] []).
  - simpl. lia.
  - vm_compute. reflexivity.
Defined.


(** ** Reverse connect: attempts *)

Lemma set_eventLoop_id s el :
  eventLoop (config s) = Some el →
  set_config (set_eventLoop (Some el) (config s)) s = s.
Proof. intros Hel. destruct s as [c]. destruct c. simpl in *. by rewrite Hel. Qed.

Lemma same_target_refl c : same_target c c.
Proof. by repeat split. Qed.

Lemma state_callbacks_app log1 log2 :
  state_callbacks (log1 ++ log2) = state_callbacks log1 ++ state_callbacks log2.
Proof. unfold state_callbacks. apply omap_app. Qed.

Section Attempts.
Context `{Collaborators}.

Lemma tcp_manager_test es :
  negb (bool_decide (eventSourceType es = UA_EVENTSOURCETYPE_CONNECTIONMANAGER)) = false
  ∧ negb (UA_String_equal tcpString (protocol es)) = false
  ↔ tcp_manager es.
Proof.
  unfold tcp_manager. rewrite !negb_false_iff, bool_decide_eq_true. done.
Qed.

Lemma attemptReverseConnect_loop_skip es i rest el context res log :
  ¬ tcp_manager es →
  attemptReverseConnect_loop i (es :: rest) el context res log
  = attemptReverseConnect_loop (S i) rest el context res log.
Proof.
  intros Hno. simpl.
  destruct (negb (bool_decide _)) eqn:Htype; [done|].
  destruct (negb (UA_String_equal _ _)) eqn:Htcp; [done|].
  destruct Hno. by apply tcp_manager_test.
Qed.

Lemma attemptReverseConnect_loop_no_manager todo : ∀ i el context res log,
  Forall (λ es, ¬ tcp_manager es) todo →
  attemptReverseConnect_loop i todo el context res log = (res, el, context, log).
Proof.
  induction todo as [|es rest IH]; intros i el context res log Hall; [done|].
  apply Forall_cons in Hall as [Hno Hall].
  rewrite attemptReverseConnect_loop_skip by done. by apply IH.
Qed.

Lemma attemptReverseConnect_loop_skipped skipped : ∀ i rest el context res log,
  Forall (λ es, ¬ tcp_manager es) skipped →
  attemptReverseConnect_loop i (skipped ++ rest) el context res log
  = attemptReverseConnect_loop (i + length skipped) rest el context res log.
Proof.
  induction skipped as [|es skipped IH]; intros i rest el context res log Hall; simpl app.
  - simpl. by rewrite Nat.add_0_r.
  - apply Forall_cons in Hall as [Hno Hall].
    rewrite attemptReverseConnect_loop_skip by done. rewrite IH by done.
    simpl. f_equal. lia.
Qed.

(** Without a TCP connection manager among the event sources an attempt
    fails with internal error and does nothing: no connection is asked for,
    the entry keeps its state and no state callback is made. *)
Theorem attemptReverseConnect_no_manager (s : UA_Server) (el : UA_EventLoop)
    (context : reverse_connect_context) :
  eventLoop (config s) = Some el →
  Forall (λ es, ¬ tcp_manager es) (eventSources el) →
  attemptReverseConnect s context
  = Returns (UA_STATUSCODE_BADINTERNALERROR, s, context, []).
Proof.
  intros Hel Hall. unfold attemptReverseConnect. rewrite Hel.
  rewrite attemptReverseConnect_loop_no_manager by done.
  by rewrite set_eventLoop_id.
Qed.

(** When the first TCP connection manager is not started yet, the attempt
    is put off: it answers good-completes-asynchronously, asks for no
    connection and leaves the entry in its state, without a state
    callback. *)
Theorem attemptReverseConnect_manager_not_started (s : UA_Server) (el : UA_EventLoop)
    (context : reverse_connect_context) (skipped : list UA_EventSource)
    (es : UA_EventSource) (rest : list UA_EventSource) :
  eventLoop (config s) = Some el →
  eventSources el = skipped ++ es :: rest →
  Forall (λ es, ¬ tcp_manager es) skipped →
  tcp_manager es →
  es_state es ≠ UA_EVENTSOURCESTATE_STARTED →
  attemptReverseConnect s context
  = Returns (UA_STATUSCODE_GOODCOMPLETESASYNCHRONOUSLY, s, context, []).
Proof.
  intros Hel Hsources Hskip [Htype Htcp] Hstate. unfold attemptReverseConnect.
  rewrite Hel, Hsources. rewrite attemptReverseConnect_loop_skipped by done.
  simpl. rewrite Htype, Htcp. rewrite bool_decide_eq_true_2 by done.
  rewrite bool_decide_eq_false_2 by done. simpl. by rewrite set_eventLoop_id.
Qed.

Lemma attemptReverseConnect_loop_connecting todo : ∀ i el context res log,
  rc_state context = UA_SECURECHANNELSTATE_CONNECTING →
  let r := attemptReverseConnect_loop i todo el context res log in
  rc_state r.1.2 = UA_SECURECHANNELSTATE_CONNECTING
  ∧ state_callbacks r.2 = state_callbacks log
  ∧ same_target context r.1.2.
Proof.
  induction todo as [|es rest IH]; intros i el context res log Hstate; simpl.
  - split_and!; [done | done | apply same_target_refl].
  - destruct (negb (bool_decide _)); [by apply IH|].
    destruct (negb (UA_String_equal _ _)); [by apply IH|].
    destruct (negb (bool_decide (es_state es = _)));
      [simpl; split_and!; [done | done | apply same_target_refl]|].
    destruct (cm_openConnection el i _ _) as [res1 el1].
    set (context1 := if negb (isGood res1) then set_connectionId 0 context else context).
    assert (Hc1 : rc_state context1 = UA_SECURECHANNELSTATE_CONNECTING
                  ∧ same_target context context1).
    { unfold context1. destruct (negb (isGood res1)); split; try done;
        apply same_target_refl. }
    destruct Hc1 as [Hst1 Hsame1]. rewrite Hst1.
    rewrite bool_decide_eq_true_2 by done. simpl.
    destruct (IH (S i) el1 context1 res1 (log ++ [OpenConnection i
                [("address"%string, VString (hostname context));
                 ("port"%string, VUInt16 (port context))]]) Hst1)
      as (Hst & Hcb & Hsame).
    split_and!; [done | |].
    + rewrite Hcb, state_callbacks_app. simpl. by rewrite app_nil_r.
    + unfold same_target in *. intuition congruence.
Qed.

Lemma attemptReverseConnect_loop_first_started es rest i el context res log :
  tcp_manager es →
  es_state es = UA_EVENTSOURCESTATE_STARTED →
  let r := attemptReverseConnect_loop i (es :: rest) el context res log in
  rc_state r.1.2 = UA_SECURECHANNELSTATE_CONNECTING
  ∧ state_callbacks r.2 = state_callbacks log ++ connecting_report context
  ∧ same_target context r.1.2.
Proof.
  intros [Htype Htcp] Hstarted. simpl. rewrite Htype, Htcp, Hstarted.
  rewrite !bool_decide_eq_true_2 by done. simpl.
  destruct (cm_openConnection el i _ _) as [res1 el1].
  set (params := [("address"%string, VString (hostname context));
                  ("port"%string, VUInt16 (port context))]).
  set (context1 := if negb (isGood res1) then set_connectionId 0 context else context).
  assert (Hc1 : rc_state context1 = rc_state context
                ∧ stateCallback context1 = stateCallback context
                ∧ handle context1 = handle context
                ∧ same_target context context1).
  { unfold context1. destruct (negb (isGood res1)); split_and!; try done;
      apply same_target_refl. }
  destruct Hc1 as (Hst1 & Hcb1 & Hh1 & Hsame1).
  unfold connecting_report. rewrite Hst1.
  destruct (bool_decide (rc_state context = UA_SECURECHANNELSTATE_CONNECTING)) eqn:Hconn;
    simpl.
  - apply bool_decide_eq_true in Hconn.
    destruct (attemptReverseConnect_loop_connecting rest (S i) el1 context1 res1
                (log ++ [OpenConnection i params]) ltac:(congruence))
      as (Hst & Hcbs & Hsame).
    split_and!; [done | |].
    + rewrite Hcbs, state_callbacks_app. simpl. by rewrite !app_nil_r.
    + unfold same_target in *. intuition congruence.
  - set (context2 := set_rc_state UA_SECURECHANNELSTATE_CONNECTING context1).
    rewrite Hcb1, Hh1.
    set (log2 := match stateCallback context with
                 | Some cb => (log ++ [OpenConnection i params])
                              ++ [StateCallback cb (handle context)
                                    UA_SECURECHANNELSTATE_CONNECTING]
                 | None => log ++ [OpenConnection i params]
                 end).
    destruct (attemptReverseConnect_loop_connecting rest (S i) el1 context2 res1 log2
                eq_refl) as (Hst & Hcbs & Hsame).
    split_and!; [done | |].
    + rewrite Hcbs. unfold log2. destruct (stateCallback context);
        rewrite !state_callbacks_app; simpl; by rewrite ?app_nil_r.
    + unfold same_target in *. simpl in *. intuition congruence.
Qed.

(** An attempt that reaches a started TCP connection manager leaves the
    entry in the connecting state and reports that to the state callback
    exactly once — and not at all when the entry was connecting already or
    has no callback —, however many connection managers follow and whether
    or not the connection could be opened.  The target of the entry (host,
    port, handle, callback) is never changed. *)
Theorem attemptReverseConnect_reports_connecting_once (s : UA_Server) (el : UA_EventLoop)
    (context : reverse_connect_context) (skipped : list UA_EventSource)
    (es : UA_EventSource) (rest : list UA_EventSource) :
  eventLoop (config s) = Some el →
  eventSources el = skipped ++ es :: rest →
  Forall (λ es, ¬ tcp_manager es) skipped →
  tcp_manager es →
  es_state es = UA_EVENTSOURCESTATE_STARTED →
  ∃ res s' context' log,
    attemptReverseConnect s context = Returns (res, s', context', log)
    ∧ rc_state context' = UA_SECURECHANNELSTATE_CONNECTING
    ∧ state_callbacks log = connecting_report context
    ∧ same_target context context'.
Proof.
  intros Hel Hsources Hskip Htcp Hstarted. unfold attemptReverseConnect.
  rewrite Hel, Hsources. rewrite attemptReverseConnect_loop_skipped by done.
  pose proof (attemptReverseConnect_loop_first_started es rest (0 + length skipped) el
                context UA_STATUSCODE_BADINTERNALERROR [] Htcp Hstarted) as Hloop.
  cbv zeta in Hloop. rewrite app_nil_l in Hloop.
  destruct (attemptReverseConnect_loop _ (es :: rest) _ _ _ _) as [[[res el'] context'] log].
  eexists _, _, _, _. split; [reflexivity|]. exact Hloop.
Qed.

Lemma attemptReverseConnect_loop_same_target todo : ∀ i el context res log,
  same_target context (attemptReverseConnect_loop i todo el context res log).1.2.
Proof.
  induction todo as [|es rest IH]; intros i el context res log; simpl.
  - apply same_target_refl.
  - destruct (negb (bool_decide _)); [apply IH|].
    destruct (negb (UA_String_equal _ _)); [apply IH|].
    destruct (negb (bool_decide (es_state es = _))); [apply same_target_refl|].
    destruct (cm_openConnection el i _ _) as [res1 el1].
    set (context1 := if negb (isGood res1) then set_connectionId 0 context else context).
    assert (Hsame1 : same_target context context1)
      by (unfold context1; destruct (negb (isGood res1)); by repeat split).
    destruct (negb (bool_decide (rc_state context1 = _))).
    + match goal with
      | |- same_target _ (attemptReverseConnect_loop _ _ _ ?c _ _).1.2 =>
          pose proof (IH (S i) el1 c res1) as Hrest
      end.
      match goal with
      | |- same_target _ (attemptReverseConnect_loop _ _ _ _ _ ?l).1.2 =>
          specialize (Hrest l)
      end.
      unfold same_target in *. simpl in *. intuition congruence.
    + match goal with
      | |- same_target _ (attemptReverseConnect_loop _ _ _ _ _ ?l).1.2 =>
          pose proof (IH (S i) el1 context1 res1 l) as Hrest
      end.
      unfold same_target in *. intuition congruence.
Qed.

Lemma attemptReverseConnect_shape s context el :
  eventLoop (config s) = Some el →
  ∃ res el' context' log,
    attemptReverseConnect s context
    = Returns (res, set_config (set_eventLoop (Some el') (config s)) s, context', log)
    ∧ same_target context context'
    ∧ (context' = context ∨ connectionId context' = 0%Z
       ∨ connectionId context' = connectionId context).
Proof.
  intros Hel. unfold attemptReverseConnect. rewrite Hel.
  pose proof (attemptReverseConnect_loop_same_target (eventSources el) 0 el context
                UA_STATUSCODE_BADINTERNALERROR []) as Hsame.
  assert (Hid : ∀ todo i el0 c res log,
            connectionId (attemptReverseConnect_loop i todo el0 c res log).1.2 = 0%Z
            ∨ connectionId (attemptReverseConnect_loop i todo el0 c res log).1.2
              = connectionId c).
  { induction todo as [|es rest IH]; intros i el0 c res log; simpl; [auto|].
    destruct (negb (bool_decide _)); [apply IH|].
    destruct (negb (UA_String_equal _ _)); [apply IH|].
    destruct (negb (bool_decide (es_state es = _))); [auto|].
    destruct (cm_openConnection el0 i _ _) as [res1 el1].
    destruct (negb (isGood res1));
      destruct (negb (bool_decide (rc_state _ = _)));
      match goal with
      | |- context [attemptReverseConnect_loop ?i ?t ?e ?c ?r ?l] =>
          destruct (IH i e c r l) as [Hz|Hz]; rewrite Hz; simpl; auto
      end. }
  specialize (Hid (eventSources el) 0 el context UA_STATUSCODE_BADINTERNALERROR []).
  destruct (attemptReverseConnect_loop _ _ _ _ _ _) as [[[res el'] context'] log].
  simpl in *. eexists _, _, _, _. split; [reflexivity|]. split; [done|].
  destruct Hid; auto.
Qed.

End Attempts.

Lemma attemptReverseConnect_no_manager_witness :
  @attemptReverseConnect (Example.collaborators 0) Example2.udp_server Example.new_entry
  = Returns (UA_STATUSCODE_BADINTERNALERROR, Example2.udp_server, Example.new_entry, []).
Proof.
  apply (@attemptReverseConnect_no_manager (Example.collaborators 0) Example2.udp_server
           (Example.loop [Example2.udp]) Example.new_entry).
  - reflexivity.
  - repeat constructor. intros [_ Hp]. vm_compute in Hp. discriminate.
Defined.

Lemma attemptReverseConnect_manager_not_started_witness :
  @attemptReverseConnect (Example.collaborators 0) Example2.fresh_manager_server
    Example.new_entry
  = Returns (UA_STATUSCODE_GOODCOMPLETESASYNCHRONOUSLY, Example2.fresh_manager_server,
             Example.new_entry, []).
Proof.
  apply (@attemptReverseConnect_manager_not_started (Example.collaborators 0)
           Example2.fresh_manager_server
           (Example.loop [Example2.udp; Example.tcp UA_EVENTSOURCESTATE_FRESH;
                          Example.tcp UA_EVENTSOURCESTATE_STARTED])
           Example.new_entry [Example2.udp] (Example.tcp UA_EVENTSOURCESTATE_FRESH)
           [Example.tcp UA_EVENTSOURCESTATE_STARTED]).
  - reflexivity.
  - reflexivity.
  - repeat constructor. intros [_ Hp]. vm_compute in Hp. discriminate.
  - split; reflexivity.
  - discriminate.
Defined.

Lemma attemptReverseConnect_reports_connecting_once_witness :
  ∃ res s' context' log,
    @attemptReverseConnect Example2.refusing Example2.udp_tcp_server Example.new_entry
    = Returns (res, s', context', log)
    ∧ rc_state context' = UA_SECURECHANNELSTATE_CONNECTING
    ∧ state_callbacks log = connecting_report Example.new_entry
    ∧ same_target Example.new_entry context'.
Proof.
  apply (@attemptReverseConnect_reports_connecting_once Example2.refusing
           Example2.udp_tcp_server
           (Example.loop [Example2.udp; Example.tcp UA_EVENTSOURCESTATE_STARTED;
                          Example.tcp UA_EVENTSOURCESTATE_STARTED])
           Example.new_entry [Example2.udp] (Example.tcp UA_EVENTSOURCESTATE_STARTED)
           [Example.tcp UA_EVENTSOURCESTATE_STARTED]).
  - reflexivity.
  - reflexivity.
  - repeat constructor. intros [_ Hp]. vm_compute in Hp. discriminate.
  - split; reflexivity.
  - reflexivity.
Defined.

(** Both managers refuse; the state callback 7 is told once that the entry
    1 is connecting. *)
Example attemptReverseConnect_refused :
  ∃ s',
    @attemptReverseConnect Example2.refusing Example2.udp_tcp_server Example.new_entry
    = Returns (UA_STATUSCODE_BADINTERNALERROR, s',
               set_rc_state UA_SECURECHANNELSTATE_CONNECTING Example.new_entry,
               [OpenConnection 1 [("address"%string, VString (Some "client.example"));
                                  ("port"%string, VUInt16 4841)];
                StateCallback 7 1 UA_SECURECHANNELSTATE_CONNECTING;
                OpenConnection 2 [("address"%string, VString (Some "client.example"));
                                  ("port"%string, VUInt16 4841)]]).
Proof. eexists. vm_compute. reflexivity. Qed.


(** ** Reverse connect: adding and removing entries *)

Section ReverseConnects.
Context `{Collaborators} `{Teardown}.

Lemma setReverseConnectRetryCallback_returns s el enabled :
  eventLoop (config s) = Some el →
  ∃ s' el',
    setReverseConnectRetryCallback s enabled = Returns s'
    ∧ eventLoop (config s') = Some el'
    ∧ reverseConnects s' = reverseConnects s
    ∧ lastReverseConnectHandle s' = lastReverseConnectHandle s.
Proof.
  intros Hel. unfold setReverseConnectRetryCallback, addRepeatedCallback, removeCallback.
  rewrite Hel. destruct enabled; destruct (reverseConnectsCheckHandle s =? 0)%Z;
    try (by eexists _, _).
  destruct (el_addCyclicCallback el _ _) as [[res [id|]] el']; by eexists _, _.
Qed.

Lemma retry_callback_step s el enabled :
  eventLoop (config s) = Some el →
  ∃ s' el',
    match reverseConnects s with
    | [] => setReverseConnectRetryCallback s enabled
    | _ => Returns s
    end = Returns s'
    ∧ eventLoop (config s') = Some el'
    ∧ reverseConnects s' = reverseConnects s
    ∧ lastReverseConnectHandle s' = lastReverseConnectHandle s.
Proof.
  intros Hel. destruct (reverseConnects s) eqn:Hlist.
  - rewrite <-Hlist. by apply (setReverseConnectRetryCallback_returns s el).
  - exists s, el. by rewrite Hlist.
Qed.

Lemma addReverseConnect_core s url hostname_ port_ el cb ctx want h h1 st host' h2 :
  UA_parseEndpointUrl url = (UA_STATUSCODE_GOOD, hostname_, port_) →
  eventLoop (config s) = Some el →
  UA_malloc h = Returns (true, h1) →
  UA_String_copy hostname_ h1 = Returns ((st, host'), h2) →
  ∃ res s' c log el',
    UA_Server_addReverseConnect s url cb ctx want h
    = Returns ((res, (if want then Some (handle c) else None), s', log), h2)
    ∧ reverseConnects s' = c :: reverseConnects s
    ∧ lastReverseConnectHandle s' = to_UInt64 (lastReverseConnectHandle s + 1)
    ∧ eventLoop (config s') = Some el'
    ∧ handle c = to_UInt64 (lastReverseConnectHandle s + 1)
    ∧ hostname c = host' ∧ port c = default 0%Z port_
    ∧ stateCallback c = cb ∧ callbackContext c = ctx
    ∧ connectionId c = 0%Z ∧ destruction c = false.
Proof.
  intros Hparse Hel Hmalloc Hcopy. unfold UA_Server_addReverseConnect.
  rewrite Hparse. change (negb (isGood UA_STATUSCODE_GOOD)) with false. cbv iota.
  destruct (retry_callback_step s el true Hel) as (s1 & el1 & Hstep & Hel1 & Hlist1 & Hlast1).
  munfold. rewrite Hstep, Hmalloc. simpl. rewrite Hcopy.
  set (s2 := set_lastReverseConnectHandle _ s1).
  set (new := {| hostname := host' |}).
  set (s3 := set_reverseConnects _ s2).
  destruct (attemptReverseConnect_shape s3 new el1 Hel1)
    as (res & el' & c & log & -> & Hsame & Hid).
  simpl. eexists res, _, c, log, el'.
  destruct Hsame as (Hhost & Hport & Hhandle & Hcb & Hctx & Hdes).
  rewrite Hhandle. simpl. rewrite Hlist1, Hlast1.
  split_and!; try done.
  - simpl. by rewrite Hlast1.
  - destruct Hid as [->|[?|?]]; done.
Qed.

(** [UA_Server_addReverseConnect] for a URL that parses, when no allocation
    fails: an entry for the parsed host and port is put at the head of the
    list, before the older entries, with the next handle and the given
    callback; it stays in the list whatever the status of the first attempt
    is.  The handle is the one written to [*handle], it is different from
    the handles of all older entries, and the handles of the list stay
    pairwise different. *)
Theorem addReverseConnect_adds_entry (s : UA_Server) (url hostname_ : UA_String)
    (port_ : option Z) (el : UA_EventLoop) (cb : option nat) (ctx : nat) (want : bool)
    (h : Heap) :
  UA_parseEndpointUrl url = (UA_STATUSCODE_GOOD, hostname_, port_) →
  eventLoop (config s) = Some el →
  no_failure h →
  handles_issued s →
  (0 ≤ lastReverseConnectHandle s < 2 ^ 64 - 1)%Z →
  ∃ res s' c log h',
    UA_Server_addReverseConnect s url cb ctx want h
    = Returns ((res, (if want then Some (handle c) else None), s', log), h')
    ∧ reverseConnects s' = c :: reverseConnects s
    ∧ handle c = (lastReverseConnectHandle s + 1)%Z
    ∧ lastReverseConnectHandle s' = (lastReverseConnectHandle s + 1)%Z
    ∧ hostname c = hostname_ ∧ port c = default 0%Z port_
    ∧ stateCallback c = cb ∧ callbackContext c = ctx
    ∧ (handle c ∉ (handle <$> reverseConnects s))
    ∧ handles_issued s'.
Proof.
  intros Hparse Hel Hh [Hrange Hnodup] Hlast.
  destruct (UA_malloc_ok h Hh) as (h1 & Hmalloc & Hh1).
  destruct (UA_String_copy_ok hostname_ h1 Hh1) as (h2 & Hcopy & Hh2).
  destruct (addReverseConnect_core s url hostname_ port_ el cb ctx want h h1 _ _ h2
              Hparse Hel Hmalloc Hcopy)
    as (res & s' & c & log & el' & Hadd & Hlist & Hlast' & _ & Hhandle & Hhost & Hport
        & Hcb & Hctx & _).
  assert (Hnext : to_UInt64 (lastReverseConnectHandle s + 1)
                  = (lastReverseConnectHandle s + 1)%Z).
  { unfold to_UInt64. apply Z.mod_small. lia. }
  rewrite Hnext in *.
  assert (Hfresh : handle c ∉ (handle <$> reverseConnects s)).
  { intros Hin. apply list_elem_of_fmap in Hin as (c' & Heq & Hin).
    rewrite Forall_forall in Hrange. apply Hrange in Hin. lia. }
  exists res, s', c, log, h2. split_and!; try done.
  unfold handles_issued. rewrite Hlist, Hlast'. split.
  - constructor; [lia|]. eapply Forall_impl; [exact Hrange|]. simpl. intros; lia.
  - rewrite fmap_cons. by constructor.
Qed.

(** The status of the copy of the host name is not looked at: when that
    allocation fails, the entry is added all the same, with a null host
    name, and takes the next handle. *)
Theorem addReverseConnect_hostname_copy_unchecked (s : UA_Server) (url : UA_String)
    (name : string) (port_ : option Z) (el : UA_EventLoop) (cb : option nat) (ctx : nat)
    (want : bool) (h : Heap) :
  UA_parseEndpointUrl url = (UA_STATUSCODE_GOOD, Some name, port_) →
  name ≠ ""%string →
  eventLoop (config s) = Some el →
  ∃ res s' c log,
    UA_Server_addReverseConnect s url cb ctx want (true :: false :: h)
    = Returns ((res, (if want then Some (handle c) else None), s', log), h)
    ∧ reverseConnects s' = c :: reverseConnects s
    ∧ hostname c = None
    ∧ handle c = to_UInt64 (lastReverseConnectHandle s + 1).
Proof.
  intros Hparse Hname Hel.
  assert (Hcopy : UA_String_copy (Some name) (false :: h)
                  = Returns ((UA_STATUSCODE_BADOUTOFMEMORY, None), h)).
  { unfold UA_String_copy. destruct name as [|a name]; [done|]. reflexivity. }
  destruct (addReverseConnect_core s url (Some name) port_ el cb ctx want
              (true :: false :: h) (false :: h) _ _ h Hparse Hel eq_refl Hcopy)
    as (res & s' & c & log & el' & Hadd & Hlist & _ & _ & Hhandle & Hhost & _).
  by exists res, s', c, log.
Qed.

Lemma removeReverseConnect_found (before after : list reverse_connect_context)
    (rev : reverse_connect_context) :
  Forall (λ c, handle c ≠ handle rev) before →
  list_find (λ r, handle r = handle rev) (before ++ rev :: after)
  = Some (length before, rev).
Proof.
  intros Hbefore. apply list_find_Some. split_and!.
  - by rewrite list_lookup_middle.
  - done.
  - intros j y Hj Hlt. rewrite lookup_app_l in Hj by done.
    rewrite Forall_forall in Hbefore. apply Hbefore.
    by eapply list_elem_of_lookup_2.
Qed.

Lemma removeReverseConnect_core s el before rev after h :
  eventLoop (config s) = Some el →
  reverseConnects s = before ++ rev :: after →
  Forall (λ c, handle c ≠ handle rev) before →
  (connectionId rev = 0%Z ∨ ∃ h1, h = true :: h1 ∨ h = [] ∧ h1 = []) →
  ∃ s' log h' el',
    UA_Server_removeReverseConnect s (handle rev) h
    = Returns ((UA_STATUSCODE_GOOD, s',
                (if (connectionId rev =? 0)%Z then None
                 else Some (set_destruction true rev)), log), h')
    ∧ reverseConnects s' = before ++ after
    ∧ lastReverseConnectHandle s' = lastReverseConnectHandle s
    ∧ eventLoop (config s') = Some el'
    ∧ (connectionId rev = 0%Z → h' = h).
Proof.
  intros Hel Hlist Hbefore Hheap. unfold UA_Server_removeReverseConnect.
  rewrite Hlist, removeReverseConnect_found by done. rewrite delete_middle.
  destruct (connectionId rev =? 0)%Z eqn:Hid; cbn [negb].
  - destruct (setReverseConnectState rev UA_SECURECHANNELSTATE_CLOSED) as [rev' log].
    set (s1 := set_reverseConnects (before ++ after) s).
    destruct (retry_callback_step s1 el false Hel) as (s' & el' & Hstep & Hel' & Hl & Hlast).
    munfold. simpl in *. rewrite Hstep. by eexists s', log, h, el'.
  - apply Z.eqb_neq in Hid. destruct Hheap as [?|[h1 Hheap]]; [done|].
    set (s1 := set_reverseConnects (before ++ after) s).
    set (el1 := cm_closeConnection (el_addDelayedCallback el (handle rev)) (connectionId rev)).
    set (s2 := set_config (set_eventLoop (Some el1) (config s1)) s1).
    destruct (retry_callback_step s2 el1 false eq_refl)
      as (s' & el' & Hstep & Hel' & Hl & Hlast).
    munfold. destruct Hheap as [->|[-> ->]]; cbn [UA_malloc negb].
    all: change (eventLoop (config s1)) with (eventLoop (config s)); rewrite Hel.
    all: change (handle (set_destruction true rev)) with (handle rev);
      change (connectionId (set_destruction true rev)) with (connectionId rev);
      fold el1; fold s2.
    all: rewrite Hstep;
      eexists s', [], _, el'; split_and!; done.
Qed.

(** [UA_Server_removeReverseConnect] takes the first entry with the handle
    out of the list and answers good; the entries before and after it stay,
    in their order, and the handle counter is not set back.  An entry with a
    connection is marked for destruction and waits for its delayed release;
    an entry without one is released at once. *)
Theorem removeReverseConnect_removes_first_match (s : UA_Server) (el : UA_EventLoop)
    (before after : list reverse_connect_context) (rev : reverse_connect_context)
    (h : Heap) :
  eventLoop (config s) = Some el →
  reverseConnects s = before ++ rev :: after →
  Forall (λ c, handle c ≠ handle rev) before →
  no_failure h →
  ∃ s' log h',
    UA_Server_removeReverseConnect s (handle rev) h
    = Returns ((UA_STATUSCODE_GOOD, s',
                (if (connectionId rev =? 0)%Z then None
                 else Some (set_destruction true rev)), log), h')
    ∧ reverseConnects s' = before ++ after
    ∧ lastReverseConnectHandle s' = lastReverseConnectHandle s.
Proof.
  intros Hel Hlist Hbefore Hh.
  destruct (removeReverseConnect_core s el before rev after h Hel Hlist Hbefore)
    as (s' & log & h' & el' & Hrem & Hl & Hlast & _).
  { right. destruct h as [|ok h1]; [by exists []; right|].
    apply no_failure_tail in Hh as [-> _]. exists h1. by left. }
  by exists s', log, h'.
Qed.

(** The allocation of the delayed callback is not checked: removing an
    entry that has a connection dereferences a null pointer when the
    allocation fails. *)
Theorem removeReverseConnect_allocation_unchecked (s : UA_Server)
    (before after : list reverse_connect_context) (rev : reverse_connect_context)
    (h : Heap) :
  reverseConnects s = before ++ rev :: after →
  Forall (λ c, handle c ≠ handle rev) before →
  connectionId rev ≠ 0%Z →
  UA_Server_removeReverseConnect s (handle rev) (false :: h) = Undefined NullDereference.
Proof.
  intros Hlist Hbefore Hid. unfold UA_Server_removeReverseConnect.
  rewrite Hlist, removeReverseConnect_found by done.
  apply Z.eqb_neq in Hid. rewrite Hid. reflexivity.
Qed.

(** A handle that no entry has: the answer is not-found, the list of
    entries stays as it is, nothing is allocated and no state callback is
    made; a server that has entries is left unchanged altogether. *)
Theorem removeReverseConnect_unknown_handle (s : UA_Server) (el : UA_EventLoop)
    (handle_ : Z) (h : Heap) :
  eventLoop (config s) = Some el →
  Forall (λ c, handle c ≠ handle_) (reverseConnects s) →
  ∃ s',
    UA_Server_removeReverseConnect s handle_ h
    = Returns ((UA_STATUSCODE_BADNOTFOUND, s', None, []), h)
    ∧ reverseConnects s' = reverseConnects s
    ∧ (reverseConnects s ≠ [] → s' = s).
Proof.
  intros Hel Hall. unfold UA_Server_removeReverseConnect.
  assert (list_find (λ r, handle r = handle_) (reverseConnects s) = None) as ->.
  { apply list_find_None. eapply Forall_impl; [exact Hall|]. done. }
  destruct (retry_callback_step s el false Hel) as (s' & el' & Hstep & _ & Hl & _).
  munfold. rewrite Hstep. exists s'. split_and!; try done.
  intros Hne. destruct (reverseConnects s); [done|]. by inversion Hstep.
Qed.

(** Adding a reverse connect and removing it by the handle that was
    returned gives back the list of entries as it was; the handle counter
    stays advanced, so that the handle is not issued again. *)
Theorem addReverseConnect_then_remove (s : UA_Server) (url hostname_ : UA_String)
    (port_ : option Z) (el : UA_EventLoop) (cb : option nat) (ctx : nat) (h : Heap) :
  UA_parseEndpointUrl url = (UA_STATUSCODE_GOOD, hostname_, port_) →
  eventLoop (config s) = Some el →
  no_failure h →
  ∃ res handle_ s1 log1 h1 s2 log2,
    UA_Server_addReverseConnect s url cb ctx true h
    = Returns ((res, Some handle_, s1, log1), h1)
    ∧ UA_Server_removeReverseConnect s1 handle_ h1
      = Returns ((UA_STATUSCODE_GOOD, s2, None, log2), h1)
    ∧ reverseConnects s2 = reverseConnects s
    ∧ lastReverseConnectHandle s2 = to_UInt64 (lastReverseConnectHandle s + 1).
Proof.
  intros Hparse Hel Hh.
  destruct (UA_malloc_ok h Hh) as (h1 & Hmalloc & Hh1).
  destruct (UA_String_copy_ok hostname_ h1 Hh1) as (h2 & Hcopy & Hh2).
  destruct (addReverseConnect_core s url hostname_ port_ el cb ctx true h h1 _ _ h2
              Hparse Hel Hmalloc Hcopy)
    as (res & s1 & c & log1 & el1 & Hadd & Hlist & Hlast & Hel1 & _ & _ & _ & _ & _
        & Hid & _).
  destruct (removeReverseConnect_core s1 el1 [] c (reverseConnects s) h2 Hel1 Hlist)
    as (s2 & log2 & h' & el2 & Hrem & Hl & Hlast2 & _ & Hheap); [constructor | by left |].
  rewrite Hid in Hrem. simpl in Hrem. rewrite (Hheap Hid) in Hrem.
  exists res, (handle c), s1, log1, h2, s2, log2. split_and!; try done.
  by rewrite Hlast2.
Qed.

End ReverseConnects.

Lemma addReverseConnect_adds_entry_witness :
  ∃ res s' c log h',
    @UA_Server_addReverseConnect (Example.collaborators 0) Example2.two_entries_server
      (Some "opc.tcp://client.example:4841") (Some 7) 0 true []
    = Returns ((res, Some (handle c), s', log), h')
    ∧ reverseConnects s' = c :: reverseConnects Example2.two_entries_server
    ∧ handle c = 3%Z
    ∧ lastReverseConnectHandle s' = 3%Z
    ∧ hostname c = Some "client.example" ∧ port c = 0%Z
    ∧ stateCallback c = Some 7 ∧ callbackContext c = 0
    ∧ (handle c ∉ (handle <$> reverseConnects Example2.two_entries_server))
    ∧ handles_issued s'.
Proof.
  apply (@addReverseConnect_adds_entry (Example.collaborators 0)
           Example2.two_entries_server (Some "opc.tcp://client.example:4841")
           (Some "client.example") None
           (Example.loop [Example.tcp UA_EVENTSOURCESTATE_STARTED]) (Some 7) 0 true []).
  - reflexivity.
  - reflexivity.
  - constructor.
  - split.
    + repeat constructor; simpl; lia.
    + simpl. apply NoDup_cons. split; [|apply NoDup_singleton].
      intros Hin. apply list_elem_of_singleton in Hin. discriminate.
  - simpl. lia.
Defined.

Lemma addReverseConnect_hostname_copy_unchecked_witness :
  ∃ res s' c log,
    @UA_Server_addReverseConnect (Example.collaborators 0) Example.server0
      (Some "opc.tcp://client.example:4841") None 0 true [true; false]
    = Returns ((res, Some (handle c), s', log), [])
    ∧ reverseConnects s' = c :: reverseConnects Example.server0
    ∧ hostname c = None
    ∧ handle c = to_UInt64 (lastReverseConnectHandle Example.server0 + 1).
Proof.
  apply (@addReverseConnect_hostname_copy_unchecked (Example.collaborators 0)
           Example.server0 (Some "opc.tcp://client.example:4841") "client.example" None
           (Example.loop [Example.tcp UA_EVENTSOURCESTATE_STARTED]) None 0 true []).
  - reflexivity.
  - discriminate.
  - reflexivity.
Defined.

(** The entry without a host name is handed to the connection manager as it
    is. *)
Example addReverseConnect_null_hostname :
  ∃ s',
    @UA_Server_addReverseConnect (Example.collaborators 0) Example.server0
      (Some "opc.tcp://client.example:4841") None 0 true [true; false]
    = Returns ((UA_STATUSCODE_GOOD, Some 1%Z, s',
                [OpenConnection 0 [("address"%string, VString None);
                                   ("port"%string, VUInt16 0)]]), []).
Proof. eexists. vm_compute. reflexivity. Qed.

Lemma removeReverseConnect_removes_first_match_witness :
  ∃ s' log h',
    @UA_Server_removeReverseConnect (Example.collaborators 0) Example2.teardown
      Example2.two_entries_server 1 []
    = Returns ((UA_STATUSCODE_GOOD, s', None, log), h')
    ∧ reverseConnects s' = [Example2.connected_entry] ++ []
    ∧ lastReverseConnectHandle s'
      = lastReverseConnectHandle Example2.two_entries_server.
Proof.
  apply (@removeReverseConnect_removes_first_match (Example.collaborators 0)
           Example2.teardown Example2.two_entries_server
           (Example.loop [Example.tcp UA_EVENTSOURCESTATE_STARTED])
           [Example2.connected_entry] [] Example.new_entry []).
  - reflexivity.
  - reflexivity.
  - repeat constructor. discriminate.
  - constructor.
Defined.

Lemma removeReverseConnect_allocation_unchecked_witness :
  @UA_Server_removeReverseConnect (Example.collaborators 0) Example2.teardown
    Example2.two_entries_server 2 [false]
  = Undefined NullDereference.
Proof.
  apply (@removeReverseConnect_allocation_unchecked (Example.collaborators 0)
           Example2.teardown Example2.two_entries_server
           [] [Example.new_entry] Example2.connected_entry []).
  - reflexivity.
  - constructor.
  - discriminate.
Defined.

Lemma removeReverseConnect_unknown_handle_witness :
  ∃ s',
    @UA_Server_removeReverseConnect (Example.collaborators 0) Example2.teardown
      Example2.two_entries_server 5 [false]
    = Returns ((UA_STATUSCODE_BADNOTFOUND, s', None, []), [false])
    ∧ reverseConnects s' = reverseConnects Example2.two_entries_server
    ∧ (reverseConnects Example2.two_entries_server ≠ []
       → s' = Example2.two_entries_server).
Proof.
  apply (@removeReverseConnect_unknown_handle (Example.collaborators 0)
           Example2.teardown Example2.two_entries_server
           (Example.loop [Example.tcp UA_EVENTSOURCESTATE_STARTED]) 5 [false]).
  - reflexivity.
  - repeat constructor; discriminate.
Defined.

Lemma addReverseConnect_then_remove_witness :
  ∃ res handle_ s1 log1 h1 s2 log2,
    @UA_Server_addReverseConnect (Example.collaborators 0) Example2.two_entries_server
      (Some "opc.tcp://client.example:4841") (Some 7) 0 true []
    = Returns ((res, Some handle_, s1, log1), h1)
    ∧ @UA_Server_removeReverseConnect (Example.collaborators 0) Example2.teardown
        s1 handle_ h1
      = Returns ((UA_STATUSCODE_GOOD, s2, None, log2), h1)
    ∧ reverseConnects s2 = reverseConnects Example2.two_entries_server
    ∧ lastReverseConnectHandle s2
      = to_UInt64 (lastReverseConnectHandle Example2.two_entries_server + 1).
Proof.
  apply (@addReverseConnect_then_remove (Example.collaborators 0) Example2.teardown
           Example2.two_entries_server (Some "opc.tcp://client.example:4841")
           (Some "client.example") None
           (Example.loop [Example.tcp UA_EVENTSOURCESTATE_STARTED]) (Some 7) 0 []).
  - reflexivity.
  - reflexivity.
  - constructor.
Defined.
